(** * A shallow embedding of the to-do application (app.py)

    The development follows the layout of the source file: text helpers,
    the persistence layer (two SQLite tables and the JSON fallback file),
    authentication, the task operations with the gamification step, the
    priority suggestion rule, the voice-text heuristics and the category
    histogram of the analytics page.  Theorems come after all definitions. *)

From Stdlib Require Import ZArith String Ascii List Bool Lia.
From stdpp Require Import base option list gmap strings fin_maps sorting.

Local Open Scope string_scope.
Local Open Scope Z_scope.

(** ** Python text helpers

    Text is a sequence of bytes.  On ASCII text ([isascii]) the helpers
    are Python's: [lower] is [str.lower], and [strip] removes the
    characters for which [str.isspace] holds.  Outside ASCII Python also
    folds the case of other letters and strips other blanks; statements
    that depend on it are made for ASCII text. *)
Module PyStr.

(** [s.isascii()] *)
Fixpoint isascii (s : string) : bool :=
  match s with
  | EmptyString => true
  | String c s' => ((nat_of_ascii c <? 128)%nat && isascii s')%bool
  end.

Definition lower_char (c : ascii) : ascii :=
  let n := nat_of_ascii c in
  if ((65 <=? n)%nat && (n <=? 90)%nat)%bool then ascii_of_nat (n + 32) else c.

Fixpoint lower (s : string) : string :=
  match s with
  | EmptyString => EmptyString
  | String c s' => String (lower_char c) (lower s')
  end.

Definition isspace (c : ascii) : bool :=
  let n := nat_of_ascii c in
  (((9 <=? n)%nat && (n <=? 13)%nat) || ((28 <=? n)%nat && (n <=? 32)%nat))%bool.

Fixpoint lstrip (s : string) : string :=
  match s with
  | EmptyString => EmptyString
  | String c s' => if isspace c then lstrip s' else s
  end.

(** [rstrip] keeps a character when it is not a space or when something
    survives to its right. *)
Fixpoint rstrip (s : string) : string :=
  match s with
  | EmptyString => EmptyString
  | String c s' =>
      match rstrip s' with
      | EmptyString => if isspace c then EmptyString else String c EmptyString
      | r => String c r
      end
  end.

Definition strip (s : string) : string := rstrip (lstrip s).

(** [contains sub s] is Python's [sub in s]. *)
Fixpoint contains (sub s : string) : bool :=
  (String.prefix sub s ||
   match s with
   | EmptyString => false
   | String _ s' => contains sub s'
   end)%bool.

(** [drop n s] is [s[n:]]. *)
Fixpoint drop (n : nat) (s : string) : string :=
  match n, s with
  | O, _ => s
  | S n', String _ s' => drop n' s'
  | S _, EmptyString => EmptyString
  end.

(** [replace_go fuel old new s] scans [s] from the left, replacing each
    non-overlapping occurrence of the non-empty text [old]. *)
Fixpoint replace_go (fuel : nat) (old new s : string) : string :=
  match fuel with
  | O => s
  | S fuel' =>
      match s with
      | EmptyString => EmptyString
      | String c s' =>
          if String.prefix old s
          then new ++ replace_go fuel' old new (drop (String.length old) s)
          else String c (replace_go fuel' old new s')
      end
  end.

(** [replace old new s] is [s.replace(old, new)] for a non-empty [old]. *)
Definition replace (old new s : string) : string :=
  replace_go (S (String.length s)) old new s.

End PyStr.

(** ** Exceptions and results *)

Inductive exn : Type :=
| ValueError
| TypeError
| KeyError
| OverflowError
| OperationalError
| IntegrityError.

Inductive outcome (A : Type) : Type :=
| Returned (a : A)
| Raised (e : exn).

Arguments Returned {A} a.
Arguments Raised {A} e.

(** ** Dates and clock readings

    A calendar date is its proleptic Gregorian ordinal ([date.toordinal]),
    so that [d - timedelta(days=1)] is [d - 1] and [(d1 - d2).days] is
    [d1 - d2]. *)
Definition date : Type := Z.

Record datetime : Type := mk_datetime {
  dt_date : date;          (* [.date()] *)
  dt_seconds : Z           (* seconds since midnight *)
}.

(** ** Library functions the source calls

    The Python standard library and passlib are outside the repository; the
    model is parametric in them. *)
Class Runtime : Type := {
  (* [datetime.fromisoformat]; [Raised] stands for the exception it throws *)
  datetime_fromisoformat : string -> outcome datetime;
  (* [date.isoformat()] *)
  date_isoformat : date -> string;
  (* [datetime.isoformat()] *)
  datetime_isoformat : datetime -> string;
  (* [datetime.isoformat(timespec="seconds")] *)
  datetime_isoformat_seconds : datetime -> string;
  (* [bcrypt.verify(password, hash)] on a text hash *)
  bcrypt_verify : string -> string -> outcome bool
}.

(** ** Python values reaching [suggest_priority_by_due]

    [pyobj] holds the values whose truth test ([bool(x)], as in [not due])
    returns; [pyarg] below adds the objects on which it raises. *)
Inductive pyobj : Type :=
| PyNone
| PyStr (s : string)
| PyDatetime (dt : datetime)
| PyDate (d : date)
| PyOther (truthy : bool).   (* any other object, known by its truth value *)

(** [bool(x)] *)
Definition truthy (x : pyobj) : bool :=
  match x with
  | PyNone => false
  | PyStr s => negb (String.eqb s "")
  | PyDatetime _ => true
  | PyDate _ => true
  | PyOther b => b
  end.

Section Helpers.
Context {rt : Runtime}.

(** The tail of [suggest_priority_by_due]: the three-way split on
    [delta = (due_dt - today).days]. *)
Definition classify (today due_dt : date) : string :=
  let delta := due_dt - today in
  if delta <=? 0 then "High"
  else if delta <=? 3 then "Medium"
  else "Low".

(** [suggest_priority_by_due(due)], with [today] the reading of
    [date.today()]. *)
Definition suggest_priority_by_due (today : date) (due : pyobj) : outcome string :=
  if negb (truthy due) then Returned "Low"
  else
    match due with
    | PyStr s =>
        match datetime_fromisoformat s with
        | Returned dt => Returned (classify today (dt_date dt))
        | Raised _ => Returned "Low"          (* except Exception *)
        end
    | PyDatetime dt => Returned (classify today (dt_date dt))
    | PyDate d => Returned (classify today d)
    | _ => Returned "Low"
    end.



(** The Python value of an optional calendar date. *)
Definition due_of (d : option date) : pyobj :=
  match d with
  | Some x => PyDate x
  | None => PyNone
  end.


End Helpers.

(** ** Persisted state

    The two tables of [init_db], keyed by their primary keys.  A column
    declared without NOT NULL holds an [option]; [done] is the INTEGER 0/1
    the source writes, read back with [bool()]. *)

Record user_row : Type := mk_user {
  u_email : string;
  u_name : string;
  u_password_hash : option string;
  u_provider : string;
  u_points : option Z;
  u_streak : option Z;
  u_last_complete_date : option string;
  u_created_at : string
}.

Record task_row : Type := mk_task {
  t_user_id : Z;
  t_title : string;
  t_desc : option string;
  t_due : option string;
  t_priority : option string;
  t_category : option string;
  t_done : bool;
  t_created_at : string;
  t_completed_at : option string
}.

Record db : Type := mk_db {
  users : gmap Z user_row;
  tasks : gmap string task_row
}.

(** A record of the JSON fallback file (data/todos.json). *)
Record json_task : Type := mk_json_task {
  j_id : string;
  j_title : option string;
  j_desc : option string;
  j_due : option string;
  j_priority : option string;
  j_category : option string;
  j_done : bool;
  j_created_at : string;
  j_completed_at : option string
}.

(** Everything the application persists.  [st_json] is the decoded content
    of the fallback file, [[]] when the file is missing or unreadable. *)
Record store : Type := mk_store {
  st_db : db;
  st_json : list json_task
}.

(** ** Python dictionaries *)

Inductive pyval : Type :=
| VNone
| VBool (b : bool)
| VInt (z : Z)
| VStr (s : string).

Global Instance pyval_eq_dec : EqDecision pyval.
Proof. solve_decision. Defined.

Abbreviation pydict := (gmap string pyval).

Definition opt_str (o : option string) : pyval :=
  match o with Some s => VStr s | None => VNone end.

Definition opt_int (o : option Z) : pyval :=
  match o with Some z => VInt z | None => VNone end.

(** [dict(row)] for a row of [users]. *)
Definition dict_of_user (id : Z) (r : user_row) : pydict :=
  list_to_map
    [ ("id", VInt id);
      ("email", VStr (u_email r));
      ("name", VStr (u_name r));
      ("password_hash", opt_str (u_password_hash r));
      ("provider", VStr (u_provider r));
      ("points", opt_int (u_points r));
      ("streak", opt_int (u_streak r));
      ("last_complete_date", opt_str (u_last_complete_date r));
      ("created_at", VStr (u_created_at r)) ].

(** [dict(r)] for a row of [tasks], with [d["done"] = bool(d["done"])]. *)
Definition dict_of_task (id : string) (r : task_row) : pydict :=
  list_to_map
    [ ("id", VStr id);
      ("user_id", VInt (t_user_id r));
      ("title", VStr (t_title r));
      ("desc", opt_str (t_desc r));
      ("due", opt_str (t_due r));
      ("priority", opt_str (t_priority r));
      ("category", opt_str (t_category r));
      ("done", VBool (t_done r));
      ("created_at", VStr (t_created_at r));
      ("completed_at", opt_str (t_completed_at r)) ].

(** The rows of [SELECT * FROM tasks WHERE user_id = ?]. *)
Definition rows_of (uid : Z) (d : db) : list (string * task_row) :=
  List.filter (fun ir => t_user_id (snd ir) =? uid) (map_to_list (tasks d)).

(** [ORDER BY created_at ASC] *)
Definition created_before (a b : string * task_row) : Prop :=
  String.le (t_created_at (snd a)) (t_created_at (snd b)).

Global Instance created_before_dec : RelDecision created_before.
Proof. intros a b. unfold created_before. apply _. Defined.

(** The database branch of [load_tasks()] for the session user [uid]. *)
Definition load_tasks (uid : Z) (d : db) : list pydict :=
  List.map (fun ir => dict_of_task (fst ir) (snd ir))
           (merge_sort created_before (rows_of uid d)).

(** ** A connection to the store

    A connection works on a private copy of the database and publishes it
    at [commit]; what was not committed is lost when the connection goes
    away.  [budget] injects a storage failure: [Some n] makes the
    statement or commit after the next [n] raise, [None] never fails. *)

Record conn : Type := mk_conn {
  committed : db;
  working : db;
  budget : option nat
}.

Definition sql (A : Type) : Type := conn -> outcome A * conn.

Definition sql_ret {A : Type} (a : A) : sql A := fun c => (Returned a, c).

Definition sql_raise {A : Type} (e : exn) : sql A := fun c => (Raised e, c).

Definition sql_bind {A B : Type} (m : sql A) (k : A -> sql B) : sql B :=
  fun c =>
    match m c with
    | (Returned a, c') => k a c'
    | (Raised e, c') => (Raised e, c')
    end.

Declare Scope sql_scope.
Delimit Scope sql_scope with sql.
Notation "x <- m ;; k" := (sql_bind m (fun x => k))
  (at level 100, m at next level, right associativity) : sql_scope.
Notation "m ;;; k" := (sql_bind m (fun _ => k))
  (at level 100, right associativity) : sql_scope.

(** One tick of the failure budget. *)
Definition spend (b : option nat) : option (option nat) :=
  match b with
  | None => Some None
  | Some O => None
  | Some (S n) => Some (Some n)
  end.

(** [cur.execute(...)]: run a statement on the working copy. *)
Definition execute {A : Type} (stmt : db -> outcome (A * db)) : sql A :=
  fun c =>
    match spend (budget c) with
    | None => (Raised OperationalError, c)
    | Some b =>
        match stmt (working c) with
        | Returned (a, d) => (Returned a, mk_conn (committed c) d b)
        | Raised e => (Raised e, mk_conn (committed c) (working c) b)
        end
    end.

(** [conn.commit()] *)
Definition commit : sql unit :=
  fun c =>
    match spend (budget c) with
    | None => (Raised OperationalError, c)
    | Some b => (Returned tt, mk_conn (working c) (working c) b)
    end.

(** [keeps P m]: on a connection whose committed and working copies
    satisfy [P], running [m] leaves both copies satisfying [P], however
    the run ends. *)
Definition keeps {A : Type} (P : db -> Prop) (m : sql A) : Prop :=
  forall c, P (committed c) -> P (working c) ->
            P (committed (snd (m c))) /\ P (working (snd (m c))).

(** [stmt_keeps P stmt]: a statement that runs to its end on a database
    satisfying [P] yields one satisfying [P]. *)
Definition stmt_keeps {A : Type} (P : db -> Prop) (stmt : db -> outcome (A * db)) : Prop :=
  forall d, P d ->
            match stmt d with
            | Returned (_, d') => P d'
            | Raised _ => True
            end.

(** [sim R m1 m2]: on connections with the same failure budget whose
    copies are related by [R], the two runs end with the same result and
    leave the copies related. *)
Definition sim {A : Type} (R : db -> db -> Prop) (m1 m2 : sql A) : Prop :=
  forall c1 c2,
    budget c1 = budget c2 ->
    R (committed c1) (committed c2) ->
    R (working c1) (working c2) ->
    fst (m1 c1) = fst (m2 c2)
    /\ budget (snd (m1 c1)) = budget (snd (m2 c2))
    /\ R (committed (snd (m1 c1))) (committed (snd (m2 c2)))
    /\ R (working (snd (m1 c1))) (working (snd (m2 c2))).

Definition stmt_sim {A : Type} (R : db -> db -> Prop) (s1 s2 : db -> outcome (A * db)) : Prop :=
  forall d1 d2,
    R d1 d2 ->
    match s1 d1, s2 d2 with
    | Returned (a1, d1'), Returned (a2, d2') => a1 = a2 /\ R d1' d2'
    | Raised e1, Raised e2 => e1 = e2
    | _, _ => False
    end.

(** Open a connection on [d], run [m], and report what the call returned
    together with the database that is persisted afterwards. *)
Definition with_conn {A : Type} (fault : option nat) (m : sql A) (d : db) : outcome A * db :=
  let '(r, c) := m (mk_conn d d fault) in (r, committed c).

(** ** Keyword arguments of [update_task]

    The callers pass the columns the edit form and the checkbox change:
    title, desc, due, priority, category and done.  [None] is an absent
    keyword, [Some None] the keyword with value [None]; [p_done] holds the
    truth value of the [done] keyword.  Keywords that name another column,
    or no column, are outside the model. *)
Record patch : Type := mk_patch {
  p_title : option (option string);
  p_desc : option (option string);
  p_due : option (option string);
  p_priority : option (option string);
  p_category : option (option string);
  p_done : option bool
}.

(** [updates["done"] = 1 if bool(updates["done"]) else 0], read as
    [updates["done"] == 1]. *)
Definition sets_done (u : patch) : bool :=
  match p_done u with
  | Some true => true
  | _ => false
  end.

(** [not updates] after the [done] handling: no [k = ?] to put in SET. *)
Definition patch_is_empty (u : patch) : bool :=
  match p_title u, p_desc u, p_due u, p_priority u, p_category u, p_done u with
  | None, None, None, None, None, None => true
  | _, _, _, _, _, _ => false
  end.

Definition or_keep {A : Type} (new : option A) (old : A) : A :=
  match new with
  | Some v => v
  | None => old
  end.

(** The SET clause on a row of [tasks]; [completed_at] is the extra key the
    source adds when [done] is 1.  Writing NULL to the NOT NULL column
    [title] violates the constraint. *)
Definition set_task_fields (u : patch) (completed_at : option string) (r : task_row)
  : outcome task_row :=
  match p_title u with
  | Some None => Raised IntegrityError
  | _ =>
      Returned
        (mk_task (t_user_id r)
                 (match p_title u with Some (Some s) => s | _ => t_title r end)
                 (or_keep (p_desc u) (t_desc r))
                 (or_keep (p_due u) (t_due r))
                 (or_keep (p_priority u) (t_priority r))
                 (or_keep (p_category u) (t_category r))
                 (or_keep (p_done u) (t_done r))
                 (t_created_at r)
                 (match completed_at with Some s => Some s | None => t_completed_at r end))
  end.

(** [UPDATE tasks SET ... WHERE id = ? AND user_id = ?] *)
Definition stmt_update_task (task_id : string) (uid : Z) (u : patch)
    (completed_at : option string) (d : db) : outcome (unit * db) :=
  if patch_is_empty u then Raised OperationalError      (* "SET  WHERE" does not parse *)
  else
    match tasks d !! task_id with
    | Some r =>
        if t_user_id r =? uid then
          match set_task_fields u completed_at r with
          | Returned r' => Returned (tt, mk_db (users d) (<[task_id := r']> (tasks d)))
          | Raised e => Raised e
          end
        else Returned (tt, d)
    | None => Returned (tt, d)
    end.

(** [SELECT points, streak, last_complete_date FROM users WHERE id = ?] *)
Definition stmt_select_user (uid : Z) (d : db) : outcome (option user_row * db) :=
  Returned (users d !! uid, d).

(** [SELECT priority FROM tasks WHERE id = ? AND user_id = ?] *)
Definition stmt_select_priority (task_id : string) (uid : Z) (d : db)
  : outcome (option (option string) * db) :=
  Returned
    (match tasks d !! task_id with
     | Some r => if t_user_id r =? uid then Some (t_priority r) else None
     | None => None
     end, d).

(** [UPDATE users SET points = ?, streak = ?, last_complete_date = ? WHERE id = ?],
    for parameters that can be bound (see [gamify]). *)
Definition stmt_update_user (uid : Z) (points : Z) (streak : option Z)
    (last : string) (d : db) : outcome (unit * db) :=
  Returned
    (tt,
     match users d !! uid with
     | Some r =>
         mk_db (<[uid := mk_user (u_email r) (u_name r) (u_password_hash r) (u_provider r)
                           (Some points) streak (Some last) (u_created_at r)]> (users d))
               (tasks d)
     | None => d
     end).

(** [DELETE FROM tasks WHERE id = ? AND user_id = ?] *)
Definition stmt_delete_task (task_id : string) (uid : Z) (d : db) : outcome (unit * db) :=
  Returned
    (tt,
     match tasks d !! task_id with
     | Some r => if t_user_id r =? uid then mk_db (users d) (delete task_id (tasks d)) else d
     | None => d
     end).

(** [INSERT INTO tasks (...) VALUES (...)]; the primary key must be new. *)
Definition stmt_insert_task (task_id : string) (r : task_row) (d : db) : outcome (unit * db) :=
  match tasks d !! task_id with
  | Some _ => Raised IntegrityError
  | None => Returned (tt, mk_db (users d) (<[task_id := r]> (tasks d)))
  end.

(** [{"High":5,"Medium":2,"Low":0}.get(prio, 0)] *)
Definition priority_bonus (prio : option string) : Z :=
  match prio with
  | Some p =>
      if String.eqb p "High" then 5
      else if String.eqb p "Medium" then 2
      else 0
  | None => 0
  end.

(** SQLite stores an INTEGER in 64 bits; binding a Python [int] outside
    that range raises OverflowError. *)
Definition int64_max : Z := 9223372036854775807.

Definition in_int64 (z : Z) : bool := ((- int64_max - 1 <=? z) && (z <=? int64_max))%bool.

(** A parameter that is an [int] or [None] can be bound. *)
Definition binds (v : option Z) : bool :=
  match v with
  | Some z => in_int64 z
  | None => true
  end.

Arguments in_int64 z : simpl never.
Arguments binds v : simpl never.

(** [streak or 0] *)
Definition or_zero (streak : option Z) : Z :=
  match streak with
  | Some n => n
  | None => 0
  end.

(** The three-way streak rule of the completion branch. *)
Definition next_streak (today : date) (last_date : option date) (streak : option Z)
  : option Z :=
  match last_date with
  | Some l =>
      if l =? today - 1 then Some (or_zero streak + 1)
      else if l =? today then streak
      else Some 1
  | None => Some 1
  end.

Section Operations.
Context {rt : Runtime}.
Local Open Scope sql_scope.

(** *** Authentication *)

(** The row [fetchone()] yields for [SELECT * FROM users WHERE email = ?]. *)
Definition find_user_by_email (us : gmap Z user_row) (e : string) : option (Z * user_row) :=
  List.find (fun ir => String.eqb (u_email (snd ir)) e) (map_to_list us).

(** [get_user_by_email(email)] *)
Definition get_user_by_email (d : db) (email : string) : option pydict :=
  match find_user_by_email (users d) (PyStr.strip (PyStr.lower email)) with
  | Some (i, r) => Some (dict_of_user i r)
  | None => None
  end.

(** [user[k]] *)
Definition getitem (user : pydict) (k : string) : outcome pyval :=
  match user !! k with
  | Some v => Returned v
  | None => Raised KeyError
  end.

(** [login_local(email, password)]: the pair [(user, error message)]. *)
Definition login_local (d : db) (email password : string)
  : outcome (option pydict * option string) :=
  match get_user_by_email d email with
  | None => Returned (None, Some "No account found for that email.")
  | Some user =>
      match getitem user "provider" with
      | Raised e => Raised e
      | Returned provider =>
          if negb (bool_decide (provider = VStr "local")) then
            Returned (None, Some "This email is registered via Google. Use 'Continue with Google'.")
          else
            match getitem user "password_hash" with
            | Raised e => Raised e
            | Returned (VStr h) =>
                match bcrypt_verify password h with
                | Raised e => Raised e
                | Returned false => Returned (None, Some "Incorrect password.")
                | Returned true => Returned (Some user, None)
                end
            | Returned _ => Raised TypeError       (* passlib refuses a hash that is not text *)
            end
      end
  end.

(** The value the login form stores under [st.session_state["user"]]. *)
Definition session_user (user : pydict) : outcome pydict :=
  match getitem user "id", getitem user "email", getitem user "name", getitem user "provider" with
  | Returned i, Returned e, Returned n, Returned p =>
      Returned (list_to_map [("id", i); ("email", e); ("name", n); ("provider", p)])
  | _, _, _, _ => Raised KeyError
  end.

(** The submit branch of the login form: the new session user, or the
    message shown. *)
Definition login_form (d : db) (email password : string)
  : outcome (option pydict * option string) :=
  match login_local d email password with
  | Raised e => Raised e
  | Returned (_, Some err) => Returned (None, Some err)
  | Returned (Some user, None) =>
      match session_user user with
      | Returned s => Returned (Some s, None)
      | Raised e => Raised e
      end
  | Returned (None, None) => Raised TypeError        (* None["id"] *)
  end.

(** *** Task operations

    A call reads the clock several times ([datetime.now()],
    [date.today()]); the model takes all readings of one call at the
    same instant [now], with [dt_date now] for [date.today()]. *)

(** [last_date] of the completion branch: the stored text when it is
    non-empty and parses, [None] otherwise. *)
Definition parse_last (last : option string) : option date :=
  match last with
  | Some l =>
      if String.eqb l "" then None
      else match datetime_fromisoformat l with
           | Returned dt => Some (dt_date dt)
           | Raised _ => None
           end
  | None => None
  end.

(** The completion branch of [update_task] ("gamify when completed"). *)
Definition gamify (uid : Z) (today : date) (task_id : string) : sql unit :=
  row <- execute (stmt_select_user uid) ;;
  let points := match row with Some r => u_points r | None => Some 0 end in
  let streak := match row with Some r => u_streak r | None => Some 0 end in
  let last := match row with Some r => u_last_complete_date r | None => None end in
  let today_str := date_isoformat today in
  let last_date := parse_last last in
  pr <- execute (stmt_select_priority task_id uid) ;;
  let prio := match pr with Some p => p | None => Some "Medium" end in
  let bonus := priority_bonus prio in
  match points with
  | None => sql_raise TypeError                    (* None += int *)
  | Some p =>
      let points' := p + (10 + bonus) in
      let streak' := next_streak today last_date streak in
      if (in_int64 points' && binds streak')%bool then
        execute (stmt_update_user uid points' streak' today_str) ;;;
        commit
      else sql_raise OverflowError                 (* binding the parameters *)
  end.

(** The database branch of [update_task]. *)
Definition update_task_db (uid : Z) (now : datetime) (task_id : string) (updates : patch)
  : sql unit :=
  let completed_at :=
    if sets_done updates then Some (datetime_isoformat_seconds now) else None in
  execute (stmt_update_task task_id uid updates completed_at) ;;;
  commit ;;;
  if sets_done updates then gamify uid (dt_date now) task_id
  else sql_ret tt.

(** The loop body of the JSON branch: the dict update with the keyword
    arguments, followed by the completion stamp. *)
Definition update_json_task (now : datetime) (task_id : string) (updates : patch)
    (t : json_task) : json_task :=
  if String.eqb (j_id t) task_id then
    let prev_done := j_done t in
    let done' := or_keep (p_done updates) (j_done t) in
    mk_json_task (j_id t)
                 (or_keep (p_title updates) (j_title t))
                 (or_keep (p_desc updates) (j_desc t))
                 (or_keep (p_due updates) (j_due t))
                 (or_keep (p_priority updates) (j_priority t))
                 (or_keep (p_category updates) (j_category t))
                 done'
                 (j_created_at t)
                 (if (sets_done updates && negb prev_done)%bool
                  then Some (datetime_isoformat_seconds now)
                  else j_completed_at t)
  else t.

(** [update_task], called with a task id and keyword arguments.  [user] is the id of the user in
    the session, if any; [now] is the clock reading of the call. *)
Definition update_task (user : option Z) (now : datetime) (fault : option nat)
    (task_id : string) (updates : patch) (s : store) : outcome unit * store :=
  match user with
  | Some uid =>
      let '(r, d) := with_conn fault (update_task_db uid now task_id updates) (st_db s) in
      (r, mk_store d (st_json s))
  | None =>
      (Returned tt, mk_store (st_db s) (List.map (update_json_task now task_id updates) (st_json s)))
  end.

(** [delete_task(task_id)] *)
Definition delete_task (user : option Z) (fault : option nat) (task_id : string) (s : store)
  : outcome unit * store :=
  match user with
  | Some uid =>
      let '(r, d) :=
        with_conn fault (execute (stmt_delete_task task_id uid) ;;; commit) (st_db s) in
      (r, mk_store d (st_json s))
  | None =>
      (Returned tt,
       mk_store (st_db s)
                (List.filter (fun t => negb (String.eqb (j_id t) task_id)) (st_json s)))
  end.

(** [due.isoformat() if isinstance(due, (date, datetime)) else None] *)
Definition due_text (due : pyobj) : option string :=
  match due with
  | PyDate d => Some (date_isoformat d)
  | PyDatetime dt => Some (datetime_isoformat dt)
  | _ => None
  end.

(** [add_task(title, desc, due, priority, category)]; [task_id] is the
    value of [str(uuid.uuid4())].  Returns the id of the new task. *)
Definition add_task (user : option Z) (now : datetime) (task_id : string)
    (fault : option nat) (title desc : string) (due : pyobj)
    (priority : option string) (category : option string) (s : store)
  : outcome string * store :=
  let chosen :=
    match priority with
    | None => suggest_priority_by_due (dt_date now) due
    | Some p =>
        if String.eqb p "Auto" then suggest_priority_by_due (dt_date now) due
        else Returned p
    end in
  match chosen with
  | Raised e => (Raised e, s)
  | Returned prio =>
      match user with
      | Some uid =>
          let row := mk_task uid (PyStr.strip title) (Some (PyStr.strip desc)) (due_text due)
                             (Some prio) category false
                             (datetime_isoformat_seconds now) None in
          let '(r, d) :=
            with_conn fault (execute (stmt_insert_task task_id row) ;;; commit) (st_db s) in
          (match r with Returned _ => Returned task_id | Raised e => Raised e end,
           mk_store d (st_json s))
      | None =>
          let new_task :=
            mk_json_task task_id (Some (PyStr.strip title)) (Some (PyStr.strip desc))
                         (due_text due) (Some prio) category false
                         (datetime_isoformat_seconds now) None in
          (Returned task_id, mk_store (st_db s) (st_json s ++ [new_task]))
      end
  end.

End Operations.

(** ** Sequences of calls

    A call is made in a session, at a clock reading, with a storage failure
    budget. *)
Inductive op : Type :=
| OpAdd (task_id title desc : string) (due : pyobj) (priority category : option string)
| OpUpdate (task_id : string) (updates : patch)
| OpDelete (task_id : string).

Record call : Type := mk_call {
  c_user : option Z;
  c_now : datetime;
  c_fault : option nat;
  c_op : op
}.

Section Calls.
Context {rt : Runtime}.

(** The store after one call. *)
Definition step (c : call) (s : store) : store :=
  match c_op c with
  | OpAdd task_id title desc due priority category =>
      snd (add_task (c_user c) (c_now c) task_id (c_fault c) title desc due priority category s)
  | OpUpdate task_id updates =>
      snd (update_task (c_user c) (c_now c) (c_fault c) task_id updates s)
  | OpDelete task_id =>
      snd (delete_task (c_user c) (c_fault c) task_id s)
  end.

(** The store after a sequence of calls, first call first. *)
Definition run (cs : list call) (s : store) : store :=
  fold_left (fun s c => step c s) cs s.

End Calls.

(** The row a completing update leaves behind. *)
Definition completed_task (u : patch) (stamp : string) (r : task_row) : task_row :=
  mk_task (t_user_id r)
          (match p_title u with Some (Some s) => s | _ => t_title r end)
          (or_keep (p_desc u) (t_desc r))
          (or_keep (p_due u) (t_due r))
          (or_keep (p_priority u) (t_priority r))
          (or_keep (p_category u) (t_category r))
          true
          (t_created_at r)
          (Some stamp).

Section Credit.
Context {rt : Runtime}.

(** The row of the user after the completion branch has credited [p]
    points to it. *)
Definition credited_user (now : datetime) (prio : option string) (p : Z) (ur : user_row)
  : user_row :=
  mk_user (u_email ur) (u_name ur) (u_password_hash ur) (u_provider ur)
          (Some (p + (10 + priority_bonus prio)))
          (next_streak (dt_date now) (parse_last (u_last_complete_date ur)) (u_streak ur))
          (Some (date_isoformat (dt_date now)))
          (u_created_at ur).

End Credit.

(** Every task flagged done carries a completion timestamp: in the table, *)
Definition stamped (d : db) : Prop :=
  forall tid r, tasks d !! tid = Some r -> t_done r = true -> t_completed_at r <> None.

(** and in the table and the fallback file together. *)
Definition done_has_stamp (s : store) : Prop :=
  stamped (st_db s)
  /\ (forall t, In t (st_json s) -> j_done t = true -> j_completed_at t <> None).

Definition empty_store : store := mk_store (mk_db ∅ ∅) [].

(** The task id names no row of [uid] in [d]: there is no such row, or it
    belongs to another user. *)
Definition not_own (d : db) (uid : Z) (tid : string) : Prop :=
  match tasks d !! tid with
  | Some r => t_user_id r <> uid
  | None => True
  end.

(** Two databases with the same [users] in which [tid] names no row of
    [uid]. *)
Definition same_users_not_own (uid : Z) (tid : string) (d1 d2 : db) : Prop :=
  users d1 = users d2 /\ not_own d1 uid tid /\ not_own d2 uid tid.

(** [d] differs from [d0] at most in the row of [uid] in [users]. *)
Definition same_but_user (d0 : db) (uid : Z) (d : db) : Prop :=
  tasks d = tasks d0 /\ forall v, v <> uid -> users d !! v = users d0 !! v.

(** The error kinds of the login step, as the messages [login_local]
    returns for them. *)
Definition NotFoundError : string := "No account found for that email.".
Definition ProviderMismatchError : string :=
  "This email is registered via Google. Use 'Continue with Google'.".
Definition InvalidCredentialsError : string := "Incorrect password.".

(** The keys of a session identity. *)
Definition identity_keys : gset string :=
  list_to_set ["id"; "email"; "name"; "provider"].

(** ** Voice text heuristics *)

Module Voice.

(** [\d] on ASCII text. *)
Definition is_digit (c : ascii) : bool :=
  let n := nat_of_ascii c in ((48 <=? n)%nat && (n <=? 57)%nat)%bool.

(** The longest run of digits at the head of [s], and what follows it. *)
Fixpoint span_digits (s : string) : string * string :=
  match s with
  | String c s' =>
      if is_digit c then let '(ds, rest) := span_digits s' in (String c ds, rest)
      else (EmptyString, s)
  | EmptyString => (EmptyString, EmptyString)
  end.

(** The value of a run of digits, most significant first. *)
Fixpoint int_of_digits (acc : Z) (ds : string) : Z :=
  match ds with
  | String c ds' => int_of_digits (10 * acc + (Z.of_nat (nat_of_ascii c) - 48)) ds'
  | EmptyString => acc
  end.

(** [int(ds)] for a run of digits: Python refuses to convert a text of
    more than 4300 digits ([sys.get_int_max_str_digits()]). *)
Definition max_str_digits : nat := 4300.

Definition int_of_text (ds : string) : outcome Z :=
  if (max_str_digits <? String.length ds)%nat then Raised ValueError
  else Returned (int_of_digits 0 ds).

(** A match of [in (\d+) days?] at the head of the lower-case text [s]:
    the digits of group 1 and the length of the match. *)
Definition match_in_days (s : string) : option (string * nat) :=
  if String.prefix "in " s then
    let '(ds, rest) := span_digits (PyStr.drop 3 s) in
    if String.eqb ds "" then None
    else if String.prefix " day" rest then
      let n := (3 + String.length ds + 4)%nat in
      Some (ds, if String.prefix "s" (PyStr.drop 4 rest) then S n else n)
    else None
  else None.

(** [re.search(r"in (\d+) days?", s)]: group 1 of the leftmost match. *)
Fixpoint search_in_days (s : string) : option string :=
  match match_in_days s with
  | Some (ds, _) => Some ds
  | None =>
      match s with
      | String _ s' => search_in_days s'
      | EmptyString => None
      end
  end.

(** [re.sub(r"in \d+ days?", "", s, flags=re.I)] *)
Fixpoint sub_in_days (fuel : nat) (s : string) : string :=
  match fuel with
  | O => s
  | S fuel' =>
      match match_in_days (PyStr.lower s) with
      | Some (_, n) => sub_in_days fuel' (PyStr.drop n s)
      | None =>
          match s with
          | String c s' => String c (sub_in_days fuel' s')
          | EmptyString => EmptyString
          end
      end
  end.

(** The largest ordinal of a [date] ([date.max]). *)
Definition max_ordinal : Z := 3652059.

(** [date.today() + timedelta(days=n)] for [n >= 0]. *)
Definition add_days (today : date) (n : Z) : outcome date :=
  if today + n <=? max_ordinal then Returned (today + n) else Raised OverflowError.

(** [title or txt] *)
Definition title_or (title txt : string) : string :=
  if String.eqb title "" then txt else title.

(** [parse_voice_text_for_task(text)]: title, due date and priority hint. *)
Definition parse_voice_text_for_task (today : date) (text : string)
  : outcome (string * option date * option string) :=
  let txt := PyStr.strip text in
  let txt_low := PyStr.lower txt in
  let suggested_priority :=
    if (PyStr.contains "high priority" txt_low || PyStr.contains "urgent" txt_low)%bool
    then Some "High"
    else if (PyStr.contains "low priority" txt_low || PyStr.contains "low" txt_low)%bool
    then Some "Low"
    else None in
  if PyStr.contains "tomorrow" txt_low then
    match add_days today 1 with
    | Raised e => Raised e
    | Returned due =>
        let title := PyStr.strip (PyStr.replace "tomorrow" "" txt) in
        Returned (title_or title txt, Some due, suggested_priority)
    end
  else
    match search_in_days txt_low with
    | Some ds =>
        match int_of_text ds with
        | Raised e => Raised e
        | Returned n =>
            match add_days today n with
            | Raised e => Raised e
            | Returned due =>
                let title := PyStr.strip (sub_in_days (S (String.length txt)) txt) in
                Returned (title_or title txt, Some due, suggested_priority)
            end
        end
    | None => Returned (txt, None, suggested_priority)
    end.

(** The reading of "standalone word" used by the specification: the text,
    cut at every character that is not a letter or a digit, has the word
    among its pieces. *)
Definition is_word_char (c : ascii) : bool :=
  let n := nat_of_ascii c in
  (((48 <=? n)%nat && (n <=? 57)%nat) || ((65 <=? n)%nat && (n <=? 90)%nat)
   || ((97 <=? n)%nat && (n <=? 122)%nat))%bool.

Fixpoint pieces (cur : string) (s : string) : list string :=
  match s with
  | String c s' =>
      if is_word_char c then pieces (cur ++ String c EmptyString) s'
      else cur :: pieces EmptyString s'
  | EmptyString => [cur]
  end.

Definition has_standalone_word (w s : string) : bool :=
  existsb (String.eqb w) (pieces EmptyString s).

End Voice.

(** ** Analytics: the category histogram *)

Global Instance pyval_countable : Countable pyval.
Proof.
  refine (inj_countable'
            (fun v => match v with
                      | VNone => inl (inl tt)
                      | VBool b => inl (inr b)
                      | VInt z => inr (inl z)
                      | VStr s => inr (inr s)
                      end)
            (fun x => match x with
                      | inl (inl _) => VNone
                      | inl (inr b) => VBool b
                      | inr (inl z) => VInt z
                      | inr (inr s) => VStr s
                      end) _).
  intros []; reflexivity.
Defined.

(** [k in df.columns]: some record has the key. *)
Definition has_column (k : string) (tasks : list pydict) : bool :=
  existsb (fun t => bool_decide (is_Some (t !! k))) tasks.

(** [df[k]]: a record without the key has a missing cell, which reads
    like [None]. *)
Definition column (k : string) (tasks : list pydict) : list pyval :=
  List.map (fun t => default VNone (t !! k)) tasks.

(** A cell of [df["category"].fillna("Other")]: a missing key and [None]
    both read as missing. *)
Definition category_cell (t : pydict) : pyval :=
  match t !! "category" with
  | Some VNone | None => VStr "Other"
  | Some v => v
  end.

(** Keys of a Python dict are compared with [==] and [hash]: [True] is the
    key [1] and [False] the key [0].  The model names such a key by the
    integer. *)
Definition py_key (v : pyval) : pyval :=
  match v with
  | VBool b => VInt (if b then 1 else 0)
  | _ => v
  end.

(** [Series.value_counts().to_dict()] *)
Fixpoint value_counts (cells : list pyval) : gmap pyval nat :=
  match cells with
  | [] => ∅
  | v :: rest =>
      let m := value_counts rest in
      <[py_key v := S (default O (m !! py_key v))]> m
  end.

(** Line 369, the ["categories"] entry of [compute_analytics(tasks)]. *)
Definition compute_analytics_categories (tasks : list pydict) : gmap pyval nat :=
  match tasks with
  | [] => ∅
  | _ =>
      if has_column "category" tasks
      then value_counts (List.map category_cell tasks)
      else ∅
  end.

(** The number of records whose category cell equals [c], as Python
    compares keys. *)
Definition count_category (c : pyval) (tasks : list pydict) : nat :=
  length (List.filter (fun t => bool_decide (py_key (category_cell t) = py_key c)) tasks).

(** An entry of a histogram: categories that do not occur have no entry. *)
Definition entry (n : nat) : option nat :=
  match n with
  | O => None
  | S _ => Some n
  end.

(** The pandas functions on timestamps that [compute_analytics] calls. *)
Class Pandas : Type := {
  timestamp : Type;
  hours : Type;
  (* [pd.to_datetime(column, errors="coerce")]: how each cell of this
     column converts, [None] for NaT; [Raised] when pandas raises *)
  to_datetime : list pyval -> outcome (pyval -> option timestamp);
  (* [column.dt.strftime("%Y-W%V")] *)
  week_of : list timestamp -> outcome (list string);
  (* [float(((completed - created).dt.total_seconds() / 3600.0).mean())],
     from the completion and creation time of each row *)
  mean_hours : list (timestamp * option timestamp) -> outcome hours
}.

(** [then]: the rest of the function runs when the step returns. *)
Definition and_then {A B : Type} (m : outcome A) (k : A -> outcome B) : outcome B :=
  match m with
  | Returned a => k a
  | Raised e => Raised e
  end.

(** [groupby("week").size().to_dict()] *)
Fixpoint group_sizes (weeks : list string) : gmap string nat :=
  match weeks with
  | [] => ∅
  | w :: rest =>
      let m := group_sizes rest in
      <[w := S (default O (m !! w))]> m
  end.

Section Analytics.
Context {pd : Pandas}.

(** The value [compute_analytics] returns. *)
Record analytics : Type := mk_analytics {
  a_weekly : gmap string nat;
  a_categories : gmap pyval nat;
  a_avg_completion_hours : option hours
}.

(** Lines 359-362: a timestamp column after conversion, [None] when the
    frame has no such column. *)
Definition converted (k : string) (tasks : list pydict)
  : outcome (option (list (option timestamp))) :=
  if has_column k tasks then
    and_then (to_datetime (column k tasks))
             (fun cell => Returned (Some (List.map cell (column k tasks))))
  else Returned None.

(** Line 363, the rows of [comp]: the records with a completion time, each
    with its creation cell. *)
Fixpoint completed_rows (completed created : list (option timestamp))
  : list (timestamp * option timestamp) :=
  match completed with
  | [] => []
  | c :: cs =>
      let rest := completed_rows cs (List.tl created) in
      match c with
      | Some ts => (ts, default None (List.head created)) :: rest
      | None => rest
      end
  end.

(** [compute_analytics(tasks)] *)
Definition compute_analytics (tasks : list pydict) : outcome analytics :=
  match tasks with
  | [] => Returned (mk_analytics ∅ ∅ None)
  | _ =>
      and_then (converted "completed_at" tasks) (fun completed =>
      and_then (converted "created_at" tasks) (fun created =>
      let comp := completed_rows (default [] completed) (default [] created) in
      and_then (match comp with
                | [] => Returned ∅
                | _ => and_then (week_of (List.map fst comp))
                                (fun weeks => Returned (group_sizes weeks))
                end) (fun weekly =>
      let categories := compute_analytics_categories tasks in
      and_then (match comp with
                | [] => Returned None
                | _ =>
                    match created with
                    | None => Raised KeyError            (* comp["created_at"] *)
                    | Some _ => and_then (mean_hours comp) (fun h => Returned (Some h))
                    end
                end) (fun avg_hours =>
      Returned (mk_analytics weekly categories avg_hours)))))
  end.

(** The pandas calls return on whatever they are given. *)
Definition pandas_returns : Prop :=
  (forall col, exists cell, to_datetime col = Returned cell)
  /\ (forall l, exists weeks, week_of l = Returned weeks)
  /\ (forall rows, exists h, mean_hours rows = Returned h).

End Analytics.

(** ** A concrete runtime for running the model

    Enough of the library functions to evaluate the operations on examples:
    ISO texts of the two shapes the application itself writes
    (YYYY-MM-DD and YYYY-MM-DDTHH:MM:SS), and a password check that knows
    one stored credential. *)
Module Sample.

(** Days since 1970-01-01 of a civil date, and back. *)
Definition days_from_civil (y m d : Z) : Z :=
  let y' := if m <=? 2 then y - 1 else y in
  let era := y' / 400 in
  let yoe := y' - era * 400 in
  let doy := (153 * (if 2 <? m then m - 3 else m + 9) + 2) / 5 + d - 1 in
  let doe := yoe * 365 + yoe / 4 - yoe / 100 + doy in
  era * 146097 + doe - 719468.

Definition civil_from_days (z : Z) : Z * Z * Z :=
  let z' := z + 719468 in
  let era := z' / 146097 in
  let doe := z' - era * 146097 in
  let yoe := (doe - doe / 1460 + doe / 36524 - doe / 146096) / 365 in
  let doy := doe - (365 * yoe + yoe / 4 - yoe / 100) in
  let mp := (5 * doy + 2) / 153 in
  let d := doy - (153 * mp + 2) / 5 + 1 in
  let m := if mp <? 10 then mp + 3 else mp - 9 in
  (yoe + era * 400 + (if m <=? 2 then 1 else 0), m, d).

(** The ordinal of 1970-01-01 is 719163. *)
Definition ordinal (y m d : Z) : date := days_from_civil y m d + 719163.
Definition civil (o : date) : Z * Z * Z := civil_from_days (o - 719163).

Definition digit (n : Z) : ascii := ascii_of_nat (Z.to_nat (48 + n mod 10)).

Definition two_digits (n : Z) : string :=
  String (digit (n / 10)) (String (digit n) EmptyString).

Definition four_digits (n : Z) : string :=
  String (digit (n / 1000)) (String (digit (n / 100)) (two_digits n)).

Definition iso_date (o : date) : string :=
  let '(y, m, d) := civil o in
  (four_digits y ++ "-" ++ two_digits m ++ "-" ++ two_digits d)%string.

Definition iso_time (secs : Z) : string :=
  (two_digits (secs / 3600) ++ ":" ++ two_digits (secs / 60 mod 60) ++ ":"
     ++ two_digits (secs mod 60))%string.

Definition iso_datetime (dt : datetime) : string :=
  (iso_date (dt_date dt) ++ "T" ++ iso_time (dt_seconds dt))%string.

(** A field of [n] digits at the head of [s]. *)
Fixpoint read_digits (n : nat) (acc : Z) (s : string) : option (Z * string) :=
  match n with
  | O => Some (acc, s)
  | S n' =>
      match s with
      | String c s' =>
          if Voice.is_digit c
          then read_digits n' (10 * acc + (Z.of_nat (nat_of_ascii c) - 48)) s'
          else None
      | EmptyString => None
      end
  end.

Definition expect (c : ascii) (s : string) : option string :=
  match s with
  | String c' s' => if Ascii.eqb c c' then Some s' else None
  | EmptyString => None
  end.

Definition read_date (s : string) : option (date * string) :=
  '(y, s1) ← read_digits 4 0 s;
  s2 ← expect "-" s1;
  '(m, s3) ← read_digits 2 0 s2;
  s4 ← expect "-" s3;
  '(d, s5) ← read_digits 2 0 s4;
  let o := ordinal y m d in
  if bool_decide (civil o = (y, m, d) ∧ 1 <= y) then Some (o, s5) else None.

Definition read_time (s : string) : option (Z * string) :=
  '(h, s1) ← read_digits 2 0 s;
  s2 ← expect ":" s1;
  '(m, s3) ← read_digits 2 0 s2;
  s4 ← expect ":" s3;
  '(x, s5) ← read_digits 2 0 s4;
  if ((h <? 24) && (m <? 60) && (x <? 60))%bool
  then Some (h * 3600 + m * 60 + x, s5) else None.

Definition parse_iso (s : string) : outcome datetime :=
  match read_date s with
  | Some (o, EmptyString) => Returned (mk_datetime o 0)
  | Some (o, String _ rest) =>
      match read_time rest with
      | Some (t, EmptyString) => Returned (mk_datetime o t)
      | _ => Raised ValueError
      end
  | None => Raised ValueError
  end.

(** The one credential the sample password check accepts. *)
Definition known_password : string := "secret1".
Definition known_hash : string := "$2b$12$abcdefghijklmnopqrstuugfnhcJKBeHOfAXCVO2lyxJ9vG/mH8Tm".

(** A text that is not a bcrypt hash of 60 characters is refused. *)
Definition verify (password h : string) : outcome bool :=
  if (String.eqb (String.substring 0 4 h) "$2b$" && (String.length h =? 60)%nat)%bool
  then Returned (String.eqb password known_password && String.eqb h known_hash)%bool
  else Raised ValueError.

Definition runtime : Runtime :=
  {| datetime_fromisoformat := parse_iso;
     date_isoformat := iso_date;
     datetime_isoformat := iso_datetime;
     datetime_isoformat_seconds := iso_datetime;
     bcrypt_verify := verify |}.

(** 2024-05-02 10:00:00, and the day before at 09:00:00 and 09:30:00. *)
Definition may2 : datetime := mk_datetime 739008 36000.
Definition may1 : datetime := mk_datetime 739007 32400.
Definition may1_later : datetime := mk_datetime 739007 34200.

(** A database with one local account and nothing else. *)
Definition alice : user_row :=
  mk_user "a@x.com" "A" (Some known_hash) "local" (Some 0) (Some 0) None
          "2024-04-30T08:00:00".

Definition db0 : db := mk_db {[ 1 := alice ]} ∅.

(** A second account, and a store where each account owns one open task. *)
Definition bob : user_row :=
  mk_user "b@x.com" "B" (Some known_hash) "local" (Some 40) (Some 3) (Some "2024-05-01")
          "2024-04-30T08:30:00".

Definition rent : task_row :=
  mk_task 1 "Pay rent" (Some "") (Some "2024-05-02") (Some "High") (Some "Personal")
          false "2024-05-01T08:00:00" None.

Definition report : task_row :=
  mk_task 2 "Write report" (Some "") None (Some "Low") (Some "Work")
          false "2024-05-01T08:10:00" None.

Definition store0 : store :=
  mk_store (mk_db {[ 1 := alice; 2 := bob ]} {[ "t-rent" := rent; "t-report" := report ]}) [].

(** The keyword arguments of the checkbox: [done=True] and [done=False]. *)
Definition tick : patch := mk_patch None None None None None (Some true).
Definition untick : patch := mk_patch None None None None None (Some false).

(** An account whose points are 7 below the largest 64-bit integer, with
    one open task of priority High. *)
Definition dora : user_row :=
  mk_user "d@x.com" "D" (Some known_hash) "local" (Some 9223372036854775800) (Some 1)
          (Some "2024-04-30") "2024-04-30T09:00:00".

Definition audit : task_row :=
  mk_task 4 "Audit" (Some "") None (Some "High") (Some "Work")
          false "2024-05-01T08:30:00" None.

Definition store_full : store :=
  mk_store (mk_db {[ 4 := dora ]} {[ "t-audit" := audit ]}) [].

(** The first sample database with no task yet. *)
Definition store_new : store := mk_store db0 [].

(** Timestamps for the analytics: a cell converts when it is an ISO text
    of the two shapes above; the week is the ISO week of the date; the mean
    is a fraction, seconds over 3600 times the number of rows that have a
    creation time. *)
Definition to_timestamp (v : pyval) : option datetime :=
  match v with
  | VStr s => match parse_iso s with Returned dt => Some dt | Raised _ => None end
  | _ => None
  end.

Definition weeks_in_year (y : Z) : Z :=
  let p := fun y => (y + y / 4 - y / 100 + y / 400) mod 7 in
  if ((p y =? 4) || (p (y - 1) =? 3))%bool then 53 else 52.

Definition iso_week (o : date) : Z :=
  let '(y, _, _) := civil o in
  let doy := o - ordinal y 1 1 + 1 in
  let wd := (o - 1) mod 7 + 1 in
  let w := (doy - wd + 10) / 7 in
  if w <? 1 then weeks_in_year (y - 1)
  else if weeks_in_year y <? w then 1 else w.

Definition year_week (dt : datetime) : string :=
  let '(y, _, _) := civil (dt_date dt) in
  (four_digits y ++ "-W" ++ two_digits (iso_week (dt_date dt)))%string.

Definition seconds_between (a b : datetime) : Z :=
  (dt_date a - dt_date b) * 86400 + (dt_seconds a - dt_seconds b).

Definition mean (rows : list (datetime * option datetime)) : Z * Z :=
  let ds := omap (fun cr => seconds_between (fst cr) <$> snd cr) rows in
  (fold_right Z.add 0 ds, 3600 * Z.of_nat (length ds)).

Definition pandas : Pandas :=
  {| timestamp := datetime;
     hours := Z * Z;
     to_datetime := fun _ => Returned to_timestamp;
     week_of := fun l => Returned (List.map year_week l);
     mean_hours := fun rows => Returned (mean rows) |}.

End Sample.


(** ** Further definitions: accounts, registration, the task filter *)

(** What task operations may do to an account: nothing to its identity and
    credential; points that are NULL stay NULL, points that are set do not
    go down. *)
Definition account_kept (r r' : user_row) : Prop :=
  u_email r' = u_email r
  /\ u_name r' = u_name r
  /\ u_password_hash r' = u_password_hash r
  /\ u_provider r' = u_provider r
  /\ u_created_at r' = u_created_at r
  /\ match u_points r with
     | Some p => exists p', u_points r' = Some p' /\ p <= p'
     | None => u_points r' = None
     end.

Definition accounts_kept (d d' : db) : Prop :=
  forall v,
    match users d !! v, users d' !! v with
    | Some r, Some r' => account_kept r r'
    | None, None => True
    | _, _ => False
    end.

(** The owner and the creation time of each task, by id. *)
Definition task_identity (d : db) (tid : string) : option (Z * string) :=
  (fun r => (t_user_id r, t_created_at r)) <$> (tasks d !! tid).

(** The row [add_task] inserts. *)
Definition new_task_row (uid : Z) (now_text : string) (title desc : string)
    (due : option string) (prio : string) (category : option string) : task_row :=
  mk_task uid (PyStr.strip title) (Some (PyStr.strip desc)) due (Some prio) category
          false now_text None.

(** The store an edit of task [tid] by user [uid] leaves when it goes
    through: the row rewritten when it exists and is the user's, nothing
    otherwise. *)
Definition edited_store (uid : Z) (tid : string) (u : patch) (s : store) : store :=
  match tasks (st_db s) !! tid with
  | Some r =>
      if t_user_id r =? uid then
        match set_task_fields u None r with
        | Returned r' =>
            mk_store (mk_db (users (st_db s)) (<[tid := r']> (tasks (st_db s)))) (st_json s)
        | Raised _ => s
        end
      else s
  | None => s
  end.

(** The store a deletion of task [tid] by user [uid] leaves when it goes
    through. *)
Definition deleted_store (uid : Z) (tid : string) (s : store) : store :=
  match tasks (st_db s) !! tid with
  | Some r =>
      if t_user_id r =? uid
      then mk_store (mk_db (users (st_db s)) (delete tid (tasks (st_db s)))) (st_json s)
      else s
  | None => s
  end.

(** A call made with a user in the session, and one made without. *)
Definition in_session (c : call) : Prop := is_Some (c_user c).
Definition no_session (c : call) : Prop := c_user c = None.

(** The keyword arguments of the checkbox of the task list,
    [update_task(t["id"], done=toggled)]. *)
Definition checkbox_patch (toggled : bool) : patch :=
  mk_patch None None None None None (Some toggled).

Section Page.
Context {rt : Runtime}.

(** The checkbox of a task on the Tasks page.  [tid] and [r] are the id
    and the row the page loaded for the task; the call is made only when
    the box differs from the [done] value the page loaded. *)
Definition on_checkbox (user : option Z) (now : datetime) (fault : option nat)
    (tid : string) (r : task_row) (toggled : bool) (s : store) : outcome unit * store :=
  if negb (Bool.eqb toggled (t_done r))
  then update_task user now fault tid (checkbox_patch toggled) s
  else (Returned tt, s).

End Page.

(** ** Registration *)

(** The largest id in [users].  The application never deletes a user, so
    this is also the largest id ever used, which AUTOINCREMENT goes by. *)
Definition max_user_id (us : gmap Z user_row) : Z :=
  foldr Z.max 0 (List.map fst (map_to_list us)).

(** [INSERT INTO users (email, name, password_hash, provider, created_at)
    VALUES (...)], yielding [cur.lastrowid].  The email must be new
    (UNIQUE); points and streak take their default 0. *)
Definition stmt_insert_user (email name : string) (pwhash : option string)
    (provider created_at : string) (d : db) : outcome (Z * db) :=
  match find_user_by_email (users d) email with
  | Some _ => Raised IntegrityError
  | None =>
      let id := max_user_id (users d) + 1 in
      Returned (id,
                mk_db (<[id := mk_user email name pwhash provider (Some 0) (Some 0) None
                                      created_at]> (users d))
                      (tasks d))
  end.

Section Registration.
Context {rt : Runtime}.
Local Open Scope sql_scope.

(** [bcrypt.hash(password) if password else None].  [hash] is how the
    call [bcrypt.hash(password)] ends in this run: the hash it returns (it
    depends on a random salt), or the exception passlib raises (a password
    with a NUL character, or longer than 4096 characters). *)
Definition password_hash (hash : outcome string) (password : option string)
  : outcome (option string) :=
  match password with
  | Some p =>
      if String.eqb p "" then Returned None
      else match hash with
           | Returned h => Returned (Some h)
           | Raised e => Raised e
           end
  | None => Returned None
  end.

(** [create_user(name, email, password, provider)]; [password] is [None]
    for an account without password.  The hash is computed before the
    first statement. *)
Definition create_user (now : datetime) (hash : outcome string) (fault : option nat)
    (name email : string) (password : option string) (provider : string) (d : db)
  : outcome Z * db :=
  match password_hash hash password with
  | Raised e => (Raised e, d)
  | Returned pwhash =>
      with_conn fault
        (user_id <- execute (stmt_insert_user (PyStr.strip (PyStr.lower email))
                                              (PyStr.strip name) pwhash provider
                                              (datetime_isoformat_seconds now)) ;;
         commit ;;;
         sql_ret user_id) d
  end.

(** The submit branch of the sign-up form: the message shown, and the
    database afterwards. *)
Definition signup_form (now : datetime) (hash : outcome string) (fault : option nat)
    (name email pw1 pw2 : string) (d : db) : outcome string * db :=
  if (String.eqb (PyStr.strip name) "" || String.eqb (PyStr.strip email) ""
      || String.eqb (PyStr.strip pw1) "")%bool
  then (Returned "Please fill all fields.", d)
  else if negb (String.eqb pw1 pw2)
  then (Returned "Passwords do not match.", d)
  else
    match get_user_by_email d email with
    | Some _ => (Returned "An account with that email already exists.", d)
    | None =>
        match create_user now hash fault name email (Some pw1) "local" d with
        | (Returned _, d') => (Returned "Account created! You can log in now.", d')
        | (Raised e, d') => (Raised e, d')
        end
    end.

End Registration.

(** No two accounts share an email. *)
Definition emails_unique (d : db) : Prop :=
  forall i j ri rj,
    users d !! i = Some ri -> users d !! j = Some rj -> u_email ri = u_email rj -> i = j.

(** The account the sign-up form creates. *)
Definition new_account (name email hash created_at : string) : user_row :=
  mk_user (PyStr.strip (PyStr.lower email)) (PyStr.strip name) (Some hash) "local"
          (Some 0) (Some 0) None created_at.

(** ** Orders and totals used in the statements *)

(** How urgent a priority is. *)
Definition priority_rank (p : string) : Z :=
  if String.eqb p "High" then 2
  else if String.eqb p "Medium" then 1
  else 0.

(** The sum of the counts of a histogram, as the pie chart of the
    Analytics page reads it ([list(analytics["categories"].values())]). *)
Definition histogram_total (m : gmap pyval nat) : nat :=
  map_fold (fun _ n acc => (n + acc)%nat) O m.

(** A text made of digits only. *)
Definition all_digits (ds : string) : Prop :=
  forall c, In c (list_ascii_of_string ds) -> Voice.is_digit c = true.

(** [email.lower().strip()], the form in which emails are stored and
    looked up. *)
Definition normalise_email (email : string) : string := PyStr.strip (PyStr.lower email).

(** ** The filter of the Tasks page *)

(** The search box and the three select boxes. *)
Record filters : Type := mk_filters {
  f_q : string;
  f_status : string;
  f_priority : string;
  f_category : string
}.

(** [(t.get(k, "") or "").lower()]; [None] stands for the AttributeError
    raised on a value that is true and not text. *)
Definition text_lower (t : pydict) (k : string) : option string :=
  match t !! k with
  | None => Some ""
  | Some VNone => Some ""
  | Some (VStr s) => Some (PyStr.lower s)
  | Some (VBool b) => if b then None else Some ""
  | Some (VInt z) => if z =? 0 then Some "" else None
  end.

(** [t.get("done") != want_done] is false: the value equals the boolean. *)
Definition equals_bool (v : option pyval) (b : bool) : bool :=
  match v with
  | Some (VBool x) => Bool.eqb x b
  | Some (VInt z) => z =? (if b then 1 else 0)
  | _ => false
  end.

(** [(t.get(k) or fallback) == wanted] *)
Definition or_equals (v : option pyval) (fallback wanted : string) : bool :=
  match v with
  | None => String.eqb fallback wanted
  | Some VNone => String.eqb fallback wanted
  | Some (VStr s) => if String.eqb s "" then String.eqb fallback wanted else String.eqb s wanted
  | Some (VBool b) => if b then false else String.eqb fallback wanted
  | Some (VInt z) => if z =? 0 then String.eqb fallback wanted else false
  end.

(** The filter values of a freshly opened page. *)
Definition no_filter : filters := mk_filters "" "All" "All" "All".

(** [task_matches(t)] for the current filter values. *)
Definition task_matches (f : filters) (t : pydict) : option bool :=
  let rest :=
    if (negb (String.eqb (f_status f) "All")
        && negb (equals_bool (t !! "done") (String.eqb (f_status f) "Done")))%bool
    then false
    else if (negb (String.eqb (f_priority f) "All")
             && negb (or_equals (t !! "priority") "" (f_priority f)))%bool
    then false
    else if (negb (String.eqb (f_category f) "All")
             && negb (or_equals (t !! "category") "Other" (f_category f)))%bool
    then false
    else true in
  if String.eqb (f_q f) "" then Some rest
  else
    let ql := PyStr.lower (f_q f) in
    match text_lower t "title" with
    | None => None
    | Some title =>
        if PyStr.contains ql title then Some rest
        else
          match text_lower t "desc" with
          | None => None
          | Some desc => if PyStr.contains ql desc then Some rest else Some false
          end
    end.

(** [[t for t in tasks if task_matches(t)]] *)
Fixpoint filter_tasks (f : filters) (tasks : list pydict) : option (list pydict) :=
  match tasks with
  | [] => Some []
  | t :: rest =>
      match task_matches f t with
      | None => None
      | Some keep =>
          match filter_tasks f rest with
          | None => None
          | Some shown => Some (if keep then t :: shown else shown)
          end
      end
  end.

(** The same tests on a row of [tasks]. *)
Definition row_matches (f : filters) (r : task_row) : bool :=
  ((String.eqb (f_q f) ""
    || PyStr.contains (PyStr.lower (f_q f)) (PyStr.lower (t_title r))
    || PyStr.contains (PyStr.lower (f_q f)) (PyStr.lower (default "" (t_desc r))))
   && (String.eqb (f_status f) "All"
       || Bool.eqb (t_done r) (String.eqb (f_status f) "Done"))
   && (String.eqb (f_priority f) "All"
       || String.eqb (default "" (t_priority r)) (f_priority f))
   && (String.eqb (f_category f) "All"
       || String.eqb (match t_category r with
                      | Some c => if String.eqb c "" then "Other" else c
                      | None => "Other"
                      end) (f_category f)))%bool.

(** ** The edit form of the Tasks page

    Streamlit's widgets are outside the repository: the values they
    return in a run are inputs of the model.  The model covers a run in
    which the Edit button and "Save changes" both report true. *)




Section EditForm.
Context {rt : Runtime}.



End EditForm.

(** ** More sample data *)
Module Demo.

(** A second open task of the first sample account. *)
Definition call_mom : task_row :=
  mk_task 1 "Call mom" (Some "") None (Some "Medium") (Some "Personal")
          false "2024-05-01T08:20:00" None.

(** The sample store with that task added. *)
Definition store1 : store :=
  mk_store (mk_db (users (st_db Sample.store0))
                  (<[ "t-call" := call_mom ]> (tasks (st_db Sample.store0))))
           [].

(** The keyword arguments of an edit that only lowers the priority. *)
Definition lower_priority : patch :=
  mk_patch None None None (Some (Some "Low")) None None.



(** "pay in 11...1 days", with a number of 4301 digits. *)
Definition long_wait : string :=
  ("pay in " ++ string_of_list_ascii (repeat "1"%char 4301) ++ " days")%string.

(** A filter on the text "RENT". *)
Definition find_rent : filters := mk_filters "RENT" "All" "All" "All".

End Demo.

(** * Properties *)

Example sample_iso_date : Sample.iso_date 739008 = "2024-05-02".
Proof. reflexivity. Qed.

Example sample_parse_iso :
  Sample.parse_iso "2024-05-01" = Returned (mk_datetime 739007 0)
  /\ Sample.parse_iso "2024-05-01T09:00:00" = Returned (mk_datetime 739007 32400)
  /\ Sample.parse_iso "2024-02-30" = Raised ValueError
  /\ Sample.parse_iso "next week" = Raised ValueError
  /\ Sample.iso_datetime Sample.may2 = "2024-05-02T10:00:00".
Proof. repeat split; vm_compute; reflexivity. Qed.

(** ** The priority suggestion rule *)

Section SuggestPriority.
Context {rt : Runtime}.

Lemma suggest_date today d :
  suggest_priority_by_due today (PyDate d) = Returned (classify today d).
Proof.
  unfold suggest_priority_by_due, classify; simpl.
  destruct (d - today <=? 0); [reflexivity|].
  destruct (d - today <=? 3); reflexivity.
Qed.

Lemma suggest_datetime today dt :
  suggest_priority_by_due today (PyDatetime dt) = Returned (classify today (dt_date dt)).
Proof.
  unfold suggest_priority_by_due, classify; simpl.
  destruct (dt_date dt - today <=? 0); [reflexivity|].
  destruct (dt_date dt - today <=? 3); reflexivity.
Qed.

Lemma suggest_iso_text today s dt :
  s <> "" ->
  datetime_fromisoformat s = Returned dt ->
  suggest_priority_by_due today (PyStr s) = Returned (classify today (dt_date dt)).
Proof.
  intros Hs Hp. unfold suggest_priority_by_due, classify; simpl.
  destruct (String.eqb_spec s ""); [contradiction|]. simpl. rewrite Hp.
  destruct (dt_date dt - today <=? 0); [reflexivity|].
  destruct (dt_date dt - today <=? 3); reflexivity.
Qed.

Lemma classify_high today d : classify today d = "High" <-> d <= today.
Proof.
  unfold classify.
  destruct (Z.leb_spec (d - today) 0); [split; [lia | reflexivity]|].
  destruct (Z.leb_spec (d - today) 3); (split; [discriminate | lia]).
Qed.

Lemma classify_medium today d : classify today d = "Medium" <-> 1 <= d - today <= 3.
Proof.
  unfold classify.
  destruct (Z.leb_spec (d - today) 0); [split; [discriminate | lia]|].
  destruct (Z.leb_spec (d - today) 3); [split; [lia | reflexivity]|].
  split; [discriminate | lia].
Qed.

Lemma classify_low today d : classify today d = "Low" <-> d - today > 3.
Proof.
  unfold classify.
  destruct (Z.leb_spec (d - today) 0); [split; [discriminate | lia]|].
  destruct (Z.leb_spec (d - today) 3); [split; [discriminate | lia]|].
  split; [lia | reflexivity].
Qed.

(** C5.  For an optional due date [d] and the current date [today], the
    suggestion is High exactly when [d] is present and not after [today],
    Medium exactly when [d] lies 1 to 3 days ahead, and Low exactly when
    [d] is absent or more than 3 days ahead. *)
Theorem suggest_priority_by_due_rule (today : date) (d : option date) :
  (suggest_priority_by_due today (due_of d) = Returned "High"
     <-> exists x, d = Some x /\ x <= today)
  /\ (suggest_priority_by_due today (due_of d) = Returned "Medium"
     <-> exists x, d = Some x /\ 1 <= x - today <= 3)
  /\ (suggest_priority_by_due today (due_of d) = Returned "Low"
     <-> d = None \/ exists x, d = Some x /\ x - today > 3).
Proof.
  destruct d as [x|]; simpl.
  - rewrite suggest_date. repeat split.
    + intros E. exists x. split; [reflexivity|]. apply classify_high. congruence.
    + intros (y & [= <-] & Hy). f_equal. apply classify_high, Hy.
    + intros E. exists x. split; [reflexivity|]. apply classify_medium. congruence.
    + intros (y & [= <-] & Hy). f_equal. apply classify_medium, Hy.
    + intros E. right. exists x. split; [reflexivity|]. apply classify_low. congruence.
    + intros [E | (y & [= <-] & Hy)]; [discriminate|]. f_equal. apply classify_low, Hy.
  - unfold suggest_priority_by_due; simpl. repeat split.
    + discriminate.
    + intros (y & E & _). discriminate.
    + discriminate.
    + intros (y & E & _). discriminate.
    + intros _. left. reflexivity.
Qed.



End SuggestPriority.



(** ** Authentication *)

Section Login.
Context {rt : Runtime}.

Lemma find_user_by_email_none (us : gmap Z user_row) (e : string) :
  find_user_by_email us e = None <->
  forall i r, us !! i = Some r -> u_email r <> e.
Proof.
  unfold find_user_by_email. split.
  - intros Hn i r Hir He.
    pose proof (find_none _ _ Hn (i, r)) as Hf.
    rewrite <- list_elem_of_In, elem_of_map_to_list in Hf.
    specialize (Hf Hir). simpl in Hf.
    apply String.eqb_neq in Hf. contradiction.
  - intros Hall.
    destruct (find _ _) as [[i r]|] eqn:Hf; [|reflexivity].
    apply find_some in Hf as [Hin Heq]. simpl in Heq.
    rewrite <- list_elem_of_In, elem_of_map_to_list in Hin.
    apply String.eqb_eq in Heq. exfalso. exact (Hall i r Hin Heq).
Qed.

Lemma find_user_by_email_some (us : gmap Z user_row) (e : string) i r :
  find_user_by_email us e = Some (i, r) -> us !! i = Some r /\ u_email r = e.
Proof.
  unfold find_user_by_email. intros Hf.
  apply find_some in Hf as [Hin Heq]. simpl in Heq.
  rewrite <- list_elem_of_In, elem_of_map_to_list in Hin.
  apply String.eqb_eq in Heq. auto.
Qed.

Lemma session_user_of_row i r :
  session_user (dict_of_user i r)
  = Returned (list_to_map [("id", VInt i); ("email", VStr (u_email r));
                           ("name", VStr (u_name r)); ("provider", VStr (u_provider r))]).
Proof. reflexivity. Qed.

(** What [login_local] does once the row for the email is known. *)
Lemma login_local_found d email password i r :
  find_user_by_email (users d) (PyStr.strip (PyStr.lower email)) = Some (i, r) ->
  login_local d email password =
    if bool_decide (u_provider r = "local") then
      match u_password_hash r with
      | Some h =>
          match bcrypt_verify password h with
          | Returned true => Returned (Some (dict_of_user i r), None)
          | Returned false => Returned (None, Some InvalidCredentialsError)
          | Raised e => Raised e
          end
      | None => Raised TypeError
      end
    else Returned (None, Some ProviderMismatchError).
Proof.
  intros Hf. unfold login_local, get_user_by_email. rewrite Hf.
  change (getitem (dict_of_user i r) "provider") with (Returned (VStr (u_provider r))).
  change (getitem (dict_of_user i r) "password_hash")
    with (Returned (opt_str (u_password_hash r))).
  cbv beta iota.
  destruct (decide (u_provider r = "local")) as [Hp|Hp].
  - rewrite (bool_decide_eq_true_2 (u_provider r = "local") Hp).
    rewrite bool_decide_eq_true_2 by (rewrite Hp; reflexivity). simpl.
    destruct (u_password_hash r) as [h|]; simpl; [|reflexivity].
    destruct (bcrypt_verify password h) as [[|]|e]; reflexivity.
  - rewrite (bool_decide_eq_false_2 (u_provider r = "local") Hp).
    rewrite bool_decide_eq_false_2 by (intros [= E]; contradiction). reflexivity.
Qed.

(** C7, as the code has it.  With [e] the lower-cased and stripped email:
    when no row has email [e] the login fails with the not-found message;
    otherwise the row found has email [e], and the login fails with the
    provider message when its provider is not local; otherwise it raises
    when the row has no password hash, and raises what the hash check
    raises when that raises; otherwise it fails with the wrong-password
    message when the hash check says no, and succeeds when it says yes.
    On success [login_local] returns the whole row of the user, and the
    login form keeps from it an identity with exactly the keys id, email,
    name and provider. *)
Theorem login_local_checks (d : db) (email password : string) :
  let e := PyStr.strip (PyStr.lower email) in
  ((forall i r, users d !! i = Some r -> u_email r <> e) ->
     login_local d email password = Returned (None, Some NotFoundError))
  /\ ((exists i r, users d !! i = Some r /\ u_email r = e) ->
      exists i r,
        find_user_by_email (users d) e = Some (i, r)
        /\ users d !! i = Some r /\ u_email r = e
        /\ (u_provider r <> "local" ->
              login_local d email password = Returned (None, Some ProviderMismatchError))
        /\ (u_provider r = "local" -> u_password_hash r = None ->
              login_local d email password = Raised TypeError)
        /\ (forall h x, u_provider r = "local" -> u_password_hash r = Some h ->
              bcrypt_verify password h = Raised x ->
              login_local d email password = Raised x)
        /\ (forall h, u_provider r = "local" -> u_password_hash r = Some h ->
              bcrypt_verify password h = Returned false ->
              login_local d email password = Returned (None, Some InvalidCredentialsError))
        /\ (forall h, u_provider r = "local" -> u_password_hash r = Some h ->
              bcrypt_verify password h = Returned true ->
              login_local d email password = Returned (Some (dict_of_user i r), None)
              /\ exists s,
                   login_form d email password = Returned (Some s, None)
                   /\ dom s = identity_keys
                   /\ s !! "id" = Some (VInt i)
                   /\ s !! "email" = Some (VStr (u_email r))
                   /\ s !! "name" = Some (VStr (u_name r))
                   /\ s !! "provider" = Some (VStr (u_provider r)))).
Proof.
  intros e. split.
  - intros Hnone. apply find_user_by_email_none in Hnone.
    unfold login_local, get_user_by_email. fold e. rewrite Hnone. reflexivity.
  - intros (i0 & r0 & Hi0 & He0).
    destruct (find_user_by_email (users d) e) as [[i r]|] eqn:Hf.
    2:{ exfalso. exact (proj1 (find_user_by_email_none _ _) Hf i0 r0 Hi0 He0). }
    exists i, r. destruct (find_user_by_email_some _ _ _ _ Hf) as [Hir He].
    pose proof (login_local_found d email password i r Hf) as Hl.
    split; [reflexivity|]. split; [exact Hir|]. split; [exact He|].
    split; [|split; [|split; [|split]]].
    + intros Hp. rewrite Hl, bool_decide_eq_false_2 by exact Hp. reflexivity.
    + intros Hp Hh. rewrite Hl, bool_decide_eq_true_2, Hh by exact Hp. reflexivity.
    + intros h x Hp Hh Hv. rewrite Hl, bool_decide_eq_true_2, Hh, Hv by exact Hp. reflexivity.
    + intros h Hp Hh Hv. rewrite Hl, bool_decide_eq_true_2, Hh, Hv by exact Hp. reflexivity.
    + intros h Hp Hh Hv.
      assert (Hok : login_local d email password = Returned (Some (dict_of_user i r), None)).
      { rewrite Hl, bool_decide_eq_true_2, Hh, Hv by exact Hp. reflexivity. }
      split; [exact Hok|].
      eexists. split.
      { unfold login_form. rewrite Hok, session_user_of_row. reflexivity. }
      repeat split; reflexivity.
Qed.

End Login.

(** The sample account logs in with its password, whatever the case of the
    email typed, and is refused with another password. *)
Lemma login_local_checks_witness :
  login_local (rt := Sample.runtime) Sample.db0 " A@X.com " "secret1"
  = Returned (Some (dict_of_user 1 Sample.alice), None)
  /\ login_local (rt := Sample.runtime) Sample.db0 "a@x.com" "secret2"
     = Returned (None, Some InvalidCredentialsError).
Proof.
  split.
  - destruct (login_local_checks (rt := Sample.runtime) Sample.db0 " A@X.com " "secret1")
      as [_ Hfound].
    destruct Hfound as (i & r & Hf & _ & _ & _ & _ & _ & _ & Hok).
    { exists 1, Sample.alice. split; vm_compute; reflexivity. }
    assert (E : i = 1 /\ r = Sample.alice).
    { vm_compute in Hf. injection Hf as <- <-. split; reflexivity. }
    destruct E as [-> ->].
    exact (proj1 (Hok Sample.known_hash eq_refl eq_refl eq_refl)).
  - destruct (login_local_checks (rt := Sample.runtime) Sample.db0 "a@x.com" "secret2")
      as [_ Hfound].
    destruct Hfound as (i & r & Hf & _ & _ & _ & _ & _ & Hno & _).
    { exists 1, Sample.alice. split; vm_compute; reflexivity. }
    assert (E : i = 1 /\ r = Sample.alice).
    { vm_compute in Hf. injection Hf as <- <-. split; reflexivity. }
    destruct E as [-> ->].
    exact (Hno Sample.known_hash eq_refl eq_refl eq_refl).
Defined.

(** C7 as stated fails: the value [login_local] returns on success is the
    whole row of the user, stored password hash included, not a record of
    exactly id, email, name and provider. *)
Lemma login_local_returns_whole_row :
  exists user,
    login_local (rt := Sample.runtime) Sample.db0 "a@x.com" "secret1" = Returned (Some user, None)
    /\ user !! "password_hash" = Some (VStr Sample.known_hash)
    /\ dom user <> identity_keys.
Proof.
  exists (dict_of_user 1 Sample.alice). split; [|split].
  - vm_compute. reflexivity.
  - reflexivity.
  - intros E.
    assert (Hin : "password_hash" ∈ dom (dict_of_user 1 Sample.alice)).
    { apply elem_of_dom. eexists. reflexivity. }
    rewrite E in Hin. vm_compute in Hin.
    revert Hin. unfold identity_keys. set_solver.
Qed.

(** ** Completing a task *)

Section Completion.
Context {rt : Runtime}.

Lemma priority_bonus_values :
  priority_bonus (Some "High") = 5
  /\ priority_bonus (Some "Medium") = 2
  /\ priority_bonus (Some "Low") = 0.
Proof. repeat split; reflexivity. Qed.

Lemma set_task_fields_done u stamp r :
  sets_done u = true -> p_title u <> Some None ->
  set_task_fields u (Some stamp) r = Returned (completed_task u stamp r).
Proof.
  unfold sets_done, set_task_fields, completed_task. intros Hd Ht.
  destruct (p_done u) as [[|]|]; try discriminate.
  destruct (p_title u) as [[t|]|]; try reflexivity. contradiction.
Qed.

Lemma sets_done_not_empty u : sets_done u = true -> patch_is_empty u = false.
Proof.
  unfold sets_done, patch_is_empty.
  destruct (p_done u) as [[|]|]; try discriminate. intros _.
  destruct (p_title u), (p_desc u), (p_due u), (p_priority u), (p_category u); reflexivity.
Qed.

Lemma in_int64_small z : 0 <= z <= 100 -> in_int64 z = true.
Proof.
  intros Hz. unfold in_int64, int64_max.
  apply andb_true_iff. split; apply Z.leb_le; lia.
Qed.

(** Every run of a completing update of an owned task, by the statement at
    which the store fails: the task UPDATE and its commit, the two SELECTs,
    the users UPDATE and its commit. *)
Lemma completion_run_any uid now fault tid u d tr :
  tasks d !! tid = Some tr ->
  t_user_id tr = uid ->
  sets_done u = true ->
  p_title u <> Some None ->
  let prio := or_keep (p_priority u) (t_priority tr) in
  let d1 := mk_db (users d)
                  (<[tid := completed_task u (datetime_isoformat_seconds now) tr]> (tasks d)) in
  let row := users d !! uid in
  let points := match row with Some r => u_points r | None => Some 0 end in
  let streak := match row with Some r => u_streak r | None => Some 0 end in
  let last := match row with Some r => u_last_complete_date r | None => None end in
  with_conn fault (update_task_db uid now tid u) d =
    match fault with
    | Some 0%nat | Some 1%nat => (Raised OperationalError, d)
    | Some 2%nat | Some 3%nat => (Raised OperationalError, d1)
    | _ =>
        match points with
        | None => (Raised TypeError, d1)
        | Some p =>
            if (in_int64 (p + (10 + priority_bonus prio))
                && binds (next_streak (dt_date now) (parse_last last) streak))%bool
            then
              match fault with
              | Some 4%nat | Some 5%nat => (Raised OperationalError, d1)
              | _ => (Returned tt,
                      match row with
                      | Some ur =>
                          mk_db (<[uid := credited_user now prio p ur]> (users d)) (tasks d1)
                      | None => d1
                      end)
              end
            else (Raised OverflowError, d1)
        end
    end.
Proof.
  intros Ht Ho Hd Hn prio d1 row points streak last. subst prio d1 row points streak last.
  unfold with_conn, update_task_db, gamify, sql_bind, execute, commit, sql_raise.
  rewrite Hd. cbn [budget working committed].
  unfold stmt_update_task. rewrite (sets_done_not_empty u Hd), Ht, Ho, Z.eqb_refl.
  rewrite (set_task_fields_done u _ tr Hd Hn).
  unfold stmt_select_user, stmt_select_priority, stmt_update_user, credited_user.
  destruct (users d !! uid) as [ur|] eqn:Hu; [destruct (u_points ur) as [p|] eqn:Hp|];
    destruct fault as [[|[|[|[|[|[|n]]]]]]|];
    repeat (progress (cbn; rewrite ?lookup_insert_eq, ?Ho, ?Z.eqb_refl, ?Hu; try rewrite Hp));
    try reflexivity;
    match goal with
    | |- context [if ?c then _ else _] => destruct c
    end;
    repeat (progress (cbn; rewrite ?lookup_insert_eq, ?Ho, ?Z.eqb_refl, ?Hu; try rewrite Hp));
    reflexivity.
Qed.

Lemma completion_run uid now fault tid u d ur tr :
  users d !! uid = Some ur ->
  tasks d !! tid = Some tr ->
  t_user_id tr = uid ->
  sets_done u = true ->
  p_title u <> Some None ->
  let prio := or_keep (p_priority u) (t_priority tr) in
  let d1 := mk_db (users d)
                  (<[tid := completed_task u (datetime_isoformat_seconds now) tr]> (tasks d)) in
  with_conn fault (update_task_db uid now tid u) d =
    match fault with
    | Some 0%nat | Some 1%nat => (Raised OperationalError, d)
    | Some 2%nat | Some 3%nat => (Raised OperationalError, d1)
    | _ =>
        match u_points ur with
        | None => (Raised TypeError, d1)
        | Some p =>
            if (in_int64 (p + (10 + priority_bonus prio))
                && binds (next_streak (dt_date now) (parse_last (u_last_complete_date ur))
                                      (u_streak ur)))%bool
            then
              match fault with
              | Some 4%nat | Some 5%nat => (Raised OperationalError, d1)
              | _ => (Returned tt,
                      mk_db (<[uid := credited_user now prio p ur]> (users d)) (tasks d1))
              end
            else (Raised OverflowError, d1)
        end
    end.
Proof.
  intros Hu Ht Ho Hd Hn prio d1.
  rewrite (completion_run_any uid now fault tid u d tr Ht Ho Hd Hn). cbv zeta.
  rewrite Hu. reflexivity.
Qed.

(** A completing update of an owned task, without storage failure and with
    values that fit: the database it leaves, whatever the [done] flag was
    before. *)
Lemma update_task_db_completes uid now tid u d ur p tr :
  users d !! uid = Some ur ->
  u_points ur = Some p ->
  tasks d !! tid = Some tr ->
  t_user_id tr = uid ->
  sets_done u = true ->
  p_title u <> Some None ->
  in_int64 (p + (10 + priority_bonus (or_keep (p_priority u) (t_priority tr)))) = true ->
  binds (next_streak (dt_date now) (parse_last (u_last_complete_date ur)) (u_streak ur)) = true ->
  with_conn None (update_task_db uid now tid u) d =
    (Returned tt,
     mk_db (<[uid := mk_user (u_email ur) (u_name ur) (u_password_hash ur) (u_provider ur)
                       (Some (p + (10 + priority_bonus (or_keep (p_priority u) (t_priority tr)))))
                       (next_streak (dt_date now) (parse_last (u_last_complete_date ur))
                                    (u_streak ur))
                       (Some (date_isoformat (dt_date now)))
                       (u_created_at ur)]> (users d))
           (<[tid := completed_task u (datetime_isoformat_seconds now) tr]> (tasks d))).
Proof.
  intros Hu Hp Ht Ho Hd Hn Hfit Hbind.
  rewrite (completion_run uid now None tid u d ur tr Hu Ht Ho Hd Hn).
  rewrite Hp, Hfit, Hbind. reflexivity.
Qed.

(** A completing update that sets the title to [None] violates the NOT
    NULL constraint on the first statement and persists nothing. *)
Lemma completion_null_title uid now fault tid u d tr :
  tasks d !! tid = Some tr ->
  t_user_id tr = uid ->
  sets_done u = true ->
  p_title u = Some None ->
  exists e, with_conn fault (update_task_db uid now tid u) d = (Raised e, d).
Proof.
  intros Ht Ho Hd Hn.
  unfold with_conn, update_task_db, sql_bind, execute. rewrite Hd.
  cbn [budget working committed].
  unfold stmt_update_task. rewrite (sets_done_not_empty u Hd), Ht, Ho, Z.eqb_refl.
  unfold set_task_fields. rewrite Hn.
  destruct fault as [[|n]|]; eexists; reflexivity.
Qed.

(** C4, as the code has it.  A call that takes a task of the session's
    user from not done to done and returns has credited the user: the
    points have grown by 10 plus the bonus of the task's priority (5 for
    High, 2 for Medium, 0 for Low), the streak is the old streak plus one
    when the last completion date is yesterday, the old streak when that
    date is today, and 1 otherwise, and the last completion date is today.
    A call that raises leaves the [users] table as it was, also when the
    completed task row is already committed.  The call returns when no
    storage failure occurs, the title is not set to [None], the user's
    points are not NULL, and the new points and streak fit in 64 bits. *)
Theorem update_task_awards (uid : Z) (now : datetime) (fault : option nat) (tid : string)
    (u : patch) (s : store) (ur : user_row) (tr : task_row) :
  users (st_db s) !! uid = Some ur ->
  tasks (st_db s) !! tid = Some tr ->
  t_user_id tr = uid ->
  t_done tr = false ->
  sets_done u = true ->
  let today := dt_date now in
  let last := parse_last (u_last_complete_date ur) in
  let prio := or_keep (p_priority u) (t_priority tr) in
  let res := update_task (Some uid) now fault tid u s in
  (fst res = Returned tt ->
     exists p ur' tr',
       u_points ur = Some p
       /\ users (st_db (snd res)) !! uid = Some ur'
       /\ tasks (st_db (snd res)) !! tid = Some tr'
       /\ t_done tr' = true
       /\ t_completed_at tr' = Some (datetime_isoformat_seconds now)
       /\ u_points ur' = Some (p + 10 + priority_bonus prio)
       /\ (prio = Some "High" -> u_points ur' = Some (p + 15))
       /\ (prio = Some "Medium" -> u_points ur' = Some (p + 12))
       /\ (prio = Some "Low" -> u_points ur' = Some (p + 10))
       /\ (last = Some (today - 1) -> u_streak ur' = Some (or_zero (u_streak ur) + 1))
       /\ (last = Some today -> u_streak ur' = u_streak ur)
       /\ (last <> Some (today - 1) -> last <> Some today -> u_streak ur' = Some 1)
       /\ u_last_complete_date ur' = Some (date_isoformat today))
  /\ ((exists e, fst res = Raised e) -> users (st_db (snd res)) = users (st_db s))
  /\ (fault = None ->
      p_title u <> Some None ->
      forall p, u_points ur = Some p ->
        in_int64 (p + (10 + priority_bonus prio)) = true ->
        binds (next_streak today last (u_streak ur)) = true ->
        fst res = Returned tt).
Proof.
  intros Hu Ht Ho _ Hd today last prio res. subst res. unfold update_task.
  destruct (decide (p_title u = Some None)) as [Hn|Hn].
  { destruct (completion_null_title uid now fault tid u (st_db s) tr Ht Ho Hd Hn) as [e ->].
    cbn [fst snd st_db].
    split; [discriminate|]. split; [reflexivity|]. intros _ N. contradiction. }
  rewrite (completion_run uid now fault tid u (st_db s) ur tr Hu Ht Ho Hd Hn).
  fold today last prio.
  assert (Hok : forall p, u_points ur = Some p ->
            let d2 := mk_db (<[uid := credited_user now prio p ur]> (users (st_db s)))
                            (<[tid := completed_task u (datetime_isoformat_seconds now) tr]>
                               (tasks (st_db s))) in
            exists p0 ur' tr',
              u_points ur = Some p0
              /\ users d2 !! uid = Some ur'
              /\ tasks d2 !! tid = Some tr'
              /\ t_done tr' = true
              /\ t_completed_at tr' = Some (datetime_isoformat_seconds now)
              /\ u_points ur' = Some (p0 + 10 + priority_bonus prio)
              /\ (prio = Some "High" -> u_points ur' = Some (p0 + 15))
              /\ (prio = Some "Medium" -> u_points ur' = Some (p0 + 12))
              /\ (prio = Some "Low" -> u_points ur' = Some (p0 + 10))
              /\ (last = Some (today - 1) -> u_streak ur' = Some (or_zero (u_streak ur) + 1))
              /\ (last = Some today -> u_streak ur' = u_streak ur)
              /\ (last <> Some (today - 1) -> last <> Some today -> u_streak ur' = Some 1)
              /\ u_last_complete_date ur' = Some (date_isoformat today)).
  { intros p Hp d2. exists p. eexists _, _. subst d2. cbn [users tasks].
    rewrite !lookup_insert_eq.
    split; [exact Hp|]. split; [reflexivity|]. split; [reflexivity|].
    cbn [completed_task credited_user t_done t_completed_at u_points u_streak
         u_last_complete_date].
    fold today last.
    split; [reflexivity|]. split; [reflexivity|].
    split; [f_equal; lia|].
    split; [intros ->; reflexivity|].
    split; [intros ->; reflexivity|].
    split; [intros ->; f_equal; simpl; lia|].
    unfold next_streak.
    split; [intros ->; rewrite Z.eqb_refl; reflexivity|].
    split.
    { intros ->. destruct (Z.eqb_spec today (today - 1)); [lia|].
      rewrite Z.eqb_refl. reflexivity. }
    split; [|reflexivity].
    intros N1 N2. destruct last as [l|]; [|reflexivity].
    destruct (Z.eqb_spec l (today - 1)) as [E1|_]; [exfalso; apply N1; f_equal; exact E1|].
    destruct (Z.eqb_spec l today) as [E2|_]; [exfalso; apply N2; f_equal; exact E2|].
    reflexivity. }
  destruct (u_points ur) as [p|] eqn:Hp.
  - specialize (Hok p eq_refl). cbv zeta in Hok.
    destruct (in_int64 (p + (10 + priority_bonus prio))
              && binds (next_streak today last (u_streak ur)))%bool eqn:Hfit.
    + destruct fault as [[|[|[|[|[|[|n]]]]]]|]; cbn [fst snd st_db users];
        (split; [first [discriminate | intros _; exact Hok]|]);
        (split; [first [reflexivity | intros [e He]; discriminate He]|]);
        first [ discriminate | intros; reflexivity ].
    + destruct fault as [[|[|[|[|[|[|n]]]]]]|]; cbn [fst snd st_db users];
        (split; [discriminate|]); (split; [reflexivity|]);
        first [ discriminate
              | intros _ _ p0 [= <-] H1 H2; rewrite H1, H2 in Hfit; discriminate Hfit ].
  - destruct fault as [[|[|[|[|[|[|n]]]]]]|]; cbn [fst snd st_db users];
      (split; [discriminate|]); (split; [reflexivity|]);
      first [ discriminate | intros _ _ p0 E; discriminate E ].
Qed.

(** The JSON branch stamps a completion only when the task was not done
    before: a task that is already done keeps its timestamp. *)
Lemma update_json_task_keeps_stamp now tid u t :
  j_done t = true ->
  j_completed_at (update_json_task now tid u t) = j_completed_at t.
Proof.
  intros Hd. unfold update_json_task.
  destruct (String.eqb (j_id t) tid); [|reflexivity].
  simpl. rewrite Hd, andb_false_r. reflexivity.
Qed.

End Completion.

(** On 2024-05-02 the second account, whose last completion was the day
    before, completes its Low task: the call returns, 40 points become 50
    and the streak of 3 becomes 4. *)
Lemma update_task_awards_witness :
  let res := update_task (rt := Sample.runtime) (Some 2) Sample.may2 None "t-report"
                         Sample.tick Sample.store0 in
  fst res = Returned tt
  /\ exists ur', users (st_db (snd res)) !! 2 = Some ur'
       /\ u_points ur' = Some 50
       /\ u_streak ur' = Some 4
       /\ u_last_complete_date ur' = Some "2024-05-02".
Proof.
  intros res.
  destruct (update_task_awards (rt := Sample.runtime) 2 Sample.may2 None "t-report" Sample.tick
              Sample.store0 Sample.bob Sample.report eq_refl eq_refl eq_refl eq_refl eq_refl)
    as (Hcredit & _ & Hret).
  assert (E : fst res = Returned tt).
  { apply (Hret eq_refl ltac:(discriminate) 40 eq_refl); reflexivity. }
  split; [exact E|].
  destruct (Hcredit E)
    as (p & ur' & tr' & Hp & Hu & _ & _ & _ & _ & _ & _ & Hlow & Hyes & _ & _ & Hlast).
  injection Hp as <-.
  exists ur'. split; [exact Hu|].
  split; [exact (Hlow eq_refl)|]. split; [exact (Hyes eq_refl)|]. exact Hlast.
Defined.

(** C4 as stated fails: not every transition from not done to done is
    credited.  The account with 9223372036854775800 points ticks its High
    task: the 15 points do not fit in SQLite's 64-bit INTEGER, the call
    raises OverflowError after the task row is committed, and the points
    are as before.  And when the store fails at the priority SELECT, the
    first account's task is persisted as done while its points, streak and
    date are as before. *)
Lemma transition_without_credit :
  let flag s tid := (fun r => (t_done r, t_completed_at r)) <$> (tasks (st_db s) !! tid) in
  let score uid s :=
    (fun r => (u_points r, u_streak r, u_last_complete_date r)) <$> (users (st_db s) !! uid) in
  let full :=
    update_task (rt := Sample.runtime) (Some 4) Sample.may1 None "t-audit" Sample.tick
                Sample.store_full in
  let broken :=
    update_task (rt := Sample.runtime) (Some 1) Sample.may1 (Some 3%nat) "t-rent" Sample.tick
                Sample.store0 in
  flag Sample.store_full "t-audit" = Some (false, None)
  /\ fst full = Raised OverflowError
  /\ flag (snd full) "t-audit" = Some (true, Some "2024-05-01T09:00:00")
  /\ score 4 (snd full) = Some (Some 9223372036854775800, Some 1, Some "2024-04-30")
  /\ flag Sample.store0 "t-rent" = Some (false, None)
  /\ fst broken = Raised OperationalError
  /\ flag (snd broken) "t-rent" = Some (true, Some "2024-05-01T09:00:00")
  /\ score 1 (snd broken) = Some (Some 0, Some 0, None).
Proof. vm_compute. repeat split; reflexivity. Qed.

(** C1, on the code.  The first account completes its High task at 09:00
    and the same call is made again at 09:30 on the same day, and once
    more the next morning.  The first call gives 15 points, streak 1 and
    the 09:00 timestamp; the second call gives 15 points again and replaces
    the timestamp; the third does both again and also moves the streak. *)
Theorem update_task_done_twice :
  let upd now s :=
    snd (update_task (rt := Sample.runtime) (Some 1) now None "t-rent" Sample.tick s) in
  let s1 := upd Sample.may1 Sample.store0 in
  let s2 := upd Sample.may1_later s1 in
  let s3 := upd Sample.may2 s2 in
  let stamp s := t_completed_at <$> (tasks (st_db s) !! "t-rent") in
  let score s :=
    (fun r => (u_points r, u_streak r, u_last_complete_date r)) <$> (users (st_db s) !! 1) in
  (t_done <$> (tasks (st_db s1) !! "t-rent")) = Some true
  /\ stamp s1 = Some (Some "2024-05-01T09:00:00")
  /\ score s1 = Some (Some 15, Some 1, Some "2024-05-01")
  /\ stamp s2 = Some (Some "2024-05-01T09:30:00")
  /\ score s2 = Some (Some 30, Some 1, Some "2024-05-01")
  /\ stamp s3 = Some (Some "2024-05-02T10:00:00")
  /\ score s3 = Some (Some 45, Some 2, Some "2024-05-02").
Proof. vm_compute. repeat split; reflexivity. Qed.

(** ** Properties kept by every run of a connection *)

Section Keeps.
Context {P : db -> Prop}.

Lemma keeps_ret {A} (a : A) : keeps P (sql_ret a).
Proof. intros c Hc Hw. simpl. auto. Qed.

Lemma keeps_raise {A} (e : exn) : keeps P (@sql_raise A e).
Proof. intros c Hc Hw. simpl. auto. Qed.

Lemma keeps_bind {A B} (m : sql A) (k : A -> sql B) :
  keeps P m -> (forall a, keeps P (k a)) -> keeps P (sql_bind m k).
Proof.
  intros Hm Hk c Hc Hw. unfold sql_bind.
  specialize (Hm c Hc Hw). destruct (m c) as [[a|e] c']; simpl in *.
  - apply Hk; tauto.
  - exact Hm.
Qed.

Lemma keeps_execute {A} (stmt : db -> outcome (A * db)) :
  stmt_keeps P stmt -> keeps P (execute stmt).
Proof.
  intros Hs c Hc Hw. unfold execute.
  destruct (spend (budget c)) as [b|]; [|simpl; auto].
  specialize (Hs (working c) Hw).
  destruct (stmt (working c)) as [[a d]|e]; simpl; auto.
Qed.

Lemma keeps_commit : keeps P commit.
Proof.
  intros c Hc Hw. unfold commit.
  destruct (spend (budget c)); simpl; auto.
Qed.

Lemma keeps_with_conn {A} (m : sql A) fault d :
  keeps P m -> P d -> P (snd (with_conn fault m d)).
Proof.
  intros Hm Hd. unfold with_conn.
  specialize (Hm (mk_conn d d fault) Hd Hd).
  destruct (m (mk_conn d d fault)) as [r c]. simpl in *. tauto.
Qed.

End Keeps.

Ltac keeps_steps :=
  repeat first
    [ apply keeps_ret | apply keeps_raise | apply keeps_commit
    | apply keeps_bind; [|intros ?] | apply keeps_execute ].

(** ** Two runs side by side *)

Section Sim.
Context {R : db -> db -> Prop}.

Lemma sim_ret {A} (a : A) : sim R (sql_ret a) (sql_ret a).
Proof. intros c1 c2 Hb Hc Hw. simpl. auto. Qed.

Lemma sim_raise {A} (e : exn) : sim R (@sql_raise A e) (sql_raise e).
Proof. intros c1 c2 Hb Hc Hw. simpl. auto. Qed.

Lemma sim_bind {A B} (m1 m2 : sql A) (k1 k2 : A -> sql B) :
  sim R m1 m2 -> (forall a, sim R (k1 a) (k2 a)) -> sim R (sql_bind m1 k1) (sql_bind m2 k2).
Proof.
  intros Hm Hk c1 c2 Hb Hc Hw. unfold sql_bind.
  destruct (Hm c1 c2 Hb Hc Hw) as (Hr & Hb' & Hc' & Hw').
  destruct (m1 c1) as [[a1|e1] c1'], (m2 c2) as [[a2|e2] c2']; simpl in *;
    try discriminate Hr.
  - injection Hr as ->. apply Hk; assumption.
  - injection Hr as ->. repeat split; assumption.
Qed.

Lemma sim_execute {A} (s1 s2 : db -> outcome (A * db)) :
  stmt_sim R s1 s2 -> sim R (execute s1) (execute s2).
Proof.
  intros Hs c1 c2 Hb Hc Hw. unfold execute. rewrite Hb.
  destruct (spend (budget c2)) as [b|]; [|simpl; auto].
  specialize (Hs (working c1) (working c2) Hw).
  destruct (s1 (working c1)) as [[a1 d1]|e1], (s2 (working c2)) as [[a2 d2]|e2];
    simpl; try contradiction.
  - destruct Hs as [-> Hd]. auto.
  - subst e2. auto.
Qed.

Lemma sim_commit : sim R commit commit.
Proof.
  intros c1 c2 Hb Hc Hw. unfold commit. rewrite Hb.
  destruct (spend (budget c2)); simpl; auto.
Qed.

Lemma sim_with_conn {A} (m1 m2 : sql A) fault d1 d2 :
  sim R m1 m2 -> R d1 d2 ->
  fst (with_conn fault m1 d1) = fst (with_conn fault m2 d2)
  /\ R (snd (with_conn fault m1 d1)) (snd (with_conn fault m2 d2)).
Proof.
  intros Hm Hd. unfold with_conn.
  destruct (Hm (mk_conn d1 d1 fault) (mk_conn d2 d2 fault) eq_refl Hd Hd) as (Hr & _ & Hc & _).
  destruct (m1 _) as [r1 c1], (m2 _) as [r2 c2]. simpl in *. auto.
Qed.

End Sim.

Ltac sim_steps :=
  repeat first
    [ apply sim_ret | apply sim_raise | apply sim_commit
    | apply sim_bind; [|intros ?] | apply sim_execute ].

(** ** Tasks of other users, and task ids that do not exist *)

Section Ownership.
Context {rt : Runtime}.

Lemma stmt_update_task_not_own d uid tid u stamp :
  not_own d uid tid ->
  stmt_update_task tid uid u stamp d = Returned (tt, d)
  \/ exists e, stmt_update_task tid uid u stamp d = Raised e.
Proof.
  unfold not_own, stmt_update_task. intros Hn.
  destruct (patch_is_empty u); [right; eexists; reflexivity|].
  destruct (tasks d !! tid) as [r|]; [|left; reflexivity].
  destruct (Z.eqb_spec (t_user_id r) uid); [contradiction|]. left. reflexivity.
Qed.

Lemma stmt_update_task_not_own_eq d uid tid u stamp :
  not_own d uid tid ->
  stmt_update_task tid uid u stamp d
  = if patch_is_empty u then Raised OperationalError else Returned (tt, d).
Proof.
  unfold not_own, stmt_update_task. intros Hn.
  destruct (patch_is_empty u); [reflexivity|].
  destruct (tasks d !! tid) as [r|]; [|reflexivity].
  destruct (Z.eqb_spec (t_user_id r) uid); [contradiction|]. reflexivity.
Qed.

Lemma stmt_select_priority_not_own d uid tid :
  not_own d uid tid -> stmt_select_priority tid uid d = Returned (None, d).
Proof.
  unfold not_own, stmt_select_priority. intros Hn.
  destruct (tasks d !! tid) as [r|]; [|reflexivity].
  destruct (Z.eqb_spec (t_user_id r) uid); [contradiction|]. reflexivity.
Qed.

(** On an id that is not the caller's, the run reads nothing of [tasks]:
    two databases with the same [users] give the same result and the
    same [users]. *)
Lemma update_task_db_blind uid now tid u :
  sim (same_users_not_own uid tid)
      (update_task_db uid now tid u) (update_task_db uid now tid u).
Proof.
  unfold update_task_db, gamify. sim_steps.
  - intros d1 d2 (Hu & H1 & H2).
    rewrite !stmt_update_task_not_own_eq by assumption.
    destruct (patch_is_empty u); [reflexivity|]. repeat split; assumption.
  - destruct (sets_done u); sim_steps.
    + intros d1 d2 (Hu & H1 & H2). unfold stmt_select_user. rewrite Hu.
      repeat split; assumption.
    + intros d1 d2 (Hu & H1 & H2).
      rewrite !stmt_select_priority_not_own by assumption. repeat split; assumption.
    + match goal with |- sim _ (match ?x with _ => _ end) _ => destruct x end; sim_steps.
      match goal with |- sim _ (if ?c then _ else _) _ => destruct c end; sim_steps.
      intros d1 d2 (Hu & H1 & H2). unfold stmt_update_user. rewrite Hu.
      destruct (users d2 !! uid); repeat split; simpl; assumption.
Qed.

Lemma stmt_delete_task_not_own d uid tid :
  not_own d uid tid -> stmt_delete_task tid uid d = Returned (tt, d).
Proof.
  unfold not_own, stmt_delete_task. intros Hn.
  destruct (tasks d !! tid) as [r|]; [|reflexivity].
  destruct (Z.eqb_spec (t_user_id r) uid); [contradiction|]. reflexivity.
Qed.

Lemma update_task_db_keeps_frame d0 uid now tid u :
  not_own d0 uid tid ->
  keeps (same_but_user d0 uid) (update_task_db uid now tid u).
Proof.
  intros Hn. unfold update_task_db, gamify.
  assert (Hupd : forall stamp, stmt_keeps (same_but_user d0 uid)
                                          (stmt_update_task tid uid u stamp)).
  { intros stamp d [Ht Hu].
    assert (Hn' : not_own d uid tid) by (unfold not_own; rewrite Ht; exact Hn).
    destruct (stmt_update_task_not_own d uid tid u stamp Hn') as [-> | [e ->]];
      [split; assumption | exact I]. }
  keeps_steps; try apply Hupd.
  destruct (sets_done u); keeps_steps.
  - intros d Hd. exact Hd.
  - intros d Hd. exact Hd.
  - match goal with |- keeps _ (match ?x with _ => _ end) => destruct x end; keeps_steps.
    match goal with |- keeps _ (if ?c then _ else _) => destruct c end; keeps_steps.
    intros d [Ht Hu]. unfold stmt_update_user.
    destruct (users d !! uid); [|split; assumption].
    split; [exact Ht|]. intros v Hv. simpl. rewrite lookup_insert_ne by congruence.
    apply Hu, Hv.
Qed.

Lemma update_task_db_keeps_all d0 uid now tid u :
  not_own d0 uid tid -> sets_done u = false ->
  keeps (fun d => d = d0) (update_task_db uid now tid u).
Proof.
  intros Hn Hd. unfold update_task_db. rewrite Hd.
  keeps_steps. intros d ->.
  destruct (stmt_update_task_not_own d0 uid tid u None Hn) as [-> | [e ->]];
    [reflexivity | exact I].
Qed.

Lemma delete_task_keeps_all d0 uid tid :
  not_own d0 uid tid ->
  keeps (fun d => d = d0) (sql_bind (execute (stmt_delete_task tid uid)) (fun _ => commit)).
Proof.
  intros Hn. keeps_steps. intros d ->.
  rewrite (stmt_delete_task_not_own d0 uid tid Hn). reflexivity.
Qed.

(** What the code does keep of C2.  For a user [uid] and a task id that
    does not exist or belongs to another user, whatever storage failure
    occurs: [delete_task] leaves the whole store as it was; [update_task]
    leaves every task row, the fallback file and every other user's row
    as they were; and when the update does not set [done] to true it
    leaves the whole store as it was.  Neither call returns data, and
    the update reads nothing of the task table: with the same [users]
    and any other task table in which the id is not the caller's, its
    result and the [users] it leaves are the same. *)
Theorem foreign_task_untouched (uid : Z) (now : datetime) (fault : option nat)
    (tid : string) (u : patch) (s : store) :
  not_own (st_db s) uid tid ->
  snd (delete_task (Some uid) fault tid s) = s
  /\ tasks (st_db (snd (update_task (Some uid) now fault tid u s))) = tasks (st_db s)
  /\ st_json (snd (update_task (Some uid) now fault tid u s)) = st_json s
  /\ (forall v, v <> uid ->
        users (st_db (snd (update_task (Some uid) now fault tid u s))) !! v
        = users (st_db s) !! v)
  /\ (sets_done u = false -> snd (update_task (Some uid) now fault tid u s) = s)
  /\ (forall s2,
        users (st_db s2) = users (st_db s) ->
        not_own (st_db s2) uid tid ->
        fst (update_task (Some uid) now fault tid u s2)
        = fst (update_task (Some uid) now fault tid u s)
        /\ users (st_db (snd (update_task (Some uid) now fault tid u s2)))
           = users (st_db (snd (update_task (Some uid) now fault tid u s)))).
Proof.
  intros Hn. destruct s as [d js]. simpl in Hn.
  pose proof (keeps_with_conn _ fault d (delete_task_keeps_all d uid tid Hn) eq_refl) as Hdel.
  pose proof (keeps_with_conn _ fault d (update_task_db_keeps_frame d uid now tid u Hn)
                (conj eq_refl (fun v _ => eq_refl))) as [Hupd_t Hupd_u].
  unfold delete_task, update_task. simpl.
  destruct (with_conn fault (sql_bind (execute (stmt_delete_task tid uid)) (fun _ => commit)) d)
    as [rd dd] eqn:Ed.
  destruct (with_conn fault (update_task_db uid now tid u) d) as [ru du] eqn:Eu.
  simpl in *. subst dd.
  split; [reflexivity|]. split; [exact Hupd_t|]. split; [reflexivity|].
  split; [exact Hupd_u|]. split.
  - intros Hd.
    pose proof (keeps_with_conn _ fault d (update_task_db_keeps_all d uid now tid u Hn Hd)
                  eq_refl) as Hall.
    rewrite Eu in Hall. simpl in Hall. rewrite Hall. reflexivity.
  - intros [d2 js2] Hu2 Hn2. cbn [st_db st_json] in *.
    destruct (sim_with_conn _ _ fault d2 d (update_task_db_blind uid now tid u)
                (conj Hu2 (conj Hn2 Hn))) as (Hr & Hus & _ & _).
    rewrite Eu in Hr, Hus.
    destruct (with_conn fault (update_task_db uid now tid u) d2) as [r2 d2'].
    simpl in *. auto.
Qed.

End Ownership.

(** The first account ticks the second account's task: no task row moves. *)
Lemma foreign_task_untouched_witness :
  tasks (st_db (snd (update_task (rt := Sample.runtime) (Some 1) Sample.may1 None "t-report"
                                 Sample.tick Sample.store0)))
  = tasks (st_db Sample.store0).
Proof.
  refine (proj1 (proj2 (foreign_task_untouched (rt := Sample.runtime) 1 Sample.may1 None
                          "t-report" Sample.tick Sample.store0 _))).
  vm_compute. discriminate.
Defined.

(** C2, on the code.  The claim says that an update on a task id that
    does not exist or belongs to another user changes nothing, the
    caller's points, streak and last completion date included.  The first
    account ticks the second account's task, and a task id that does not
    exist: in both cases no row matches the UPDATE, yet the completion
    branch runs for the caller, who gets 10 points plus the default Medium
    bonus, a streak and a last completion date. *)
Theorem foreign_task_awards_points :
  let score s :=
    (fun r => (u_points r, u_streak r, u_last_complete_date r)) <$> (users (st_db s) !! 1) in
  let upd tid :=
    snd (update_task (rt := Sample.runtime) (Some 1) Sample.may1 None tid Sample.tick
                     Sample.store0) in
  not_own (st_db Sample.store0) 1 "t-report"
  /\ not_own (st_db Sample.store0) 1 "no-such-task"
  /\ score Sample.store0 = Some (Some 0, Some 0, None)
  /\ score (upd "t-report") = Some (Some 12, Some 1, Some "2024-05-01")
  /\ score (upd "no-such-task") = Some (Some 12, Some 1, Some "2024-05-01").
Proof.
  split; [vm_compute; discriminate|].
  split; [vm_compute; exact I|].
  vm_compute. repeat split; reflexivity.
Qed.

(** ** The completion timestamp *)

Section Stamps.
Context {rt : Runtime}.

Lemma stmt_update_task_stamped tid uid u now :
  stmt_keeps stamped
    (stmt_update_task tid uid u
       (if sets_done u then Some (datetime_isoformat_seconds now) else None)).
Proof.
  intros d Hd. unfold stmt_update_task.
  destruct (patch_is_empty u); [exact I|].
  destruct (tasks d !! tid) as [r|] eqn:Hr; [|exact Hd].
  destruct (t_user_id r =? uid); [|exact Hd].
  unfold set_task_fields.
  destruct (p_title u) as [[t|]|]; try exact I;
    (intros tid' r' Hl; simpl in Hl;
     destruct (decide (tid = tid')) as [<-|Hne];
     [ rewrite lookup_insert_eq in Hl; injection Hl as <-; simpl;
       unfold sets_done; destruct (p_done u) as [[|]|]; simpl;
       [ discriminate | discriminate | exact (Hd tid r Hr) ]
     | rewrite lookup_insert_ne in Hl by exact Hne; exact (Hd tid' r' Hl) ]).
Qed.

(** A statement that leaves [tasks] alone keeps the invariant. *)
Lemma stmt_keeps_same_tasks {A} (P : db -> Prop) (stmt : db -> outcome (A * db)) :
  (forall d d', tasks d' = tasks d -> P d -> P d') ->
  (forall d, match stmt d with Returned (_, d') => tasks d' = tasks d | Raised _ => True end) ->
  stmt_keeps P stmt.
Proof.
  intros Hext Hs d Hd. specialize (Hs d).
  destruct (stmt d) as [[a d']|e]; [|exact I]. exact (Hext d d' Hs Hd).
Qed.

Lemma stmt_update_user_tasks uid points streak last d :
  match stmt_update_user uid points streak last d with
  | Returned (_, d') => tasks d' = tasks d
  | Raised _ => True
  end.
Proof. unfold stmt_update_user. destruct (users d !! uid); reflexivity. Qed.

(** The completion branch never writes to [tasks]. *)
Lemma gamify_keeps (P : db -> Prop) uid today tid :
  (forall d d', tasks d' = tasks d -> P d -> P d') ->
  keeps P (gamify uid today tid).
Proof.
  intros Hext. unfold gamify. keeps_steps.
  - apply stmt_keeps_same_tasks; [exact Hext | reflexivity].
  - apply stmt_keeps_same_tasks; [exact Hext | reflexivity].
  - match goal with |- keeps _ (match ?x with _ => _ end) => destruct x end; keeps_steps.
    match goal with |- keeps _ (if ?c then _ else _) => destruct c end; keeps_steps.
    apply stmt_keeps_same_tasks; [exact Hext | apply stmt_update_user_tasks].
Qed.

Lemma stamped_ext d d' : tasks d' = tasks d -> stamped d -> stamped d'.
Proof. unfold stamped. intros ->. auto. Qed.

Lemma update_task_db_stamped uid now tid u :
  keeps stamped (update_task_db uid now tid u).
Proof.
  unfold update_task_db. keeps_steps.
  - apply stmt_update_task_stamped.
  - destruct (sets_done u); [apply gamify_keeps, stamped_ext | apply keeps_ret].
Qed.

Lemma delete_task_stamped uid tid :
  keeps stamped (sql_bind (execute (stmt_delete_task tid uid)) (fun _ => commit)).
Proof.
  keeps_steps. intros d Hd. unfold stmt_delete_task.
  destruct (tasks d !! tid) as [r|]; [|exact Hd].
  destruct (t_user_id r =? uid); [|exact Hd].
  intros tid' r' Hl. simpl in Hl. apply lookup_delete_Some in Hl as [_ Hl].
  exact (Hd tid' r' Hl).
Qed.

Lemma insert_task_stamped tid r :
  t_done r = false ->
  keeps stamped (sql_bind (execute (stmt_insert_task tid r)) (fun _ => commit)).
Proof.
  intros Hr. keeps_steps. intros d Hd. unfold stmt_insert_task.
  destruct (tasks d !! tid); [exact I|].
  intros tid' r' Hl. simpl in Hl. apply lookup_insert_Some in Hl as [[_ <-]|[_ Hl]].
  - rewrite Hr. discriminate.
  - exact (Hd tid' r' Hl).
Qed.

Lemma update_json_task_stamped now tid u t :
  (j_done t = true -> j_completed_at t <> None) ->
  j_done (update_json_task now tid u t) = true ->
  j_completed_at (update_json_task now tid u t) <> None.
Proof.
  unfold update_json_task, sets_done. intros Ht.
  destruct (String.eqb (j_id t) tid); [|exact Ht]. simpl.
  destruct (p_done u) as [[|]|]; simpl.
  - intros _. destruct (j_done t); simpl; [apply Ht; reflexivity | discriminate].
  - discriminate.
  - exact Ht.
Qed.

(** One call keeps the invariant, whoever makes it and whatever fails. *)
Lemma step_done_has_stamp c s : done_has_stamp s -> done_has_stamp (step c s).
Proof.
  intros [Hd Hj]. destruct c as [user now fault o]. destruct s as [d js].
  unfold step; simpl in *. destruct o as [tid title desc due prio cat | tid u | tid]; simpl.
  - unfold add_task. cbn [st_db st_json].
    destruct (match prio with
              | Some p => if String.eqb p "Auto" then _ else _
              | None => _ end) as [chosen|e]; [|split; assumption].
    destruct user as [uid|].
    + match goal with
      | |- context [stmt_insert_task ?t ?r] =>
          pose proof (keeps_with_conn _ fault d (insert_task_stamped t r eq_refl) Hd) as K
      end.
      destruct (with_conn fault _ d) as [r d'].
      split; [exact K | exact Hj].
    + split; [exact Hd|]. simpl. intros t Hin. apply in_app_or in Hin as [Hin|[<-|[]]].
      * apply Hj, Hin.
      * discriminate.
  - unfold update_task. cbn [st_db st_json]. destruct user as [uid|].
    + pose proof (keeps_with_conn _ fault d (update_task_db_stamped uid now tid u) Hd) as K.
      destruct (with_conn fault (update_task_db uid now tid u) d) as [r d'].
      split; [exact K | exact Hj].
    + split; [exact Hd|]. simpl. intros t Hin. apply in_map_iff in Hin as (t0 & <- & Hin).
      apply update_json_task_stamped, Hj, Hin.
  - unfold delete_task. cbn [st_db st_json]. destruct user as [uid|].
    + pose proof (keeps_with_conn _ fault d (delete_task_stamped uid tid) Hd) as K.
      destruct (with_conn fault _ d) as [r d'].
      split; [exact K | exact Hj].
    + split; [exact Hd|]. simpl. intros t Hin. apply filter_In in Hin as [Hin _].
      apply Hj, Hin.
Qed.

Lemma run_done_has_stamp cs s : done_has_stamp s -> done_has_stamp (run cs s).
Proof.
  revert s. induction cs as [|c cs IH]; intros s Hs; [exact Hs|].
  simpl. apply IH, step_done_has_stamp, Hs.
Qed.

(** Updates that do not set [done] to true never write a timestamp. *)
Lemma update_task_db_keeps_stamps d0 uid now tid u :
  sets_done u = false ->
  keeps (fun d => forall t, t_completed_at <$> (tasks d !! t) = t_completed_at <$> (tasks d0 !! t))
        (update_task_db uid now tid u).
Proof.
  intros Hd. unfold update_task_db. rewrite Hd. keeps_steps.
  intros d Hs. unfold stmt_update_task.
  destruct (patch_is_empty u); [exact I|].
  destruct (tasks d !! tid) as [r|] eqn:Hr; [|exact Hs].
  destruct (t_user_id r =? uid); [|exact Hs].
  unfold set_task_fields.
  destruct (p_title u) as [[t|]|]; try exact I;
    (intros t'; simpl; destruct (decide (tid = t')) as [<-|Hne];
     [ rewrite lookup_insert_eq, <- Hs, Hr; reflexivity
     | rewrite lookup_insert_ne by exact Hne; apply Hs ]).
Qed.

(** Updates without the [done] keyword leave flag and timestamp alone. *)
Lemma update_task_db_keeps_flags d0 uid now tid u :
  p_done u = None ->
  keeps (fun d => forall t, (fun r => (t_done r, t_completed_at r)) <$> (tasks d !! t)
                            = (fun r => (t_done r, t_completed_at r)) <$> (tasks d0 !! t))
        (update_task_db uid now tid u).
Proof.
  intros Hd. unfold update_task_db, sets_done. rewrite Hd. keeps_steps.
  intros d Hs. unfold stmt_update_task.
  destruct (patch_is_empty u); [exact I|].
  destruct (tasks d !! tid) as [r|] eqn:Hr; [|exact Hs].
  destruct (t_user_id r =? uid); [|exact Hs].
  unfold set_task_fields. rewrite Hd.
  destruct (p_title u) as [[t|]|]; try exact I;
    (intros t'; simpl; destruct (decide (tid = t')) as [<-|Hne];
     [ rewrite lookup_insert_eq, <- Hs, Hr; reflexivity
     | rewrite lookup_insert_ne by exact Hne; apply Hs ]).
Qed.

Lemma update_task_stamps user now fault tid u s t :
  sets_done u = false ->
  t_completed_at <$> (tasks (st_db (snd (update_task user now fault tid u s))) !! t)
  = t_completed_at <$> (tasks (st_db s) !! t).
Proof.
  intros Hd. unfold update_task. destruct user as [uid|]; [|reflexivity].
  pose proof (keeps_with_conn _ fault (st_db s)
                (update_task_db_keeps_stamps (st_db s) uid now tid u Hd)
                (fun _ => eq_refl)) as K.
  destruct (with_conn fault (update_task_db uid now tid u) (st_db s)) as [r d'].
  apply K.
Qed.

Lemma update_task_json_stamps user now fault tid u s :
  sets_done u = false ->
  List.map j_completed_at (st_json (snd (update_task user now fault tid u s)))
  = List.map j_completed_at (st_json s).
Proof.
  intros Hd. unfold update_task. destruct user as [uid|].
  - destruct (with_conn fault (update_task_db uid now tid u) (st_db s)). reflexivity.
  - simpl. rewrite List.map_map. apply List.map_ext. intros t.
    unfold update_json_task. rewrite Hd. destruct (String.eqb (j_id t) tid); reflexivity.
Qed.

(** C3, as the code has it.  A new store satisfies, and every sequence
    of add, update and delete calls keeps, that a task flagged done has a
    completion timestamp.  An update that does not carry [done] leaves
    the flag and the timestamp of every task as they were, and an update
    that sets [done] to false leaves every timestamp as it was: the
    timestamp is not cleared when a task is reopened. *)
Theorem completion_stamp_invariant :
  done_has_stamp empty_store
  /\ (forall cs s, done_has_stamp s -> done_has_stamp (run cs s))
  /\ (forall user now fault tid u s,
        p_done u = None ->
        forall t,
          (fun r => (t_done r, t_completed_at r))
            <$> (tasks (st_db (snd (update_task user now fault tid u s))) !! t)
          = (fun r => (t_done r, t_completed_at r)) <$> (tasks (st_db s) !! t))
  /\ (forall user now fault tid u s,
        p_done u = None ->
        List.map (fun t => (j_done t, j_completed_at t))
                 (st_json (snd (update_task user now fault tid u s)))
        = List.map (fun t => (j_done t, j_completed_at t)) (st_json s))
  /\ (forall user now fault tid u s,
        p_done u = Some false ->
        (forall t,
           t_completed_at <$> (tasks (st_db (snd (update_task user now fault tid u s))) !! t)
           = t_completed_at <$> (tasks (st_db s) !! t))
        /\ List.map j_completed_at (st_json (snd (update_task user now fault tid u s)))
           = List.map j_completed_at (st_json s)).
Proof.
  split.
  { split; [intros tid r Hl; simpl in Hl; rewrite lookup_empty in Hl; discriminate
           | intros t []]. }
  split; [exact run_done_has_stamp|].
  split.
  { intros user now fault tid u s Hd t. unfold update_task.
    destruct user as [uid|].
    - pose proof (keeps_with_conn _ fault (st_db s)
                    (update_task_db_keeps_flags (st_db s) uid now tid u Hd)
                    (fun _ => eq_refl)) as K.
      destruct (with_conn fault (update_task_db uid now tid u) (st_db s)) as [r d'].
      apply K.
    - reflexivity. }
  split.
  { intros user now fault tid u s Hd. unfold update_task. destruct user as [uid|].
    - destruct (with_conn fault (update_task_db uid now tid u) (st_db s)). reflexivity.
    - simpl. rewrite List.map_map. apply List.map_ext. intros t.
      unfold update_json_task, sets_done. rewrite Hd.
      destruct (String.eqb (j_id t) tid); reflexivity. }
  intros user now fault tid u s Hd.
  assert (Hs : sets_done u = false) by (unfold sets_done; rewrite Hd; reflexivity).
  split; [intros t; apply update_task_stamps, Hs | apply update_task_json_stamps, Hs].
Qed.

End Stamps.

(** In the sample database the first account adds a task at 09:00 and
    ticks it at 09:30: the task is done and has its timestamp.  An edit of
    the priority the next day leaves flag and timestamp as they are, and
    unticking it leaves the timestamp. *)
Lemma completion_stamp_invariant_witness :
  let done_task :=
    run (rt := Sample.runtime)
        [ mk_call (Some 1) Sample.may1 None
                  (OpAdd "t-new" "Buy milk" "" PyNone None (Some "Shopping"));
          mk_call (Some 1) Sample.may1_later None (OpUpdate "t-new" Sample.tick) ]
        Sample.store_new in
  let edited :=
    snd (update_task (rt := Sample.runtime) (Some 1) Sample.may2 None "t-new"
                     (mk_patch None None None (Some (Some "High")) None None) done_task) in
  let reopened :=
    snd (update_task (rt := Sample.runtime) (Some 1) Sample.may2 None "t-new" Sample.untick
                     done_task) in
  let flag s := (fun r => (t_done r, t_completed_at r)) <$> (tasks (st_db s) !! "t-new") in
  done_has_stamp Sample.store_new
  /\ done_has_stamp done_task
  /\ flag done_task = Some (true, Some "2024-05-01T09:30:00")
  /\ flag edited = flag done_task
  /\ t_priority <$> (tasks (st_db edited) !! "t-new") = Some (Some "High")
  /\ t_completed_at <$> (tasks (st_db reopened) !! "t-new")
     = t_completed_at <$> (tasks (st_db done_task) !! "t-new")
  /\ t_done <$> (tasks (st_db reopened) !! "t-new") = Some false.
Proof.
  intros done_task edited reopened flag.
  destruct (completion_stamp_invariant (rt := Sample.runtime))
    as (_ & Hrun & Hedit & _ & Huntick).
  assert (H0 : done_has_stamp Sample.store_new).
  { split.
    - intros tid r Hl. vm_compute in Hl. discriminate Hl.
    - intros t Hin. vm_compute in Hin. contradiction. }
  split; [exact H0|].
  split; [exact (Hrun _ Sample.store_new H0)|].
  split; [vm_compute; reflexivity|].
  split; [exact (Hedit (Some 1) Sample.may2 None "t-new"
                       (mk_patch None None None (Some (Some "High")) None None)
                       done_task eq_refl "t-new")|].
  split; [vm_compute; reflexivity|].
  split; [exact (proj1 (Huntick (Some 1) Sample.may2 None "t-new" Sample.untick done_task
                          eq_refl) "t-new")|].
  vm_compute. reflexivity.
Defined.

(** C3 as stated fails: after the first account ticks its task at 09:00
    and unticks it at 09:30, the task is not done and still carries the
    09:00 completion timestamp. *)
Lemma untick_keeps_stamp :
  let s2 :=
    run (rt := Sample.runtime)
        [ mk_call (Some 1) Sample.may1 None (OpUpdate "t-rent" Sample.tick);
          mk_call (Some 1) Sample.may1_later None (OpUpdate "t-rent" Sample.untick) ]
        Sample.store0 in
  (fun r => (t_done r, t_completed_at r)) <$> (tasks (st_db Sample.store0) !! "t-rent")
  = Some (false, None)
  /\ (fun r => (t_done r, t_completed_at r)) <$> (tasks (st_db s2) !! "t-rent")
     = Some (false, Some "2024-05-01T09:00:00").
Proof. vm_compute. split; reflexivity. Qed.

(** ** The two commits of a completion *)

Section Commits.
Context {rt : Runtime}.

Local Ltac look := first [reflexivity | apply lookup_insert_eq].

(** C6, as the code has it.  A completing update of a task of the
    session's user commits twice: first the task row with its completion
    timestamp, then the user's points, streak and last completion date.
    Whatever storage failure occurs, the persisted task table is the old
    one or the old one with the completed row; the user's row has changed
    only if the completed row is persisted; and when the call returns
    normally the completed row is persisted and an existing user row has
    its points and last completion date written. *)
Theorem completion_commits (uid : Z) (now : datetime) (fault : option nat)
    (tid : string) (u : patch) (s : store) (tr : task_row) :
  tasks (st_db s) !! tid = Some tr ->
  t_user_id tr = uid ->
  sets_done u = true ->
  let r := fst (update_task (Some uid) now fault tid u s) in
  let s' := snd (update_task (Some uid) now fault tid u s) in
  let tr' := completed_task u (datetime_isoformat_seconds now) tr in
  (tasks (st_db s') = tasks (st_db s) \/ tasks (st_db s') = <[tid := tr']> (tasks (st_db s)))
  /\ (users (st_db s') <> users (st_db s) -> tasks (st_db s') !! tid = Some tr')
  /\ (r = Returned tt ->
        tasks (st_db s') !! tid = Some tr'
        /\ forall ur, users (st_db s) !! uid = Some ur ->
             exists p ur',
               u_points ur = Some p
               /\ users (st_db s') !! uid = Some ur'
               /\ u_points ur' = Some (p + (10 + priority_bonus (t_priority tr')))
               /\ u_last_complete_date ur' = Some (date_isoformat (dt_date now))).
Proof.
  intros Ht Ho Hd r s' tr'. subst r s'. unfold update_task.
  destruct (decide (p_title u = Some None)) as [Hn|Hn].
  { destruct (completion_null_title uid now fault tid u (st_db s) tr Ht Ho Hd Hn) as [e ->].
    cbn [fst snd st_db].
    split; [left; reflexivity|]. split; [intros N; contradiction|]. discriminate. }
  rewrite (completion_run_any uid now fault tid u (st_db s) tr Ht Ho Hd Hn). cbv zeta.
  fold tr'.
  destruct (users (st_db s) !! uid) as [ur|] eqn:Hu;
    [destruct (u_points ur) as [p|] eqn:Hp|];
    try match goal with
        | |- context [if ?c then _ else _] => destruct c
        end;
    destruct fault as [[|[|[|[|[|[|n]]]]]]|];
    cbn [fst snd st_db tasks users];
    (split; [first [left; reflexivity | right; reflexivity]|]);
    (split; [first [intros N; contradiction | intros _; look]|]);
    first
      [ discriminate
      | intros _; split; [look|]; intros ur0 E;
        first
          [ discriminate
          | injection E as <-; exists p; eexists; split; [exact Hp|];
            split; [look|]; split; reflexivity ] ].
Qed.

End Commits.

(** The store fails right after the first commit of a completion: the
    persisted task table is the old one with the completed row. *)
Lemma completion_commits_witness :
  tasks (st_db (snd (update_task (rt := Sample.runtime) (Some 1) Sample.may1 (Some 2%nat)
                                 "t-rent" Sample.tick Sample.store0)))
  = <[ "t-rent" := completed_task Sample.tick "2024-05-01T09:00:00" Sample.rent ]>
      (tasks (st_db Sample.store0)).
Proof.
  destruct (completion_commits (rt := Sample.runtime) 1 Sample.may1 (Some 2%nat) "t-rent"
              Sample.tick Sample.store0 Sample.rent eq_refl eq_refl eq_refl)
    as [[Hold|Hnew] _].
  - exfalso.
    apply (f_equal (fun m => t_done <$> (m !! "t-rent"))) in Hold.
    vm_compute in Hold. discriminate.
  - exact Hnew.
Defined.

(** C6 as stated fails, in both directions.  When the store fails after
    the first commit, the call raises, the task stays completed with its
    timestamp, and the user has no points, streak or date for it.  And a
    completing update of a task id that does not exist persists points, a
    streak and a date although no completion is persisted. *)
Lemma completion_not_atomic :
  let flag s tid := (fun r => (t_done r, t_completed_at r)) <$> (tasks (st_db s) !! tid) in
  let score s :=
    (fun r => (u_points r, u_streak r, u_last_complete_date r)) <$> (users (st_db s) !! 1) in
  let broken :=
    update_task (rt := Sample.runtime) (Some 1) Sample.may1 (Some 2%nat) "t-rent" Sample.tick
                Sample.store0 in
  let stray :=
    update_task (rt := Sample.runtime) (Some 1) Sample.may1 None "no-such-task" Sample.tick
                Sample.store0 in
  fst broken = Raised OperationalError
  /\ flag (snd broken) "t-rent" = Some (true, Some "2024-05-01T09:00:00")
  /\ score (snd broken) = Some (Some 0, Some 0, None)
  /\ fst stray = Returned tt
  /\ tasks (st_db (snd stray)) = tasks (st_db Sample.store0)
  /\ score (snd stray) = Some (Some 12, Some 1, Some "2024-05-01").
Proof. vm_compute. repeat split; reflexivity. Qed.

(** ** The category histogram *)

Section Histogram.
Context {pd : Pandas}.

Lemma entry_default n : default O (entry n) = n.
Proof. destruct n; reflexivity. Qed.

Lemma value_counts_lookup (cells : list pyval) (v : pyval) :
  value_counts cells !! py_key v
  = entry (length (List.filter (fun x => bool_decide (py_key x = py_key v)) cells)).
Proof.
  induction cells as [|x rest IH]; simpl.
  - apply lookup_empty.
  - destruct (decide (py_key x = py_key v)) as [E|Hne].
    + rewrite E, lookup_insert_eq, bool_decide_eq_true_2 by reflexivity.
      rewrite IH, entry_default. reflexivity.
    + rewrite lookup_insert_ne by exact Hne.
      rewrite bool_decide_eq_false_2 by exact Hne. exact IH.
Qed.

Lemma count_category_cells c tasks :
  count_category c tasks
  = length (List.filter (fun x => bool_decide (py_key x = py_key c))
                        (List.map category_cell tasks)).
Proof.
  unfold count_category. induction tasks as [|t rest IH]; [reflexivity|]. simpl.
  destruct (bool_decide (py_key (category_cell t) = py_key c)); simpl; rewrite IH; reflexivity.
Qed.

(** As soon as one record has the key, every record is counted. *)
Lemma histogram_counts tasks c :
  (tasks <> [] -> has_column "category" tasks = true) ->
  compute_analytics_categories tasks !! py_key c = entry (count_category c tasks).
Proof.
  intros Hcol. destruct tasks as [|t rest]; [apply lookup_empty|].
  unfold compute_analytics_categories. rewrite Hcol by discriminate.
  rewrite value_counts_lookup, count_category_cells. reflexivity.
Qed.

Lemma category_cell_of_row tid r :
  category_cell (dict_of_task tid r) = VStr (default "Other" (t_category r)).
Proof.
  unfold category_cell.
  change (dict_of_task tid r !! "category") with (Some (opt_str (t_category r))).
  destruct (t_category r); reflexivity.
Qed.

Lemma filter_length_perm {A} (f : A -> bool) (l l' : list A) :
  Permutation l l' -> length (List.filter f l) = length (List.filter f l').
Proof.
  induction 1 as [|x l l' _ IH|x y l|l l' l'' _ IH1 _ IH2]; simpl.
  - reflexivity.
  - destruct (f x); simpl; rewrite IH; reflexivity.
  - destruct (f x), (f y); reflexivity.
  - rewrite IH1. exact IH2.
Qed.

Lemma count_category_rows c (rows : list (string * task_row)) :
  count_category (VStr c) (List.map (fun ir => dict_of_task (fst ir) (snd ir)) rows)
  = length (List.filter
              (fun ir => bool_decide (default "Other" (t_category (snd ir)) = c)) rows).
Proof.
  unfold count_category. induction rows as [|[tid r] rest IH]; [reflexivity|].
  cbn [List.map List.filter fst snd]. rewrite category_cell_of_row. cbn [py_key] in IH |- *.
  destruct (decide (default "Other" (t_category r) = c)) as [E|E].
  - rewrite !bool_decide_eq_true_2 by congruence. simpl. rewrite IH. reflexivity.
  - rewrite !bool_decide_eq_false_2 by congruence. exact IH.
Qed.

Lemma load_tasks_has_category uid d :
  load_tasks uid d <> [] -> has_column "category" (load_tasks uid d) = true.
Proof.
  unfold load_tasks. destruct (merge_sort created_before (rows_of uid d)) as [|[tid r] rest].
  - intros N. contradiction.
  - intros _. reflexivity.
Qed.

Lemma load_tasks_has_created_at uid d :
  load_tasks uid d <> [] -> has_column "created_at" (load_tasks uid d) = true.
Proof.
  unfold load_tasks. destruct (merge_sort created_before (rows_of uid d)) as [|[tid r] rest].
  - intros N. contradiction.
  - intros _. reflexivity.
Qed.

(** Whenever [compute_analytics] returns, its ["categories"] entry is the
    value of line 369. *)
Lemma compute_analytics_categories_entry tasks r :
  compute_analytics tasks = Returned r ->
  a_categories r = compute_analytics_categories tasks.
Proof.
  unfold compute_analytics. destruct tasks as [|t rest]; [intros [= <-]; reflexivity|].
  destruct (converted "completed_at" (t :: rest)) as [completed|e]; [|discriminate].
  destruct (converted "created_at" (t :: rest)) as [created|e]; [|discriminate].
  cbn [and_then].
  destruct (match completed_rows _ _ with [] => _ | _ :: _ => _ end) as [weekly|e];
    [|discriminate].
  cbn [and_then].
  destruct (match completed_rows _ _ with [] => _ | _ :: _ => _ end) as [avg|e];
    [|discriminate].
  intros [= <-]. reflexivity.
Qed.

(** A frame without timestamp columns has no completed rows. *)
Lemma compute_analytics_no_timestamps tasks :
  has_column "completed_at" tasks = false ->
  has_column "created_at" tasks = false ->
  compute_analytics tasks = Returned (mk_analytics ∅ (compute_analytics_categories tasks) None).
Proof.
  intros Hc Hr. unfold compute_analytics, converted. rewrite Hc, Hr.
  destruct tasks; reflexivity.
Qed.

Lemma completed_rows_nonempty ts completed created :
  In (Some ts) completed -> completed_rows completed created <> [].
Proof.
  revert created. induction completed as [|c cs IH]; intros created; [intros []|].
  intros [->|Hin]; cbn [completed_rows]; [discriminate|].
  destruct c; [discriminate|]. apply IH, Hin.
Qed.

(** A completed row in a frame without a [created_at] column: the run
    does not get past line 372. *)
Lemma compute_analytics_key_error tasks cell t v :
  has_column "created_at" tasks = false ->
  to_datetime (column "completed_at" tasks) = Returned cell ->
  In t tasks -> t !! "completed_at" = Some v -> is_Some (cell v) ->
  exists e, compute_analytics tasks = Raised e.
Proof.
  intros Hr Hc Hin Hv [ts Hts].
  assert (Hcol : has_column "completed_at" tasks = true).
  { unfold has_column. apply existsb_exists. exists t. split; [exact Hin|].
    apply bool_decide_eq_true_2. rewrite Hv. eexists. reflexivity. }
  assert (Hrows : forall created,
            completed_rows (List.map cell (column "completed_at" tasks)) created <> []).
  { intros created. apply (completed_rows_nonempty ts).
    apply in_map_iff. exists v. split; [exact Hts|].
    unfold column. apply in_map_iff. exists t. rewrite Hv. split; [reflexivity | exact Hin]. }
  unfold compute_analytics, converted. rewrite Hcol, Hr, Hc.
  destruct tasks as [|t0 rest]; [destruct Hin|].
  cbn [and_then default].
  specialize (Hrows []).
  destruct (completed_rows _ _) as [|row rows]; [contradiction|].
  destruct (week_of _) as [weeks|e]; cbn [and_then]; eexists; reflexivity.
Qed.

(** With a [created_at] column the function returns whenever pandas
    does. *)
Lemma compute_analytics_returns tasks :
  pandas_returns ->
  has_column "created_at" tasks = true ->
  exists r, compute_analytics tasks = Returned r.
Proof.
  intros (Hdt & Hweek & Hmean) Hr.
  unfold compute_analytics, converted. rewrite Hr.
  destruct tasks as [|t rest]; [eexists; reflexivity|].
  destruct (Hdt (column "created_at" (t :: rest))) as [cell2 ->].
  destruct (has_column "completed_at" (t :: rest)).
  - destruct (Hdt (column "completed_at" (t :: rest))) as [cell1 ->].
    cbn [and_then default].
    destruct (completed_rows _ _) as [|row rows] eqn:Erows; [eexists; reflexivity|].
    destruct (Hweek (List.map fst (row :: rows))) as [weeks ->].
    destruct (Hmean (row :: rows)) as [h ->].
    eexists. reflexivity.
  - cbn [and_then default completed_rows]. eexists. reflexivity.
Qed.

(** C8.  Whenever the analytics are computed, the category histogram
    counts every record of the input under its category, a missing or
    null category counting as "Other", and has no entry for a category
    without records.  For the tasks of a user, as [load_tasks] reads them,
    the count for a category is the number of the user's rows with that
    category, whatever their [done] flag, and the analytics are computed
    whenever pandas returns.  For the two records with category null and
    "Work" the histogram is Other 1, Work 1, there is no weekly count and
    no average.  The analytics are computed for every frame without
    timestamp columns; a frame with a completed row and no [created_at]
    column makes the function raise. *)
Theorem category_histogram :
  (forall tasks r,
      compute_analytics tasks = Returned r ->
      (forall t, In t tasks -> is_Some (t !! "category")) ->
      forall c, a_categories r !! py_key c = entry (count_category c tasks))
  /\ (forall uid d,
        (forall r, compute_analytics (load_tasks uid d) = Returned r ->
           forall c,
             a_categories r !! VStr c
             = entry (length (List.filter
                                (fun ir => bool_decide
                                             (default "Other" (t_category (snd ir)) = c))
                                (rows_of uid d))))
        /\ (pandas_returns -> exists r, compute_analytics (load_tasks uid d) = Returned r))
  /\ (forall t, category_cell t = VStr "Other"
                <-> t !! "category" = None \/ t !! "category" = Some VNone
                    \/ t !! "category" = Some (VStr "Other"))
  /\ compute_analytics [ {[ "category" := VNone ]}; {[ "category" := VStr "Work" ]} ]
     = Returned (mk_analytics ∅ {[ VStr "Other" := 1%nat; VStr "Work" := 1%nat ]} None)
  /\ (forall tasks,
        has_column "completed_at" tasks = false ->
        has_column "created_at" tasks = false ->
        compute_analytics tasks
        = Returned (mk_analytics ∅ (compute_analytics_categories tasks) None))
  /\ (forall tasks cell t v,
        has_column "created_at" tasks = false ->
        to_datetime (column "completed_at" tasks) = Returned cell ->
        In t tasks -> t !! "completed_at" = Some v -> is_Some (cell v) ->
        exists e, compute_analytics tasks = Raised e).
Proof.
  split; [|split; [|split; [|split; [|split]]]].
  - intros tasks r Hret Hall c.
    rewrite (compute_analytics_categories_entry tasks r Hret).
    apply histogram_counts.
    destruct tasks as [|t rest]; [intros N; contradiction|]. intros _.
    simpl. rewrite bool_decide_eq_true_2 by (apply Hall; left; reflexivity). reflexivity.
  - intros uid d. split.
    + intros r Hret c.
      rewrite (compute_analytics_categories_entry _ r Hret).
      change (VStr c) with (py_key (VStr c)).
      rewrite histogram_counts by apply load_tasks_has_category.
      unfold load_tasks. rewrite count_category_rows. f_equal.
      apply filter_length_perm, merge_sort_Permutation.
    + intros Hpd. destruct (load_tasks uid d) as [|t rest] eqn:El.
      * eexists. reflexivity.
      * rewrite <- El. apply compute_analytics_returns; [exact Hpd|].
        apply load_tasks_has_created_at. rewrite El. discriminate.
  - intros t. unfold category_cell.
    destruct (t !! "category") as [[|b|z|s]|]; split; try (intros [= <-]); auto;
      try (intros [E|[E|E]]; try discriminate; injection E as E; subst; reflexivity).
  - rewrite compute_analytics_no_timestamps by reflexivity. reflexivity.
  - exact compute_analytics_no_timestamps.
  - exact compute_analytics_key_error.
Qed.

End Histogram.

(** The two-record scenario, through the general statement. *)
Lemma category_histogram_witness :
  exists r,
    compute_analytics (pd := Sample.pandas)
      [ {[ "category" := VNone ]}; {[ "category" := VStr "Work" ]} ] = Returned r
    /\ a_categories r !! VStr "Other" = Some 1%nat
    /\ a_categories r !! VStr "Work" = Some 1%nat
    /\ a_categories r !! VStr "Shopping" = None.
Proof.
  destruct (category_histogram (pd := Sample.pandas)) as (Hcount & _ & _ & Hscenario & _).
  eexists. split; [exact Hscenario|].
  assert (Hall : forall t : pydict,
            In t [ {[ "category" := VNone ]}; {[ "category" := VStr "Work" ]} ] ->
            is_Some (t !! "category")).
  { intros t [<-|[<-|[]]]; eexists; reflexivity. }
  split; [exact (Hcount _ _ Hscenario Hall (VStr "Other"))|].
  split; [exact (Hcount _ _ Hscenario Hall (VStr "Work"))|].
  exact (Hcount _ _ Hscenario Hall (VStr "Shopping")).
Defined.

(** The analytics of one completed task of the sample data, as
    [load_tasks] reads it: one completion in week 18 of 2024, one task of
    category Personal, and one hour from creation to completion.  A record
    with a completion time and no creation time makes the function raise
    KeyError. *)
Example compute_analytics_sample :
  let done_rent := completed_task Sample.tick "2024-05-01T09:00:00" Sample.rent in
  compute_analytics (pd := Sample.pandas) [ dict_of_task "t-rent" done_rent ]
  = Returned (mk_analytics (pd := Sample.pandas)
                           {[ "2024-W18" := 1%nat ]} {[ VStr "Personal" := 1%nat ]}
                           (Some ((3600, 3600) : Z * Z)))
  /\ compute_analytics (pd := Sample.pandas)
       [ {[ "category" := VStr "Work"; "completed_at" := VStr "2024-05-01T09:00:00" ]} ]
     = Raised KeyError.
Proof. split; reflexivity. Qed.

(** ** The priority hint of the voice parser *)

Section VoiceHint.
Import Voice.

Lemma prefix_app_l (a b s : string) :
  String.prefix (a ++ b) s = true -> String.prefix a s = true.
Proof.
  revert s. induction a as [|c a IH]; intros s; [destruct s; reflexivity|].
  destruct s as [|c' s]; simpl; [discriminate|].
  destruct (Ascii.ascii_dec c c'); [apply IH | discriminate].
Qed.

Lemma contains_app_l (a b s : string) :
  PyStr.contains (a ++ b) s = true -> PyStr.contains a s = true.
Proof.
  induction s as [|c s IH]; cbn [PyStr.contains]; rewrite !orb_true_iff.
  - intros [E|E]; [|discriminate]. left. apply (prefix_app_l a b), E.
  - intros [E|E]; [left; apply (prefix_app_l a b), E | right; apply IH, E].
Qed.

Lemma contains_low_priority s :
  PyStr.contains "low priority" s = true -> PyStr.contains "low" s = true.
Proof. apply (contains_app_l "low" " priority"). Qed.

(** Every return of the parser carries the hint computed at its start. *)
Lemma parse_voice_priority today text title due p :
  parse_voice_text_for_task today text = Returned (title, due, p) ->
  let low := PyStr.lower (PyStr.strip text) in
  p = if (PyStr.contains "high priority" low || PyStr.contains "urgent" low)%bool
      then Some "High"
      else if (PyStr.contains "low priority" low || PyStr.contains "low" low)%bool
           then Some "Low"
           else None.
Proof.
  intros E low. revert E. unfold parse_voice_text_for_task. fold low.
  destruct (PyStr.contains "tomorrow" low).
  - destruct (add_days today 1); [|discriminate]. intros [= _ _ <-]. reflexivity.
  - destruct (search_in_days low).
    + destruct (int_of_text _); [|discriminate].
      destruct (add_days today _); [|discriminate]. intros [= _ _ <-]. reflexivity.
    + intros [= _ _ <-]. reflexivity.
Qed.

(** The parser returns unless the due date it derives is out of range. *)
Lemma parse_voice_returns today text :
  today < max_ordinal ->
  let low := PyStr.lower (PyStr.strip text) in
  PyStr.contains "tomorrow" low = true \/ search_in_days low = None ->
  exists title due p, parse_voice_text_for_task today text = Returned (title, due, p).
Proof.
  intros Ht low Hc. unfold parse_voice_text_for_task. fold low.
  destruct (PyStr.contains "tomorrow" low) eqn:Etom.
  - unfold add_days. destruct (Z.leb_spec (today + 1) max_ordinal); [|lia].
    eexists _, _, _. reflexivity.
  - destruct Hc as [Hc|Hc]; [discriminate|]. rewrite Hc.
    eexists _, _, _. reflexivity.
Qed.

(** C9, as the code has it.  For every text on which the parser returns,
    with [low] the stripped and lower-cased text: the hint is High
    exactly when [low] contains "urgent" or "high priority"; it is Low
    exactly when it contains neither and contains "low" anywhere, inside
    a longer word included; and it is unset exactly when it contains none
    of them.  The parser returns whenever the due date it derives is in
    range. *)
Theorem voice_priority_hint (today : date) (text : string) :
  let low := PyStr.lower (PyStr.strip text) in
  (forall title due p,
      parse_voice_text_for_task today text = Returned (title, due, p) ->
      (p = Some "High"
         <-> PyStr.contains "urgent" low = true \/ PyStr.contains "high priority" low = true)
      /\ (p = Some "Low"
         <-> (PyStr.contains "urgent" low = false
              /\ PyStr.contains "high priority" low = false)
             /\ PyStr.contains "low" low = true)
      /\ (p = None
         <-> PyStr.contains "urgent" low = false
             /\ PyStr.contains "high priority" low = false
             /\ PyStr.contains "low" low = false))
  /\ (today < max_ordinal ->
      PyStr.contains "tomorrow" low = true \/ search_in_days low = None ->
      exists title due p, parse_voice_text_for_task today text = Returned (title, due, p)).
Proof.
  intros low. split; [|apply parse_voice_returns].
  intros title due p E. apply parse_voice_priority in E. fold low in E.
  pose proof (contains_low_priority low) as Hlp.
  destruct (PyStr.contains "high priority" low), (PyStr.contains "urgent" low),
    (PyStr.contains "low" low), (PyStr.contains "low priority" low);
    simpl in E; subst p;
    try (specialize (Hlp eq_refl); discriminate);
    (split; [|split]); split; intros; try discriminate; try tauto;
    try (repeat match goal with H : _ /\ _ |- _ => destruct H end; discriminate);
    try (repeat match goal with H : _ \/ _ |- _ => destruct H end; discriminate).
Qed.

End VoiceHint.

(** "pay the urgent bill tomorrow" is High, with a due date the next day. *)
Lemma voice_priority_hint_witness :
  Voice.parse_voice_text_for_task 739008 " Pay the URGENT bill tomorrow "
  = Returned ("Pay the URGENT bill", Some 739009, Some "High")
  /\ PyStr.contains "urgent" (PyStr.lower (PyStr.strip " Pay the URGENT bill tomorrow ")) = true.
Proof.
  assert (E : Voice.parse_voice_text_for_task 739008 " Pay the URGENT bill tomorrow "
              = Returned ("Pay the URGENT bill", Some 739009, Some "High"))
    by (vm_compute; reflexivity).
  split; [exact E|].
  destruct (proj1 (proj1 (voice_priority_hint 739008 " Pay the URGENT bill tomorrow ")
                     _ _ _ E)) as [Hu _].
  destruct (Hu eq_refl) as [H1|H1]; [exact H1|].
  vm_compute in H1. discriminate.
Defined.

(** C9 as stated fails: "buy yellow paint" has no High keyword, does not
    contain "low priority" and has no word "low", yet its hint is Low,
    because "yellow" contains "low". *)
Lemma voice_low_inside_a_word :
  let text := "buy yellow paint" in
  let low := PyStr.lower (PyStr.strip text) in
  Voice.parse_voice_text_for_task 739008 text = Returned (text, None, Some "Low")
  /\ PyStr.contains "urgent" low = false
  /\ PyStr.contains "high priority" low = false
  /\ PyStr.contains "low priority" low = false
  /\ Voice.has_standalone_word "low" low = false
  /\ Voice.pieces EmptyString low = ["buy"; "yellow"; "paint"].
Proof. vm_compute. repeat split; reflexivity. Qed.

(** * Further properties of the task operations *)

(** ** One statement, one commit *)

Section SingleTransaction.
Context {rt : Runtime}.

(** A connection that runs one statement and commits persists the
    statement's effect or nothing. *)
Lemma with_conn_single {A} (fault : option nat) (stmt : db -> outcome (A * db)) (d : db) :
  with_conn fault (sql_bind (execute stmt) (fun _ => commit)) d
  = match fault with
    | Some O => (Raised OperationalError, d)
    | _ =>
        match stmt d with
        | Raised e => (Raised e, d)
        | Returned (_, d') =>
            match fault with
            | Some (S O) => (Raised OperationalError, d)
            | _ => (Returned tt, d')
            end
        end
    end.
Proof.
  unfold with_conn, sql_bind, execute, commit.
  destruct fault as [[|[|n]]|]; simpl; try reflexivity;
    destruct (stmt d) as [[a d']|e]; reflexivity.
Qed.

Lemma suggest_returns today due :
  exists p, suggest_priority_by_due today due = Returned p.
Proof.
  unfold suggest_priority_by_due.
  destruct (negb (truthy due)); [eexists; reflexivity|].
  destruct due as [|s|dt|d|b]; try (eexists; reflexivity).
  destruct (datetime_fromisoformat s); eexists; reflexivity.
Qed.

(** The priority [add_task] stores: the caller's, or the suggestion when
    the caller gives none or "Auto". *)
Lemma add_task_priority today due (priority : option string) :
  exists prio,
    match priority with
    | None => suggest_priority_by_due today due
    | Some p => if String.eqb p "Auto" then suggest_priority_by_due today due else Returned p
    end = Returned prio
    /\ (priority = None \/ priority = Some "Auto" ->
        suggest_priority_by_due today due = Returned prio)
    /\ (forall p, priority = Some p -> p <> "Auto" -> prio = p).
Proof.
  destruct (suggest_returns today due) as [q Hq].
  destruct priority as [p|].
  - destruct (String.eqb_spec p "Auto") as [->|Hne].
    + exists q. split; [exact Hq|]. split; [intros _; exact Hq|].
      intros p [= <-] N. contradiction.
    + exists p. split; [reflexivity|]. split.
      * intros [E|[= E]]; [discriminate | contradiction].
      * intros p' [= <-] _. reflexivity.
  - exists q. split; [exact Hq|]. split; [intros _; exact Hq|]. intros p E. discriminate.
Qed.

(** X1.  In the database branch [add_task] is all or nothing.  When it
    returns, it returns the new id and the store is the old one with one
    row added under that id: owner the session user, title and description
    stripped, not done, no completion timestamp, and as priority the
    caller's, or the suggestion for the due date when the caller gives
    none or "Auto".  When it raises, the store is unchanged; it raises when
    the id is already in the table, and otherwise only on a storage
    failure. *)
Theorem add_task_all_or_nothing (uid : Z) (now : datetime) (tid : string)
    (fault : option nat) (title desc : string) (due : pyobj)
    (priority category : option string) (s : store) :
  exists prio,
    (priority = None \/ priority = Some "Auto" ->
       suggest_priority_by_due (dt_date now) due = Returned prio)
    /\ (forall p, priority = Some p -> p <> "Auto" -> prio = p)
    /\ (let res := add_task (Some uid) now tid fault title desc due priority category s in
        let row := new_task_row uid (datetime_isoformat_seconds now) title desc
                                (due_text due) prio category in
        (fst res = Returned tid
         /\ tasks (st_db s) !! tid = None
         /\ snd res = mk_store (mk_db (users (st_db s)) (<[tid := row]> (tasks (st_db s))))
                               (st_json s))
        \/ ((exists e, fst res = Raised e) /\ snd res = s))
    /\ (is_Some (tasks (st_db s) !! tid) -> fault <> Some O ->
        fst (add_task (Some uid) now tid fault title desc due priority category s)
        = Raised IntegrityError)
    /\ (tasks (st_db s) !! tid = None -> fault = None ->
        fst (add_task (Some uid) now tid fault title desc due priority category s)
        = Returned tid).
Proof.
  destruct (add_task_priority (dt_date now) due priority) as (prio & Hp & Hauto & Hexp).
  exists prio. split; [exact Hauto|]. split; [exact Hexp|].
  unfold add_task. rewrite Hp. rewrite with_conn_single.
  unfold stmt_insert_task, new_task_row. destruct s as [d js]. cbn [st_db st_json].
  destruct (tasks d !! tid) as [r0|] eqn:Ht.
  - split; [|split].
    + right. destruct fault as [[|[|n]]|]; (split; [eexists; reflexivity | reflexivity]).
    + intros _ Hf. destruct fault as [[|[|n]]|]; try reflexivity. contradiction.
    + intros E. discriminate.
  - split; [|split].
    + destruct fault as [[|[|n]]|];
        first [ left; split; [reflexivity|]; split; reflexivity
              | right; split; [eexists; reflexivity | reflexivity] ].
    + intros [x Hx]. discriminate.
    + intros _ ->. reflexivity.
Qed.

End SingleTransaction.

(** ** Edits and deletions *)

Section EditDelete.
Context {rt : Runtime}.

Lemma with_conn_edit (fault : option nat) (stmt : db -> outcome (unit * db)) (d : db) :
  with_conn fault
    (sql_bind (execute stmt) (fun _ => sql_bind commit (fun _ => sql_ret tt))) d
  = match fault with
    | Some O => (Raised OperationalError, d)
    | _ =>
        match stmt d with
        | Raised e => (Raised e, d)
        | Returned (_, d') =>
            match fault with
            | Some (S O) => (Raised OperationalError, d)
            | _ => (Returned tt, d')
            end
        end
    end.
Proof.
  unfold with_conn, sql_bind, execute, commit, sql_ret.
  destruct fault as [[|[|n]]|]; simpl; try reflexivity;
    destruct (stmt d) as [[a d']|e]; reflexivity.
Qed.

(** What the SET clause does to a row: the supplied columns take the new
    values, every other column keeps its value. *)
Lemma set_task_fields_columns u r r' :
  set_task_fields u None r = Returned r' ->
  t_user_id r' = t_user_id r
  /\ t_created_at r' = t_created_at r
  /\ t_completed_at r' = t_completed_at r
  /\ t_title r' = match p_title u with Some (Some x) => x | _ => t_title r end
  /\ t_desc r' = or_keep (p_desc u) (t_desc r)
  /\ t_due r' = or_keep (p_due u) (t_due r)
  /\ t_priority r' = or_keep (p_priority u) (t_priority r)
  /\ t_category r' = or_keep (p_category u) (t_category r)
  /\ t_done r' = or_keep (p_done u) (t_done r).
Proof.
  unfold set_task_fields.
  destruct (p_title u) as [[x|]|]; intros [= <-]; repeat split; reflexivity.
Qed.

(** An update that does not set [done] to true persists the edit or
    nothing. *)
Lemma edit_persists_or_not (uid : Z) (now : datetime) (fault : option nat)
    (tid : string) (u : patch) (s : store) :
  sets_done u = false ->
  (fst (update_task (Some uid) now fault tid u s) = Returned tt
   /\ snd (update_task (Some uid) now fault tid u s) = edited_store uid tid u s)
  \/ ((exists e, fst (update_task (Some uid) now fault tid u s) = Raised e)
      /\ snd (update_task (Some uid) now fault tid u s) = s).
Proof.
  intros Hd.
  assert (E : update_task (Some uid) now fault tid u s
              = let '(r, d) :=
                  with_conn fault
                    (sql_bind (execute (stmt_update_task tid uid u None))
                              (fun _ => sql_bind commit (fun _ => sql_ret tt))) (st_db s) in
                (r, mk_store d (st_json s))).
  { unfold update_task, update_task_db. rewrite Hd. reflexivity. }
  rewrite E, with_conn_edit. clear E.
  unfold edited_store, stmt_update_task. destruct s as [d js]. cbn [st_db st_json].
  destruct (patch_is_empty u).
  { right. destruct fault as [[|[|n]]|]; (split; [eexists; reflexivity | reflexivity]). }
  destruct (tasks d !! tid) as [r|] eqn:Ht.
  - destruct (t_user_id r =? uid).
    + destruct (set_task_fields u None r) as [r'|e];
        destruct fault as [[|[|n]]|];
        first [ left; split; reflexivity
              | right; split; [eexists; reflexivity | reflexivity] ].
    + destruct fault as [[|[|n]]|];
        first [ left; split; [reflexivity|]; destruct d; reflexivity
              | right; split; [eexists; reflexivity | reflexivity] ].
  - destruct fault as [[|[|n]]|];
      first [ left; split; [reflexivity|]; destruct d; reflexivity
            | right; split; [eexists; reflexivity | reflexivity] ].
Qed.

(** X2.  An update that does not set [done] to true is all or nothing,
    whatever storage failure occurs.  When it returns, the store is the
    old one with the row of the task rewritten if the task exists and
    belongs to the session user (the supplied columns take the new values;
    owner, creation time, completion timestamp and the columns not
    supplied keep theirs), and the old store otherwise.  When it raises,
    the store is unchanged; it raises when no keyword is given, and when
    the title of an own task is set to [None]. *)
Theorem update_task_edit_all_or_nothing (uid : Z) (now : datetime) (fault : option nat)
    (tid : string) (u : patch) (s : store) :
  sets_done u = false ->
  ((fst (update_task (Some uid) now fault tid u s) = Returned tt
    /\ snd (update_task (Some uid) now fault tid u s) = edited_store uid tid u s)
   \/ ((exists e, fst (update_task (Some uid) now fault tid u s) = Raised e)
       /\ snd (update_task (Some uid) now fault tid u s) = s))
  /\ (forall r r', tasks (st_db s) !! tid = Some r -> t_user_id r = uid ->
        tasks (st_db (edited_store uid tid u s)) !! tid = Some r' ->
        p_title u <> Some None ->
        t_user_id r' = t_user_id r
        /\ t_created_at r' = t_created_at r
        /\ t_completed_at r' = t_completed_at r
        /\ t_title r' = match p_title u with Some (Some x) => x | _ => t_title r end
        /\ t_desc r' = or_keep (p_desc u) (t_desc r)
        /\ t_due r' = or_keep (p_due u) (t_due r)
        /\ t_priority r' = or_keep (p_priority u) (t_priority r)
        /\ t_category r' = or_keep (p_category u) (t_category r)
        /\ t_done r' = or_keep (p_done u) (t_done r))
  /\ (patch_is_empty u = true ->
        fst (update_task (Some uid) now fault tid u s) = Raised OperationalError)
  /\ (forall r, tasks (st_db s) !! tid = Some r -> t_user_id r = uid ->
        patch_is_empty u = false -> p_title u = Some None -> fault <> Some O ->
        fst (update_task (Some uid) now fault tid u s) = Raised IntegrityError)
  /\ (fault = None -> patch_is_empty u = false -> p_title u <> Some None ->
        fst (update_task (Some uid) now fault tid u s) = Returned tt).
Proof.
  intros Hd.
  pose proof (edit_persists_or_not uid now fault tid u s Hd) as Haux.
  assert (E : update_task (Some uid) now fault tid u s
              = let '(r, d) :=
                  with_conn fault
                    (sql_bind (execute (stmt_update_task tid uid u None))
                              (fun _ => sql_bind commit (fun _ => sql_ret tt))) (st_db s) in
                (r, mk_store d (st_json s))).
  { unfold update_task, update_task_db. rewrite Hd. reflexivity. }
  split; [exact Haux|]. clear Haux.
  rewrite E, with_conn_edit. clear E.
  unfold edited_store, stmt_update_task. destruct s as [d js]. cbn [st_db st_json].
  split; [|split; [|split]].
  - intros r r' Ht Ho Hl Hn. rewrite Ht, Ho, Z.eqb_refl in Hl.
    destruct (set_task_fields u None r) as [r1|e] eqn:Es.
    + cbn [st_db tasks] in Hl. rewrite lookup_insert_eq in Hl. injection Hl as <-.
      exact (set_task_fields_columns u r r1 Es).
    + exfalso. unfold set_task_fields in Es.
      destruct (p_title u) as [[x|]|]; try discriminate. contradiction.
  - intros ->. destruct fault as [[|[|n]]|]; reflexivity.
  - intros r Ht Ho He Hn Hf. rewrite He, Ht, Ho, Z.eqb_refl.
    unfold set_task_fields. rewrite Hn.
    destruct fault as [[|[|n]]|]; try reflexivity. contradiction.
  - intros -> He Hn. rewrite He.
    destruct (tasks d !! tid) as [r|]; [|reflexivity].
    destruct (t_user_id r =? uid); [|reflexivity].
    unfold set_task_fields. destruct (p_title u) as [[x|]|]; try reflexivity. contradiction.
Qed.

(** X3.  [delete_task] in the database branch is all or nothing, whatever
    storage failure occurs: when it returns, the row of the task is gone if
    it existed and belonged to the session user, and nothing else has
    changed; when it raises, the store is unchanged.  Without a storage
    failure it returns, and deleting the same task again changes nothing
    more. *)
Theorem delete_task_all_or_nothing (uid : Z) (fault : option nat) (tid : string) (s : store) :
  ((fst (delete_task (Some uid) fault tid s) = Returned tt
    /\ snd (delete_task (Some uid) fault tid s) = deleted_store uid tid s)
   \/ ((exists e, fst (delete_task (Some uid) fault tid s) = Raised e)
       /\ snd (delete_task (Some uid) fault tid s) = s))
  /\ (forall r, tasks (st_db s) !! tid = Some r -> t_user_id r = uid ->
        tasks (st_db (deleted_store uid tid s)) !! tid = None
        /\ (forall t, t <> tid ->
              tasks (st_db (deleted_store uid tid s)) !! t = tasks (st_db s) !! t)
        /\ users (st_db (deleted_store uid tid s)) = users (st_db s)
        /\ st_json (deleted_store uid tid s) = st_json s)
  /\ delete_task (Some uid) None tid s = (Returned tt, deleted_store uid tid s)
  /\ deleted_store uid tid (deleted_store uid tid s) = deleted_store uid tid s.
Proof.
  unfold delete_task. rewrite !with_conn_single.
  unfold deleted_store, stmt_delete_task. destruct s as [d js]. cbn [st_db st_json].
  split; [|split; [|split]].
  - destruct (tasks d !! tid) as [r|]; [destruct (t_user_id r =? uid)|];
      destruct fault as [[|[|n]]|];
      first [ left; split; [reflexivity|]; destruct d; reflexivity
            | right; split; [eexists; reflexivity | reflexivity] ].
  - intros r Ht Ho. rewrite Ht, Ho, Z.eqb_refl. cbn [st_db st_json tasks users].
    split; [apply lookup_delete_eq|].
    split; [intros t Hne; apply lookup_delete_ne; congruence|]. split; reflexivity.
  - destruct (tasks d !! tid) as [r|]; [destruct (t_user_id r =? uid)|];
      destruct d; reflexivity.
  - destruct (tasks d !! tid) as [r|] eqn:Ht; [destruct (t_user_id r =? uid) eqn:Ho|];
      cbn [st_db st_json tasks users]; rewrite ?lookup_delete_eq, ?Ht, ?Ho; reflexivity.
Qed.

End EditDelete.

(** ** What task operations never do to accounts and to task identity *)

Section Accounts.
Context {rt : Runtime}.

Lemma priority_bonus_bounds prio : 0 <= priority_bonus prio <= 5.
Proof.
  unfold priority_bonus. destruct prio as [p|]; [|lia].
  destruct (String.eqb p "High"); [lia|]. destruct (String.eqb p "Medium"); lia.
Qed.

Lemma stmt_update_task_users tid uid u stamp d :
  match stmt_update_task tid uid u stamp d with
  | Returned (_, d') => users d' = users d
  | Raised _ => True
  end.
Proof.
  unfold stmt_update_task. destruct (patch_is_empty u); [exact I|].
  destruct (tasks d !! tid) as [r|]; [|reflexivity].
  destruct (t_user_id r =? uid); [|reflexivity].
  destruct (set_task_fields u stamp r); [reflexivity | exact I].
Qed.

(** The [users] table after an update: the old one, or the old one with
    the caller's row credited. *)
Lemma update_task_db_users uid now tid u fault d :
  users (snd (with_conn fault (update_task_db uid now tid u) d)) = users d
  \/ exists r p b streak,
       users d !! uid = Some r /\ u_points r = Some p /\ 0 <= b <= 5
       /\ users (snd (with_conn fault (update_task_db uid now tid u) d))
          = <[uid := mk_user (u_email r) (u_name r) (u_password_hash r) (u_provider r)
                              (Some (p + (10 + b))) streak
                              (Some (date_isoformat (dt_date now))) (u_created_at r)]>
              (users d).
Proof.
  unfold with_conn, update_task_db, gamify, sql_bind, execute, commit, sql_ret, sql_raise.
  cbn [budget working committed].
  pose proof (stmt_update_task_users tid uid u
                (if sets_done u then Some (datetime_isoformat_seconds now) else None) d) as Hu.
  destruct (stmt_update_task tid uid u _ d) as [[[] d1]|e].
  2:{ destruct fault as [[|n]|]; left; reflexivity. }
  unfold stmt_select_user, stmt_select_priority, stmt_update_user.
  set (b := priority_bonus
              match match tasks d1 !! tid with
                    | Some r => if t_user_id r =? uid then Some (t_priority r) else None
                    | None => None
                    end with
              | Some p => p
              | None => Some "Medium"
              end).
  assert (Hb : 0 <= b <= 5) by apply priority_bonus_bounds.
  destruct (sets_done u).
  2:{ destruct fault as [[|[|n]]|]; cbn; auto. }
  destruct (users d1 !! uid) as [r|] eqn:Hr.
  - destruct (u_points r) as [p|] eqn:Hp;
      destruct fault as [[|[|[|[|[|[|n]]]]]]|];
      repeat (progress (cbn; rewrite ?Hr, ?Hp)); auto;
      try (match goal with |- context [if ?c then _ else _] => destruct c end;
           repeat (progress (cbn; rewrite ?Hr, ?Hp)); auto);
      (right; exists r, p, b; eexists; rewrite <- Hu;
       split; [exact Hr|]; split; [exact Hp|]; split; [exact Hb|]; reflexivity).
  - destruct fault as [[|[|[|[|[|[|n]]]]]]|];
      repeat (progress (cbn; rewrite ?Hr)); auto;
      match goal with |- context [if ?c then _ else _] => destruct c end;
      repeat (progress (cbn; rewrite ?Hr)); auto.
Qed.

Lemma account_kept_refl r : account_kept r r.
Proof.
  repeat split. destruct (u_points r) as [p|]; [|reflexivity].
  exists p. split; [reflexivity | lia].
Qed.

Lemma accounts_kept_refl d d' : users d' = users d -> accounts_kept d d'.
Proof.
  intros E v. rewrite E. destruct (users d !! v); [apply account_kept_refl | exact I].
Qed.

Lemma accounts_kept_trans d1 d2 d3 :
  accounts_kept d1 d2 -> accounts_kept d2 d3 -> accounts_kept d1 d3.
Proof.
  intros H12 H23 v. specialize (H12 v). specialize (H23 v).
  destruct (users d1 !! v) as [r1|], (users d2 !! v) as [r2|], (users d3 !! v) as [r3|];
    try contradiction; try exact I.
  destruct H12 as (A1 & A2 & A3 & A4 & A5 & A6), H23 as (B1 & B2 & B3 & B4 & B5 & B6).
  repeat split; try congruence.
  destruct (u_points r1) as [p1|].
  - destruct A6 as (p2 & E2 & L2). rewrite E2 in B6. destruct B6 as (p3 & E3 & L3).
    exists p3. split; [exact E3 | lia].
  - rewrite A6 in B6. exact B6.
Qed.

Lemma single_statement_users {A} fault (stmt : db -> outcome (A * db)) d :
  (forall d0, match stmt d0 with Returned (_, d') => users d' = users d0 | Raised _ => True end) ->
  users (snd (with_conn fault (sql_bind (execute stmt) (fun _ => commit)) d)) = users d.
Proof.
  intros Hs. rewrite with_conn_single. specialize (Hs d).
  destruct fault as [[|[|n]]|]; try reflexivity;
    destruct (stmt d) as [[a d']|e]; try reflexivity; exact Hs.
Qed.

Lemma step_accounts_kept c s : accounts_kept (st_db s) (st_db (step c s)).
Proof.
  destruct c as [user now fault o]. unfold step. cbn [c_op c_user c_now c_fault].
  destruct o as [tid title desc due prio cat | tid u | tid].
  - unfold add_task.
    destruct (match prio with
              | Some p => if String.eqb p "Auto" then _ else _
              | None => _ end) as [chosen|e]; [|apply accounts_kept_refl; reflexivity].
    destruct user as [uid|]; [|apply accounts_kept_refl; reflexivity].
    match goal with
    | |- context [stmt_insert_task ?t ?r] =>
        pose proof (single_statement_users fault (stmt_insert_task t r) (st_db s)) as K
    end.
    destruct (with_conn fault _ (st_db s)) as [r d']. apply accounts_kept_refl, K.
    intros d0. unfold stmt_insert_task. destruct (tasks d0 !! tid); [exact I | reflexivity].
  - unfold update_task. destruct user as [uid|]; [|apply accounts_kept_refl; reflexivity].
    pose proof (update_task_db_users uid now tid u fault (st_db s)) as K.
    destruct (with_conn fault (update_task_db uid now tid u) (st_db s)) as [r d'].
    cbn [snd st_db] in *.
    destruct K as [K | (r0 & p & b & streak & Hr & Hp & Hb & K)];
      [apply accounts_kept_refl, K|].
    intros v. rewrite K. destruct (decide (v = uid)) as [->|Hne].
    + rewrite lookup_insert_eq, Hr. repeat split. cbn. rewrite Hp.
      eexists. split; [reflexivity | lia].
    + rewrite lookup_insert_ne by congruence.
      destruct (users (st_db s) !! v); [apply account_kept_refl | exact I].
  - unfold delete_task. destruct user as [uid|]; [|apply accounts_kept_refl; reflexivity].
    pose proof (single_statement_users fault (stmt_delete_task tid uid) (st_db s)) as K.
    destruct (with_conn fault _ (st_db s)) as [r d']. apply accounts_kept_refl, K.
    intros d0. unfold stmt_delete_task. destruct (tasks d0 !! tid) as [r0|]; [|reflexivity].
    destruct (t_user_id r0 =? uid); reflexivity.
Qed.

(** X4.  Whatever sequence of add, update and delete calls is made, by
    whatever sessions and under whatever storage failures, no account is
    created or removed, no account's email, name, password hash, provider
    or creation time changes, points that are set never go down, and
    points that are NULL stay NULL. *)
Theorem run_accounts_kept (cs : list call) (s : store) :
  accounts_kept (st_db s) (st_db (run cs s)).
Proof.
  revert s. induction cs as [|c cs IH]; intros s.
  - apply accounts_kept_refl. reflexivity.
  - simpl. eapply accounts_kept_trans; [apply step_accounts_kept | apply IH].
Qed.

(** Updates keep the owner and the creation time of every task and the
    set of task ids. *)
Lemma update_task_db_keeps_identity d0 uid now tid u :
  keeps (fun d => forall t, task_identity d t = task_identity d0 t)
        (update_task_db uid now tid u).
Proof.
  unfold update_task_db. keeps_steps.
  - intros d Hs. unfold stmt_update_task.
    destruct (patch_is_empty u); [exact I|].
    destruct (tasks d !! tid) as [r|] eqn:Hr; [|exact Hs].
    destruct (t_user_id r =? uid); [|exact Hs].
    unfold set_task_fields.
    destruct (p_title u) as [[x|]|]; try exact I;
      (intros t'; unfold task_identity in *; simpl;
       destruct (decide (tid = t')) as [<-|Hne];
       [ rewrite lookup_insert_eq, <- Hs, Hr; reflexivity
       | rewrite lookup_insert_ne by exact Hne; apply Hs ]).
  - destruct (sets_done u); [|apply keeps_ret].
    apply gamify_keeps. intros d d' E Hd t. unfold task_identity in *. rewrite E. apply Hd.
Qed.

(** X5.  Called with any of the six keywords its callers pass (title,
    desc, due, priority, category, done), [update_task] never adds or
    removes a task and never changes the owner or the creation time of
    one, whoever calls it and under whatever storage failure; in the
    fallback file it keeps the number, the order, the ids and the creation
    times of the records. *)
Theorem update_task_keeps_identity (user : option Z) (now : datetime) (fault : option nat)
    (tid : string) (u : patch) (s : store) :
  (forall t, task_identity (st_db (snd (update_task user now fault tid u s))) t
             = task_identity (st_db s) t)
  /\ dom (tasks (st_db (snd (update_task user now fault tid u s)))) = dom (tasks (st_db s))
  /\ List.map (fun t => (j_id t, j_created_at t))
              (st_json (snd (update_task user now fault tid u s)))
     = List.map (fun t => (j_id t, j_created_at t)) (st_json s).
Proof.
  assert (Hid : forall t, task_identity (st_db (snd (update_task user now fault tid u s))) t
                          = task_identity (st_db s) t).
  { unfold update_task. destruct user as [uid|]; [|reflexivity].
    pose proof (keeps_with_conn _ fault (st_db s)
                  (update_task_db_keeps_identity (st_db s) uid now tid u)
                  (fun _ => eq_refl)) as K.
    destruct (with_conn fault (update_task_db uid now tid u) (st_db s)) as [r d'].
    exact K. }
  split; [exact Hid|]. split.
  - apply set_eq. intros t. rewrite !elem_of_dom.
    specialize (Hid t). unfold task_identity in Hid.
    destruct (tasks (st_db (snd (update_task user now fault tid u s))) !! t),
      (tasks (st_db s) !! t); try discriminate; split; intros [x Hx]; try discriminate;
      eexists; reflexivity.
  - unfold update_task. destruct user as [uid|].
    + destruct (with_conn fault (update_task_db uid now tid u) (st_db s)). reflexivity.
    + cbn [snd st_json]. rewrite List.map_map. apply List.map_ext. intros t.
      unfold update_json_task. destruct (String.eqb (j_id t) tid); reflexivity.
Qed.

Lemma step_json_kept c s : in_session c -> st_json (step c s) = st_json s.
Proof.
  intros [uid Hu]. destruct c as [user now fault o]. cbn in Hu. subst user.
  unfold step. cbn [c_op c_user c_now c_fault].
  destruct o as [tid title desc due prio cat | tid u | tid].
  - unfold add_task.
    destruct (match prio with
              | Some p => if String.eqb p "Auto" then _ else _
              | None => _ end) as [chosen|e]; [|reflexivity].
    destruct (with_conn fault _ (st_db s)). reflexivity.
  - unfold update_task. destruct (with_conn fault _ (st_db s)). reflexivity.
  - unfold delete_task. destruct (with_conn fault _ (st_db s)). reflexivity.
Qed.

Lemma step_db_kept c s : no_session c -> st_db (step c s) = st_db s.
Proof.
  intros Hu. destruct c as [user now fault o]. unfold no_session in Hu. cbn in Hu. subst user.
  unfold step. cbn [c_op c_user c_now c_fault].
  destruct o as [tid title desc due prio cat | tid u | tid].
  - unfold add_task.
    destruct (match prio with
              | Some p => if String.eqb p "Auto" then _ else _
              | None => _ end) as [chosen|e]; reflexivity.
  - reflexivity.
  - reflexivity.
Qed.

(** X6.  The two storage branches never mix: a sequence of calls all made
    with a user in the session leaves the fallback file as it was, and a
    sequence of calls all made without one leaves the database as it was,
    under whatever storage failures. *)
Theorem run_branches_apart (cs : list call) (s : store) :
  (Forall in_session cs -> st_json (run cs s) = st_json s)
  /\ (Forall no_session cs -> st_db (run cs s) = st_db s).
Proof.
  split; intros Hall; revert s; induction Hall as [|c cs Hc _ IH]; intros s;
    try reflexivity; simpl; rewrite IH.
  - apply step_json_kept, Hc.
  - apply step_db_kept, Hc.
Qed.

End Accounts.

(** ** Completions in a row *)

Section Streaks.
Context {rt : Runtime}.

(** X7.  Two completions by the same user, of two of the user's tasks,
    without storage failure and with points and streaks that fit in 64
    bits: both calls return, the points are the old points plus 10 and the
    bonus for each task, the last completion date is the day of the second
    call, and, when the runtime reads back the date it wrote, the streak
    after the second call is the streak after the first plus one when the
    second day is the next day, the same when it is the same day, and 1
    otherwise. *)
Theorem two_completions (uid : Z) (now1 now2 : datetime) (t1 t2 : string) (u1 u2 : patch)
    (s : store) (ur : user_row) (p : Z) (r1 r2 : task_row) (dt1 : datetime) :
  users (st_db s) !! uid = Some ur ->
  u_points ur = Some p ->
  tasks (st_db s) !! t1 = Some r1 -> t_user_id r1 = uid ->
  tasks (st_db s) !! t2 = Some r2 -> t_user_id r2 = uid ->
  t1 <> t2 ->
  sets_done u1 = true -> p_title u1 <> Some None ->
  sets_done u2 = true -> p_title u2 <> Some None ->
  date_isoformat (dt_date now1) <> "" ->
  datetime_fromisoformat (date_isoformat (dt_date now1)) = Returned dt1 ->
  dt_date dt1 = dt_date now1 ->
  let points1 := p + (10 + priority_bonus (or_keep (p_priority u1) (t_priority r1))) in
  let streak1 := next_streak (dt_date now1) (parse_last (u_last_complete_date ur))
                             (u_streak ur) in
  in_int64 points1 = true ->
  binds streak1 = true ->
  in_int64 (points1 + (10 + priority_bonus (or_keep (p_priority u2) (t_priority r2)))) = true ->
  binds (next_streak (dt_date now2) (Some (dt_date now1)) streak1) = true ->
  exists s1 s2 ur1 ur2,
    update_task (Some uid) now1 None t1 u1 s = (Returned tt, s1)
    /\ update_task (Some uid) now2 None t2 u2 s1 = (Returned tt, s2)
    /\ users (st_db s1) !! uid = Some ur1
    /\ users (st_db s2) !! uid = Some ur2
    /\ u_points ur2
       = Some (p + (10 + priority_bonus (or_keep (p_priority u1) (t_priority r1)))
                 + (10 + priority_bonus (or_keep (p_priority u2) (t_priority r2))))
    /\ u_last_complete_date ur2 = Some (date_isoformat (dt_date now2))
    /\ (dt_date now2 = dt_date now1 + 1 -> u_streak ur2 = Some (or_zero (u_streak ur1) + 1))
    /\ (dt_date now2 = dt_date now1 -> u_streak ur2 = u_streak ur1)
    /\ (dt_date now2 <> dt_date now1 + 1 -> dt_date now2 <> dt_date now1 ->
        u_streak ur2 = Some 1).
Proof.
  intros Hu Hp H1 Ho1 H2 Ho2 Hne Hd1 Hn1 Hd2 Hn2 Hiso Hparse Hdate points1 streak1
         Hfit1 Hbind1 Hfit2 Hbind2.
  subst points1 streak1.
  pose proof (update_task_db_completes uid now1 t1 u1 (st_db s) ur p r1 Hu Hp H1 Ho1 Hd1 Hn1
                Hfit1 Hbind1) as E1.
  set (ur1 := mk_user (u_email ur) (u_name ur) (u_password_hash ur) (u_provider ur)
                (Some (p + (10 + priority_bonus (or_keep (p_priority u1) (t_priority r1)))))
                (next_streak (dt_date now1) (parse_last (u_last_complete_date ur))
                             (u_streak ur))
                (Some (date_isoformat (dt_date now1))) (u_created_at ur)) in *.
  set (d1 := mk_db (<[uid := ur1]> (users (st_db s)))
                   (<[t1 := completed_task u1 (datetime_isoformat_seconds now1) r1]>
                      (tasks (st_db s)))) in *.
  assert (Hu1 : users d1 !! uid = Some ur1) by apply lookup_insert_eq.
  assert (H21 : tasks d1 !! t2 = Some r2)
    by (unfold d1; cbn [tasks]; rewrite lookup_insert_ne by exact Hne; exact H2).
  assert (Hlast : parse_last (u_last_complete_date ur1) = Some (dt_date now1)).
  { cbn [ur1 u_last_complete_date parse_last].
    destruct (String.eqb_spec (date_isoformat (dt_date now1)) ""); [contradiction|].
    rewrite Hparse, Hdate. reflexivity. }
  assert (Hbind2' : binds (next_streak (dt_date now2) (parse_last (u_last_complete_date ur1))
                                       (u_streak ur1)) = true)
    by (rewrite Hlast; exact Hbind2).
  pose proof (update_task_db_completes uid now2 t2 u2 d1 ur1
                (p + (10 + priority_bonus (or_keep (p_priority u1) (t_priority r1)))) r2
                Hu1 eq_refl H21 Ho2 Hd2 Hn2 Hfit2 Hbind2') as E2.
  eexists (mk_store d1 (st_json s)), _, ur1, _.
  split; [unfold update_task; rewrite E1; reflexivity|].
  split; [unfold update_task; cbn [st_db st_json]; rewrite E2; reflexivity|].
  split; [exact Hu1|]. cbn [st_db users]. split; [apply lookup_insert_eq|].
  cbn [u_points u_streak u_last_complete_date]. rewrite Hlast.
  split; [reflexivity|]. split; [reflexivity|].
  unfold next_streak at 1 2 3.
  split; [|split].
  - intros ->. rewrite Z.add_simpl_r, Z.eqb_refl. reflexivity.
  - intros ->. destruct (Z.eqb_spec (dt_date now1) (dt_date now1 - 1)); [lia|].
    rewrite Z.eqb_refl. reflexivity.
  - intros N1 N2. destruct (Z.eqb_spec (dt_date now1) (dt_date now2 - 1)); [lia|].
    destruct (Z.eqb_spec (dt_date now1) (dt_date now2)); [congruence|]. reflexivity.
Qed.

(** X8.  A task added with a due date of today or earlier and no explicit
    priority is stored as High, and ticking it, without storage failure
    and with points and a streak that fit in 64 bits, credits its owner
    with 15 points and stamps the completion. *)
Theorem add_then_complete (uid : Z) (now now2 : datetime) (tid title desc : string)
    (d : date) (priority category : option string) (s : store) (ur : user_row) (p : Z) :
  users (st_db s) !! uid = Some ur ->
  u_points ur = Some p ->
  tasks (st_db s) !! tid = None ->
  priority = None \/ priority = Some "Auto" ->
  d <= dt_date now ->
  in_int64 (p + 15) = true ->
  binds (next_streak (dt_date now2) (parse_last (u_last_complete_date ur)) (u_streak ur))
  = true ->
  exists s1 s2 r ur2,
    add_task (Some uid) now tid None title desc (PyDate d) priority category s
    = (Returned tid, s1)
    /\ update_task (Some uid) now2 None tid (checkbox_patch true) s1 = (Returned tt, s2)
    /\ tasks (st_db s1) !! tid
       = Some (new_task_row uid (datetime_isoformat_seconds now) title desc
                            (Some (date_isoformat d)) "High" category)
    /\ tasks (st_db s2) !! tid = Some r
    /\ t_done r = true
    /\ t_completed_at r = Some (datetime_isoformat_seconds now2)
    /\ t_priority r = Some "High"
    /\ users (st_db s2) !! uid = Some ur2
    /\ u_points ur2 = Some (p + 15).
Proof.
  intros Hu Hp Ht Hauto Hd Hfit Hbind.
  assert (Hs : suggest_priority_by_due (dt_date now) (PyDate d) = Returned "High").
  { rewrite suggest_date. f_equal. apply classify_high, Hd. }
  set (row := new_task_row uid (datetime_isoformat_seconds now) title desc
                           (Some (date_isoformat d)) "High" category).
  set (d1 := mk_db (users (st_db s)) (<[tid := row]> (tasks (st_db s)))).
  assert (E1 : add_task (Some uid) now tid None title desc (PyDate d) priority category s
               = (Returned tid, mk_store d1 (st_json s))).
  { unfold add_task.
    assert (Hc : match priority with
                 | Some p0 => if String.eqb p0 "Auto"
                              then suggest_priority_by_due (dt_date now) (PyDate d)
                              else Returned p0
                 | None => suggest_priority_by_due (dt_date now) (PyDate d)
                 end = Returned "High").
    { destruct Hauto as [-> | ->]; [exact Hs | simpl; exact Hs]. }
    rewrite Hc, with_conn_single. unfold stmt_insert_task. rewrite Ht. reflexivity. }
  assert (Hr : tasks d1 !! tid = Some row) by apply lookup_insert_eq.
  assert (Hfit' : in_int64 (p + (10 + priority_bonus
                                         (or_keep (p_priority (checkbox_patch true))
                                                  (t_priority row)))) = true).
  { replace (p + (10 + _)) with (p + 15) by (cbn; lia). exact Hfit. }
  pose proof (update_task_db_completes uid now2 tid (checkbox_patch true) d1 ur p row
                Hu Hp Hr eq_refl eq_refl ltac:(discriminate) Hfit' Hbind) as E2.
  eexists (mk_store d1 (st_json s)), _, _, _.
  split; [exact E1|].
  split; [unfold update_task; cbn [st_db st_json]; rewrite E2; reflexivity|].
  split; [exact Hr|].
  cbn [st_db tasks users]. rewrite !lookup_insert_eq.
  split; [reflexivity|]. split; [reflexivity|]. split; [reflexivity|].
  split; [reflexivity|]. split; [reflexivity|]. cbn; f_equal; lia.
Qed.

(** X9.  Through the checkbox of an up-to-date task list a completion is
    credited only on a real transition: whatever storage failure occurs,
    the [users] table changes only if the task was not done and the box
    was ticked.  A click that leaves the box as the task is makes no call,
    and unticking never changes the [users] table. *)
Theorem checkbox_credits_transitions (uid : Z) (now : datetime) (fault : option nat)
    (tid : string) (r : task_row) (toggled : bool) (s : store) :
  tasks (st_db s) !! tid = Some r ->
  (users (st_db (snd (on_checkbox (Some uid) now fault tid r toggled s))) <> users (st_db s) ->
     t_done <$> (tasks (st_db s) !! tid) = Some false /\ toggled = true)
  /\ (toggled = t_done r -> on_checkbox (Some uid) now fault tid r toggled s = (Returned tt, s))
  /\ (toggled = false ->
      users (st_db (snd (on_checkbox (Some uid) now fault tid r toggled s))) = users (st_db s)).
Proof.
  intros Ht.
  assert (Hun : users (st_db (snd (update_task (Some uid) now fault tid (checkbox_patch false) s)))
                = users (st_db s)).
  { destruct (edit_persists_or_not uid now fault tid (checkbox_patch false) s
                eq_refl) as [[_ ->] | [_ ->]]; [|reflexivity].
    unfold edited_store. destruct (tasks (st_db s) !! tid) as [r0|]; [|reflexivity].
    destruct (t_user_id r0 =? uid); [|reflexivity].
    destruct (set_task_fields _ _ _); reflexivity. }
  unfold on_checkbox. rewrite Ht. cbn [fmap option_fmap option_map].
  destruct toggled, (t_done r); cbn [Bool.eqb negb];
    (split; [|split]); try reflexivity; try discriminate; auto;
    try (intros N; contradiction).
Qed.

End Streaks.

(** ** Reading a user's tasks *)

Section LoadTasks.

Lemma created_before_trans : Transitive created_before.
Proof. intros a b c. unfold created_before. apply transitivity. Qed.

Lemma created_before_total : Total created_before.
Proof. intros a b. unfold created_before. apply total, _. Qed.

Lemma NoDup_fst_filter {A B} (f : A * B -> bool) (l : list (A * B)) :
  NoDup (List.map fst l) -> NoDup (List.map fst (List.filter f l)).
Proof.
  induction l as [|x l IH]; simpl; [auto|]. intros Hnd.
  apply NoDup_cons in Hnd as [Hx Hnd].
  destruct (f x); simpl; [|auto].
  apply NoDup_cons. split; [|auto].
  intros Hin. apply Hx. apply list_elem_of_In in Hin. apply list_elem_of_In.
  apply in_map_iff in Hin as (y & Hy & Hin). apply in_map_iff. exists y.
  apply filter_In in Hin as [Hin _]. auto.
Qed.

Lemma rows_of_spec uid d tid r :
  In (tid, r) (rows_of uid d) <-> tasks d !! tid = Some r /\ t_user_id r = uid.
Proof.
  unfold rows_of. rewrite filter_In, <- list_elem_of_In, elem_of_map_to_list. simpl.
  rewrite Z.eqb_eq. reflexivity.
Qed.

(** X10.  For the session user [load_tasks] reads exactly that user's
    rows, each once, in the order of their creation times, and every
    record it returns carries the user's id. *)
Theorem load_tasks_own_rows (uid : Z) (d : db) :
  exists rows,
    load_tasks uid d = List.map (fun ir => dict_of_task (fst ir) (snd ir)) rows
    /\ (forall tid r, In (tid, r) rows <-> tasks d !! tid = Some r /\ t_user_id r = uid)
    /\ NoDup (List.map fst rows)
    /\ StronglySorted created_before rows
    /\ (forall t, In t (load_tasks uid d) -> t !! "user_id" = Some (VInt uid)).
Proof.
  exists (merge_sort created_before (rows_of uid d)).
  pose proof (merge_sort_Permutation created_before (rows_of uid d)) as Hperm.
  assert (Hin : forall tid r, In (tid, r) (merge_sort created_before (rows_of uid d))
                              <-> tasks d !! tid = Some r /\ t_user_id r = uid).
  { intros tid r. rewrite <- rows_of_spec. split; apply Permutation_in; [|symmetry]; exact Hperm. }
  split; [reflexivity|]. split; [exact Hin|]. split; [|split].
  - rewrite Hperm. apply NoDup_fst_filter, NoDup_fst_map_to_list.
  - apply (@StronglySorted_merge_sort _ created_before _ created_before_trans
             created_before_total).
  - intros t Ht. unfold load_tasks in Ht. apply in_map_iff in Ht as ([tid r] & <- & Hr).
    apply Hin in Hr as [_ <-]. reflexivity.
Qed.

End LoadTasks.

(** ** Registration and first login *)

Section SignUp.
Context {rt : Runtime}.

Lemma foldr_max_ge (l : list Z) (i : Z) : In i l -> i <= foldr Z.max 0 l.
Proof.
  induction l as [|x l IH]; simpl; [intros []|].
  intros [->|Hin]; [lia|]. specialize (IH Hin). lia.
Qed.

Lemma max_user_id_ge (us : gmap Z user_row) i r : us !! i = Some r -> i <= max_user_id us.
Proof.
  intros Hi. unfold max_user_id. apply foldr_max_ge.
  apply in_map_iff. exists (i, r). split; [reflexivity|].
  apply list_elem_of_In, elem_of_map_to_list, Hi.
Qed.

Lemma max_user_id_fresh (us : gmap Z user_row) : us !! (max_user_id us + 1) = None.
Proof.
  destruct (us !! (max_user_id us + 1)) as [r|] eqn:E; [|reflexivity].
  apply max_user_id_ge in E. lia.
Qed.

Lemma strip_nonempty_nonempty s : String.eqb (PyStr.strip s) "" = false -> String.eqb s "" = false.
Proof. destruct s; [intros E; exact E | reflexivity]. Qed.

(** What [create_user] persists: the new row under a fresh id, or
    nothing. *)
Lemma create_user_result now hash fault name email pw provider d :
  create_user now hash fault name email pw provider d
  = match password_hash hash pw with
    | Raised e => (Raised e, d)
    | Returned pwhash =>
        match fault with
        | Some O => (Raised OperationalError, d)
        | _ =>
            match stmt_insert_user (PyStr.strip (PyStr.lower email)) (PyStr.strip name)
                                   pwhash provider (datetime_isoformat_seconds now) d with
            | Raised e => (Raised e, d)
            | Returned (id, d') =>
                match fault with
                | Some (S O) => (Raised OperationalError, d)
                | _ => (Returned id, d')
                end
            end
        end
    end.
Proof.
  unfold create_user. destruct (password_hash hash pw) as [pwhash|e]; [|reflexivity].
  unfold with_conn, sql_bind, execute, commit, sql_ret.
  destruct fault as [[|[|n]]|]; simpl; try reflexivity;
    destruct (stmt_insert_user _ _ _ _ _ d) as [[a d']|e]; reflexivity.
Qed.

(** The database after a sign-up that went through. *)
Lemma signup_form_cases now hash fault name email pw1 pw2 d :
  (exists h,
     hash = Returned h
     /\ fst (signup_form now hash fault name email pw1 pw2 d)
        = Returned "Account created! You can log in now."
     /\ PyStr.strip name <> "" /\ PyStr.strip email <> "" /\ PyStr.strip pw1 <> "" /\ pw1 = pw2
     /\ find_user_by_email (users d) (PyStr.strip (PyStr.lower email)) = None
     /\ snd (signup_form now hash fault name email pw1 pw2 d)
        = mk_db (<[max_user_id (users d) + 1
                   := new_account name email h (datetime_isoformat_seconds now)]> (users d))
                (tasks d))
  \/ (fst (signup_form now hash fault name email pw1 pw2 d)
      <> Returned "Account created! You can log in now."
      /\ snd (signup_form now hash fault name email pw1 pw2 d) = d).
Proof.
  unfold signup_form.
  destruct (String.eqb_spec (PyStr.strip name) "") as [|Hn]; [right; split; [discriminate|reflexivity]|].
  destruct (String.eqb_spec (PyStr.strip email) "") as [|He]; [right; split; [discriminate|reflexivity]|].
  destruct (String.eqb (PyStr.strip pw1) "") eqn:Hp; [right; split; [discriminate|reflexivity]|].
  cbn [orb].
  destruct (String.eqb_spec pw1 pw2) as [Heq|]; [|right; split; [discriminate|reflexivity]].
  cbn [negb]. unfold get_user_by_email.
  destruct (find_user_by_email (users d) (PyStr.strip (PyStr.lower email))) as [[i r]|] eqn:Hf;
    [right; split; [discriminate|reflexivity]|].
  rewrite create_user_result. unfold password_hash, stmt_insert_user. rewrite Hf.
  rewrite (strip_nonempty_nonempty pw1 Hp).
  destruct hash as [h|e]; [|right; split; [discriminate | reflexivity]].
  destruct fault as [[|[|n]]|]; cbn [fst snd];
    first [ right; split; [discriminate | reflexivity]
          | left; exists h; repeat split; try assumption;
            apply String.eqb_neq; assumption ].
Qed.

Lemma insert_fresh_unique d id r :
  emails_unique d ->
  users d !! id = None ->
  (forall i ri, users d !! i = Some ri -> u_email ri <> u_email r) ->
  emails_unique (mk_db (<[id := r]> (users d)) (tasks d)).
Proof.
  intros Hu Hid Hnew i j ri rj. cbn [users].
  rewrite !lookup_insert_Some. intros [[<- <-]|[Hi Hri]] [[<- <-]|[Hj Hrj]] E.
  - reflexivity.
  - exfalso. apply (Hnew j rj Hrj). symmetry. exact E.
  - exfalso. apply (Hnew i ri Hri). exact E.
  - exact (Hu i j ri rj Hri Hrj E).
Qed.

(** X11.  The sign-up form changes the database only when it reports that
    the account was created, and then by exactly one new account: under a
    fresh id, with the lower-cased, stripped email, the stripped name, the
    hash that [bcrypt.hash] returned, provider local, 0 points, streak 0
    and no completion date, every existing account staying as it was.
    That happens only when name, email and password are non-blank, the two
    passwords agree, no account has that email and hashing the password
    returns.  When hashing raises on an otherwise valid form, the form
    raises that exception and stores nothing.  Without a storage failure
    and with a hash the form does not raise, and it keeps emails
    unique. *)
Theorem signup_form_creates_one_account (now : datetime) (hash : outcome string)
    (fault : option nat) (name email pw1 pw2 : string) (d : db) :
  ((exists h,
      hash = Returned h
      /\ fst (signup_form now hash fault name email pw1 pw2 d)
         = Returned "Account created! You can log in now."
      /\ PyStr.strip name <> "" /\ PyStr.strip email <> "" /\ PyStr.strip pw1 <> ""
      /\ pw1 = pw2
      /\ (forall i r, users d !! i = Some r -> u_email r <> PyStr.strip (PyStr.lower email))
      /\ users d !! (max_user_id (users d) + 1) = None
      /\ snd (signup_form now hash fault name email pw1 pw2 d)
         = mk_db (<[max_user_id (users d) + 1
                    := new_account name email h (datetime_isoformat_seconds now)]> (users d))
                 (tasks d)
      /\ (forall i r, users d !! i = Some r ->
            users (snd (signup_form now hash fault name email pw1 pw2 d)) !! i = Some r))
   \/ (fst (signup_form now hash fault name email pw1 pw2 d)
       <> Returned "Account created! You can log in now."
       /\ snd (signup_form now hash fault name email pw1 pw2 d) = d))
  /\ (fault = None -> (exists h, hash = Returned h) ->
      exists msg, fst (signup_form now hash fault name email pw1 pw2 d) = Returned msg)
  /\ (forall e, hash = Raised e ->
        PyStr.strip name <> "" -> PyStr.strip email <> "" -> PyStr.strip pw1 <> "" ->
        pw1 = pw2 ->
        (forall i r, users d !! i = Some r -> u_email r <> PyStr.strip (PyStr.lower email)) ->
        signup_form now hash fault name email pw1 pw2 d = (Raised e, d))
  /\ (emails_unique d -> emails_unique (snd (signup_form now hash fault name email pw1 pw2 d))).
Proof.
  pose proof (max_user_id_fresh (users d)) as Hfresh.
  split; [|split; [|split]].
  - destruct (signup_form_cases now hash fault name email pw1 pw2 d)
      as [(h & Hh & Hm & Hn & He & Hp & Heq & Hf & Hs) | Hno]; [left | right; exact Hno].
    exists h. repeat (split; [assumption|]).
    split; [apply find_user_by_email_none, Hf|]. split; [exact Hfresh|].
    split; [exact Hs|]. intros i r Hi. rewrite Hs. cbn [users].
    rewrite lookup_insert_ne; [exact Hi|]. intros E. rewrite <- E, Hfresh in Hi. discriminate.
  - intros -> [h ->]. unfold signup_form.
    destruct (_ || _ || _)%bool; [eexists; reflexivity|].
    destruct (negb _); [eexists; reflexivity|].
    unfold get_user_by_email.
    destruct (find_user_by_email _ _) as [[i r]|] eqn:Hf; [eexists; reflexivity|].
    rewrite create_user_result. unfold password_hash, stmt_insert_user. rewrite Hf.
    destruct (String.eqb pw1 ""); eexists; reflexivity.
  - intros e -> Hn He Hp Heq Hnew. unfold signup_form.
    apply String.eqb_neq in Hn, He. rewrite Hn, He. cbn [orb].
    assert (Hp' : String.eqb (PyStr.strip pw1) "" = false) by (apply String.eqb_neq; exact Hp).
    rewrite Hp'. subst pw2. rewrite String.eqb_refl. cbn [negb].
    unfold get_user_by_email.
    rewrite (proj2 (find_user_by_email_none _ _) Hnew).
    rewrite create_user_result. unfold password_hash.
    rewrite (strip_nonempty_nonempty pw1 Hp'). reflexivity.
  - intros Hu.
    destruct (signup_form_cases now hash fault name email pw1 pw2 d)
      as [(h & _ & _ & _ & _ & _ & _ & Hf & ->) | [_ ->]]; [|exact Hu].
    apply insert_fresh_unique; [exact Hu | exact Hfresh|].
    intros i ri Hi. exact (proj1 (find_user_by_email_none _ _) Hf i ri Hi).
Qed.

(** X12.  After a sign-up that went through, logging in with the same
    password and an email that differs from the one typed at most in case
    and surrounding blanks succeeds, when the password check accepts the
    stored hash: [login_local] returns the new account, with 0 points and
    streak 0, and the login form stores its id, email, name and provider
    in the session. *)
Theorem signup_then_login (now : datetime) (hash : string) (fault : option nat)
    (name email pw1 pw2 email' : string) (d : db) :
  fst (signup_form now (Returned hash) fault name email pw1 pw2 d)
  = Returned "Account created! You can log in now." ->
  bcrypt_verify pw1 hash = Returned true ->
  PyStr.strip (PyStr.lower email') = PyStr.strip (PyStr.lower email) ->
  let d' := snd (signup_form now (Returned hash) fault name email pw1 pw2 d) in
  let id := max_user_id (users d) + 1 in
  let row := new_account name email hash (datetime_isoformat_seconds now) in
  users d' !! id = Some row
  /\ login_local d' email' pw1 = Returned (Some (dict_of_user id row), None)
  /\ dict_of_user id row !! "points" = Some (VInt 0)
  /\ dict_of_user id row !! "streak" = Some (VInt 0)
  /\ exists sess,
       login_form d' email' pw1 = Returned (Some sess, None)
       /\ dom sess = identity_keys
       /\ sess !! "id" = Some (VInt id)
       /\ sess !! "email" = Some (VStr (PyStr.strip (PyStr.lower email))).
Proof.
  intros Hm Hv He d' id row.
  destruct (signup_form_cases now (Returned hash) fault name email pw1 pw2 d)
    as [(h & [= <-] & _ & _ & _ & _ & _ & Hf & Hs) | [Hno _]]; [|contradiction].
  pose proof (max_user_id_fresh (users d)) as Hfresh.
  assert (Hrow : users d' !! id = Some row).
  { unfold d'. rewrite Hs. cbn [users]. apply lookup_insert_eq. }
  assert (Hfind : find_user_by_email (users d') (PyStr.strip (PyStr.lower email'))
                  = Some (id, row)).
  { destruct (find_user_by_email (users d') (PyStr.strip (PyStr.lower email')))
      as [[i r]|] eqn:E.
    - apply find_user_by_email_some in E as [Hi Hr].
      unfold d' in Hi. rewrite Hs in Hi. cbn [users] in Hi.
      apply lookup_insert_Some in Hi as [[<- <-]|[_ Hi]]; [reflexivity|].
      exfalso. rewrite He in Hr.
      exact (proj1 (find_user_by_email_none _ _) Hf i r Hi Hr).
    - exfalso. apply (proj1 (find_user_by_email_none _ _) E id row Hrow).
      rewrite He. reflexivity. }
  assert (Hl : login_local d' email' pw1 = Returned (Some (dict_of_user id row), None)).
  { rewrite (login_local_found d' email' pw1 id row Hfind).
    cbn [row new_account u_provider u_password_hash].
    rewrite bool_decide_eq_true_2 by reflexivity. rewrite Hv. reflexivity. }
  split; [exact Hrow|]. split; [exact Hl|].
  split; [reflexivity|]. split; [reflexivity|].
  eexists. split.
  { unfold login_form. rewrite Hl, session_user_of_row. reflexivity. }
  repeat split; reflexivity.
Qed.

End SignUp.

(** ** The due date and the title of the voice parser *)

Section VoiceDue.
Import Voice.

Lemma span_digits_digits s : all_digits (fst (span_digits s)).
Proof.
  induction s as [|c s IH]; simpl; [intros c []|].
  destruct (is_digit c) eqn:Hc; [|intros c' []].
  destruct (span_digits s) as [ds rest]. simpl in *.
  intros c' [<-|Hin]; [exact Hc | apply IH, Hin].
Qed.

Lemma match_in_days_digits s ds n : match_in_days s = Some (ds, n) -> all_digits ds.
Proof.
  unfold match_in_days. destruct (String.prefix "in " s); [|discriminate].
  pose proof (span_digits_digits (PyStr.drop 3 s)) as Hd.
  destruct (span_digits (PyStr.drop 3 s)) as [ds' rest]. simpl in Hd.
  destruct (String.eqb ds' ""); [discriminate|].
  destruct (String.prefix " day" rest); [|discriminate]. intros [= <- _]. exact Hd.
Qed.

Lemma search_in_days_digits s ds : search_in_days s = Some ds -> all_digits ds.
Proof.
  induction s as [|c s IH]; cbn [search_in_days].
  - destruct (match_in_days "") as [[ds' n]|] eqn:E; [|discriminate].
    intros [= <-]. exact (match_in_days_digits _ _ _ E).
  - destruct (match_in_days (String c s)) as [[ds' n]|] eqn:E; [|exact IH].
    intros [= <-]. exact (match_in_days_digits _ _ _ E).
Qed.

Lemma int_of_digits_nonneg ds acc : all_digits ds -> 0 <= acc -> 0 <= int_of_digits acc ds.
Proof.
  revert acc. induction ds as [|c ds IH]; intros acc Hd Hacc; simpl; [exact Hacc|].
  apply IH.
  - intros c' Hin. apply Hd. right. exact Hin.
  - assert (Hc : is_digit c = true) by (apply Hd; left; reflexivity).
    unfold is_digit in Hc. apply andb_true_iff in Hc as [Hc _].
    apply Nat.leb_le in Hc. lia.
Qed.

Lemma title_or_empty title txt : title_or title txt = "" -> txt = "".
Proof.
  unfold title_or. destruct (String.eqb_spec title ""); [auto | intros E; contradiction].
Qed.

(** X13.  On ASCII text, when the voice parser returns: the due date is
    the next day when the stripped, lower-cased text contains "tomorrow",
    also when it contains "in N days" as well; otherwise it is N days
    ahead for the first "in N day(s)" of the text; otherwise there is none
    and the title is the stripped text.  A due date is never before today
    nor after the last date of the calendar, and the title is empty only
    when the stripped text is.  When the parser raises, it raises
    OverflowError, or ValueError for a number of more than 4300 digits,
    which it always does for such a number. *)
Theorem voice_due_date (today : date) (text : string) :
  PyStr.isascii text = true ->
  let txt := PyStr.strip text in
  let low := PyStr.lower txt in
  (forall title due p,
      parse_voice_text_for_task today text = Returned (title, due, p) ->
      (PyStr.contains "tomorrow" low = true -> due = Some (today + 1))
      /\ (PyStr.contains "tomorrow" low = false ->
          forall ds, search_in_days low = Some ds -> due = Some (today + int_of_digits 0 ds))
      /\ (PyStr.contains "tomorrow" low = false -> search_in_days low = None ->
          due = None /\ title = txt)
      /\ (forall d, due = Some d -> today <= d <= max_ordinal)
      /\ (title = "" -> txt = ""))
  /\ (forall e, parse_voice_text_for_task today text = Raised e ->
        e = OverflowError
        \/ (e = ValueError
            /\ PyStr.contains "tomorrow" low = false
            /\ exists ds, search_in_days low = Some ds
                          /\ (max_str_digits < String.length ds)%nat))
  /\ (forall ds, PyStr.contains "tomorrow" low = false -> search_in_days low = Some ds ->
        (max_str_digits < String.length ds)%nat ->
        parse_voice_text_for_task today text = Raised ValueError).
Proof.
  intros _ txt low. unfold parse_voice_text_for_task. fold txt. fold low.
  assert (Hadd : forall n d, add_days today n = Returned d -> d = today + n /\ d <= max_ordinal).
  { intros n d. unfold add_days. destruct (Z.leb_spec (today + n) max_ordinal); [|discriminate].
    intros [= <-]. auto. }
  assert (Hraise : forall n e, add_days today n = Raised e -> e = OverflowError).
  { intros n e. unfold add_days. destruct (today + n <=? max_ordinal); [discriminate|].
    intros [= <-]. reflexivity. }
  split; [|split].
  - intros title due p.
    destruct (PyStr.contains "tomorrow" low) eqn:Etom.
    + destruct (add_days today 1) as [d|e] eqn:Ea; [|discriminate].
      apply Hadd in Ea as [-> Hmax]. intros [= <- <- _].
      split; [reflexivity|]. split; [discriminate|]. split; [discriminate|].
      split; [intros d [= <-]; lia | apply title_or_empty].
    + destruct (search_in_days low) as [ds|] eqn:Es.
      * unfold int_of_text.
        destruct (max_str_digits <? String.length ds)%nat; [discriminate|].
        destruct (add_days today (int_of_digits 0 ds)) as [d|e] eqn:Ea; [|discriminate].
        apply Hadd in Ea as [-> Hmax]. intros [= <- <- _].
        split; [discriminate|].
        split; [intros _ ds' [= <-]; reflexivity|]. split; [discriminate|].
        split; [|apply title_or_empty].
        intros d [= <-].
        pose proof (int_of_digits_nonneg ds 0 (search_in_days_digits _ _ Es) (Z.le_refl 0)).
        lia.
      * intros [= <- <- _]. split; [discriminate|].
        split; [discriminate|]. split; [auto|]. split; [discriminate | auto].
  - intros e. destruct (PyStr.contains "tomorrow" low).
    + destruct (add_days today 1) as [d|e'] eqn:Ea; [discriminate|].
      intros [= <-]. left. exact (Hraise _ _ Ea).
    + destruct (search_in_days low) as [ds|]; [|discriminate].
      unfold int_of_text.
      destruct (Nat.ltb_spec max_str_digits (String.length ds)) as [Hlong|_].
      * intros [= <-]. right. split; [reflexivity|]. split; [reflexivity|].
        exists ds. split; [reflexivity | exact Hlong].
      * destruct (add_days today _) as [d|e'] eqn:Ea; [discriminate|].
        intros [= <-]. left. exact (Hraise _ _ Ea).
  - intros ds -> -> Hlong. unfold int_of_text.
    destruct (Nat.ltb_spec max_str_digits (String.length ds)) as [_|Hshort]; [reflexivity|].
    exfalso. lia.
Qed.

End VoiceDue.

(** ** The suggestion as a function of the calendar date *)

Section SuggestMore.
Context {rt : Runtime}.

Lemma classify_rank today d :
  priority_rank (classify today d)
  = if d - today <=? 0 then 2 else if d - today <=? 3 then 1 else 0.
Proof.
  unfold classify. destruct (d - today <=? 0); [reflexivity|].
  destruct (d - today <=? 3); reflexivity.
Qed.

(** X14.  The suggested priority depends only on the calendar date of the
    input: a date, a datetime on that date and a text that parses to that
    date get the same suggestion.  It never gets less urgent as the due
    date gets nearer: of two due dates the earlier is at least as urgent,
    and for one due date a later today is at least as urgent. *)
Theorem suggestion_by_calendar_date (today : date) :
  (forall dt, suggest_priority_by_due today (PyDatetime dt)
              = suggest_priority_by_due today (PyDate (dt_date dt)))
  /\ (forall s dt, s <> "" -> datetime_fromisoformat s = Returned dt ->
        suggest_priority_by_due today (PyStr s)
        = suggest_priority_by_due today (PyDate (dt_date dt)))
  /\ (forall d1 d2, d1 <= d2 ->
        priority_rank (classify today d2) <= priority_rank (classify today d1))
  /\ (forall today' d, today <= today' ->
        priority_rank (classify today d) <= priority_rank (classify today' d)).
Proof.
  split; [|split; [|split]].
  - intros dt. rewrite suggest_datetime, suggest_date. reflexivity.
  - intros s dt Hs Hp. rewrite (suggest_iso_text today s dt Hs Hp), suggest_date. reflexivity.
  - intros d1 d2 Hle. rewrite !classify_rank.
    destruct (Z.leb_spec (d1 - today) 0), (Z.leb_spec (d2 - today) 0),
      (Z.leb_spec (d1 - today) 3), (Z.leb_spec (d2 - today) 3); lia.
  - intros today' d Hle. rewrite !classify_rank.
    destruct (Z.leb_spec (d - today) 0), (Z.leb_spec (d - today') 0),
      (Z.leb_spec (d - today) 3), (Z.leb_spec (d - today') 3); lia.
Qed.

End SuggestMore.

(** ** The total of the category histogram *)

Section HistogramTotal.
Context {pd : Pandas}.

Lemma histogram_total_insert_new (m : gmap pyval nat) v n :
  m !! v = None -> histogram_total (<[v := n]> m) = (n + histogram_total m)%nat.
Proof.
  intros Hv. unfold histogram_total. apply map_fold_insert_L; [|exact Hv].
  intros. lia.
Qed.

Lemma histogram_total_bump (m : gmap pyval nat) (v : pyval) :
  histogram_total (<[v := S (default O (m !! v))]> m) = S (histogram_total m).
Proof.
  destruct (m !! v) as [n|] eqn:Hv; simpl.
  - rewrite <- (insert_delete_eq m v (S n)).
    rewrite histogram_total_insert_new by apply lookup_delete_eq.
    rewrite <- (insert_delete_id m v n Hv) at 2.
    rewrite histogram_total_insert_new by apply lookup_delete_eq. reflexivity.
  - rewrite histogram_total_insert_new by exact Hv. reflexivity.
Qed.

Lemma value_counts_total cells : histogram_total (value_counts cells) = length cells.
Proof.
  induction cells as [|v rest IH]; simpl.
  - unfold histogram_total. apply map_fold_empty.
  - rewrite histogram_total_bump, IH. reflexivity.
Qed.

(** X15.  Whenever the analytics are computed for records of which some
    has the category key, the counts of the category histogram add up to
    the number of records; for the records of [load_tasks] the total is
    the number of the user's rows. *)
Theorem category_histogram_total (tasks : list pydict) :
  (forall r, compute_analytics tasks = Returned r ->
     has_column "category" tasks = true ->
     histogram_total (a_categories r) = length tasks)
  /\ (forall uid d r,
        compute_analytics (load_tasks uid d) = Returned r ->
        histogram_total (a_categories r) = length (rows_of uid d)).
Proof.
  split.
  - intros r Hret Hc. rewrite (compute_analytics_categories_entry tasks r Hret).
    destruct tasks as [|t rest]; [discriminate|].
    unfold compute_analytics_categories. rewrite Hc, value_counts_total.
    apply List.length_map.
  - intros uid d r Hret. rewrite (compute_analytics_categories_entry _ r Hret).
    assert (Hlen : length (load_tasks uid d) = length (rows_of uid d)).
    { unfold load_tasks. rewrite List.length_map.
      apply Permutation_length, merge_sort_Permutation. }
    destruct (load_tasks uid d) as [|t rest] eqn:El.
    + rewrite <- Hlen. reflexivity.
    + pose proof (load_tasks_has_category uid d) as Hc. rewrite El in Hc.
      unfold compute_analytics_categories. rewrite Hc by discriminate.
      rewrite value_counts_total, List.length_map. exact Hlen.
Qed.

End HistogramTotal.

(** ** Emails as they are stored and looked up *)

Section Normalise.

Lemma lower_char_idem c : PyStr.lower_char (PyStr.lower_char c) = PyStr.lower_char c.
Proof. destruct c as [[] [] [] [] [] [] [] []]; reflexivity. Qed.

Lemma isspace_lower_char c : PyStr.isspace (PyStr.lower_char c) = PyStr.isspace c.
Proof. destruct c as [[] [] [] [] [] [] [] []]; reflexivity. Qed.

Lemma lower_idem s : PyStr.lower (PyStr.lower s) = PyStr.lower s.
Proof. induction s as [|c s IH]; simpl; [reflexivity|]. rewrite lower_char_idem, IH. reflexivity. Qed.

Lemma lstrip_lower s : PyStr.lstrip (PyStr.lower s) = PyStr.lower (PyStr.lstrip s).
Proof.
  induction s as [|c s IH]; simpl; [reflexivity|].
  rewrite isspace_lower_char. destruct (PyStr.isspace c); [exact IH | reflexivity].
Qed.

Lemma rstrip_lower s : PyStr.rstrip (PyStr.lower s) = PyStr.lower (PyStr.rstrip s).
Proof.
  induction s as [|c s IH]; simpl; [reflexivity|].
  rewrite IH, isspace_lower_char.
  destruct (PyStr.rstrip s) as [|c' r]; simpl; [|reflexivity].
  destruct (PyStr.isspace c); reflexivity.
Qed.

Lemma strip_lower s : PyStr.strip (PyStr.lower s) = PyStr.lower (PyStr.strip s).
Proof. unfold PyStr.strip. rewrite lstrip_lower, rstrip_lower. reflexivity. Qed.

Lemma rstrip_idem s : PyStr.rstrip (PyStr.rstrip s) = PyStr.rstrip s.
Proof.
  induction s as [|c s IH]; simpl; [reflexivity|].
  destruct (PyStr.rstrip s) as [|c' r] eqn:E.
  - destruct (PyStr.isspace c) eqn:Hc; simpl; [reflexivity|]. rewrite Hc. reflexivity.
  - cbn [PyStr.rstrip]. cbn [PyStr.rstrip] in IH. rewrite IH. reflexivity.
Qed.

(** A text that is empty or starts with a character that is not a blank. *)
Lemma lstrip_rstrip_lstrip s :
  PyStr.lstrip (PyStr.rstrip (PyStr.lstrip s)) = PyStr.rstrip (PyStr.lstrip s).
Proof.
  induction s as [|c s IH]; simpl; [reflexivity|].
  destruct (PyStr.isspace c) eqn:Hc; [exact IH|].
  cbn [PyStr.rstrip].
  destruct (PyStr.rstrip s) as [|c' r]; [rewrite Hc|]; cbn [PyStr.lstrip]; rewrite Hc; reflexivity.
Qed.

Lemma strip_idem s : PyStr.strip (PyStr.strip s) = PyStr.strip s.
Proof. unfold PyStr.strip. rewrite lstrip_rstrip_lstrip, rstrip_idem. reflexivity. Qed.

Lemma normalise_email_idem e : normalise_email (normalise_email e) = normalise_email e.
Proof.
  unfold normalise_email. rewrite <- strip_lower, lower_idem, strip_lower.
  rewrite <- strip_lower, strip_idem. reflexivity.
Qed.

Lemma isascii_lower_char c :
  (nat_of_ascii (PyStr.lower_char c) <? 128)%nat = (nat_of_ascii c <? 128)%nat.
Proof. destruct c as [[] [] [] [] [] [] [] []]; reflexivity. Qed.

Lemma isascii_lower s : PyStr.isascii (PyStr.lower s) = PyStr.isascii s.
Proof.
  induction s as [|c s IH]; simpl; [reflexivity|].
  rewrite isascii_lower_char, IH. reflexivity.
Qed.

Lemma isascii_lstrip s : PyStr.isascii s = true -> PyStr.isascii (PyStr.lstrip s) = true.
Proof.
  induction s as [|c s IH]; simpl; [auto|]. intros H.
  destruct (PyStr.isspace c); [|exact H].
  apply andb_true_iff in H as [_ H]. apply IH, H.
Qed.

Lemma isascii_rstrip s : PyStr.isascii s = true -> PyStr.isascii (PyStr.rstrip s) = true.
Proof.
  induction s as [|c s IH]; simpl; [auto|]. intros H.
  apply andb_true_iff in H as [Hc H]. specialize (IH H).
  destruct (PyStr.rstrip s) as [|c' r].
  - destruct (PyStr.isspace c); [reflexivity|]. simpl. rewrite Hc. reflexivity.
  - cbn [PyStr.isascii] in *. rewrite Hc. exact IH.
Qed.

Lemma isascii_normalise e : PyStr.isascii e = true -> PyStr.isascii (normalise_email e) = true.
Proof.
  intros H. unfold normalise_email, PyStr.strip.
  apply isascii_rstrip, isascii_lstrip. rewrite isascii_lower. exact H.
Qed.

(** X16.  For ASCII text, bringing an email to its stored form a second
    time changes nothing and the stored form is ASCII again, so that where
    emails are unique an account whose email was stored in that form (as
    [create_user] stores it) is found by [get_user_by_email] under its
    stored email, and under every ASCII text that has the same stored
    form. *)
Theorem stored_email_finds_account (d : db) (i : Z) (r : user_row) (typed email : string) :
  PyStr.isascii typed = true ->
  PyStr.isascii email = true ->
  normalise_email (normalise_email typed) = normalise_email typed
  /\ PyStr.isascii (normalise_email typed) = true
  /\ (emails_unique d ->
      users d !! i = Some r ->
      u_email r = normalise_email typed ->
      normalise_email email = u_email r ->
      get_user_by_email d email = Some (dict_of_user i r)
      /\ get_user_by_email d (u_email r) = Some (dict_of_user i r)).
Proof.
  intros Hascii _.
  split; [apply normalise_email_idem|].
  split; [apply isascii_normalise, Hascii|].
  intros Hu Hi Hr He.
  assert (Hfind : forall e, normalise_email e = u_email r ->
                            get_user_by_email d e = Some (dict_of_user i r)).
  { intros e Hn. unfold get_user_by_email. fold (normalise_email e). rewrite Hn.
    destruct (find_user_by_email (users d) (u_email r)) as [[j rj]|] eqn:E.
    - apply find_user_by_email_some in E as [Hj Hrj].
      assert (j = i) by exact (Hu j i rj r Hj Hi Hrj). subst j.
      rewrite Hi in Hj. injection Hj as <-. reflexivity.
    - exfalso. exact (proj1 (find_user_by_email_none _ _) E i r Hi eq_refl). }
  split; [apply Hfind, He|]. apply Hfind. rewrite Hr. apply normalise_email_idem.
Qed.

End Normalise.

(** ** The filter and the edit form of the Tasks page *)

Section Filter.
Context {rt : Runtime}.

Lemma or_equals_opt_str (o : option string) (fallback wanted : string) :
  or_equals (Some (opt_str o)) fallback wanted
  = String.eqb (match o with
                | Some c => if String.eqb c "" then fallback else c
                | None => fallback
                end) wanted.
Proof.
  destruct o as [c|]; simpl; [|reflexivity]. destruct (String.eqb c ""); reflexivity.
Qed.

Lemma default_empty_text (o : option string) :
  match o with
  | Some c => if String.eqb c "" then "" else c
  | None => ""
  end = default "" o.
Proof.
  destruct o as [c|]; [|reflexivity]. simpl.
  destruct (String.eqb_spec c ""); [congruence | reflexivity].
Qed.

Lemma text_lower_desc tid r :
  text_lower (dict_of_task tid r) "desc" = Some (PyStr.lower (default "" (t_desc r))).
Proof.
  unfold text_lower.
  change (dict_of_task tid r !! "desc") with (Some (opt_str (t_desc r))).
  destruct (t_desc r); reflexivity.
Qed.

(** On a record read from the table the filter never raises and applies
    the four tests to the row. *)
Lemma task_matches_row f tid r :
  task_matches f (dict_of_task tid r) = Some (row_matches f r).
Proof.
  unfold task_matches. rewrite text_lower_desc.
  change (text_lower (dict_of_task tid r) "title") with (Some (PyStr.lower (t_title r))).
  change (dict_of_task tid r !! "done") with (Some (VBool (t_done r))).
  change (dict_of_task tid r !! "priority") with (Some (opt_str (t_priority r))).
  change (dict_of_task tid r !! "category") with (Some (opt_str (t_category r))).
  rewrite !or_equals_opt_str, default_empty_text.
  unfold row_matches, equals_bool.
  destruct (String.eqb (f_q f) ""), (String.eqb (f_status f) "All"),
    (String.eqb (f_priority f) "All"), (String.eqb (f_category f) "All"),
    (Bool.eqb (t_done r) (String.eqb (f_status f) "Done")),
    (String.eqb (default "" (t_priority r)) (f_priority f)),
    (String.eqb _ (f_category f)),
    (PyStr.contains (PyStr.lower (f_q f)) (PyStr.lower (t_title r))),
    (PyStr.contains (PyStr.lower (f_q f)) (PyStr.lower (default "" (t_desc r))));
    reflexivity.
Qed.

Lemma filter_tasks_rows f (rows : list (string * task_row)) :
  filter_tasks f (List.map (fun ir => dict_of_task (fst ir) (snd ir)) rows)
  = Some (List.map (fun ir => dict_of_task (fst ir) (snd ir))
                   (List.filter (fun ir => row_matches f (snd ir)) rows)).
Proof.
  induction rows as [|[tid r] rows IH]; [reflexivity|].
  cbn [List.map filter_tasks List.filter fst snd].
  rewrite task_matches_row, IH. destruct (row_matches f r); reflexivity.
Qed.

Lemma filter_split_length {A} (g : A -> bool) (l : list A) :
  (length (List.filter g l) + length (List.filter (fun x => negb (g x)) l))%nat = length l.
Proof.
  induction l as [|x l IH]; [reflexivity|]. simpl.
  destruct (g x); simpl; lia.
Qed.

(** X17.  With an empty search box and the three selectors on All the
    filter of the Tasks page shows every record it is given, whatever the
    records hold.  On the records of [load_tasks] it never raises, and it
    shows exactly the rows that pass the four tests: the lower-cased
    search text occurs in the lower-cased title or description, the
    status, the priority and the category (Other for a task without one)
    are the selected ones or the selector is on All.  The search ignores
    the case of the text typed. *)
Theorem filter_tasks_shows (f : filters) :
  (forall tasks, filter_tasks no_filter tasks = Some tasks)
  /\ (forall uid d,
        exists rows,
          load_tasks uid d = List.map (fun ir => dict_of_task (fst ir) (snd ir)) rows
          /\ filter_tasks f (load_tasks uid d)
             = Some (List.map (fun ir => dict_of_task (fst ir) (snd ir))
                              (List.filter (fun ir => row_matches f (snd ir)) rows)))
  /\ (forall q' r, f_q f <> "" -> q' <> "" -> PyStr.lower q' = PyStr.lower (f_q f) ->
        row_matches (mk_filters q' (f_status f) (f_priority f) (f_category f)) r
        = row_matches f r).
Proof.
  split; [|split].
  - intros shown. induction shown as [|t rest IH]; [reflexivity|].
    cbn [filter_tasks]. rewrite IH. reflexivity.
  - intros uid d. exists (merge_sort created_before (rows_of uid d)).
    split; [reflexivity|]. apply filter_tasks_rows.
  - intros q' r Hq Hq' Hl. unfold row_matches. cbn [f_q f_status f_priority f_category].
    rewrite Hl.
    destruct (String.eqb_spec (f_q f) ""); [contradiction|].
    destruct (String.eqb_spec q' ""); [contradiction|]. reflexivity.
Qed.

(** X18.  Under the status selector every task of [load_tasks] falls on
    exactly one side: with the other filters off, Done shows the rows
    whose [done] is true and Pending those whose [done] is false, and the
    two lists together have as many records as the unfiltered list. *)
Theorem filter_done_or_pending (uid : Z) (d : db) :
  (forall r, row_matches (mk_filters "" "Done" "All" "All") r = t_done r)
  /\ (forall r, row_matches (mk_filters "" "Pending" "All" "All") r = negb (t_done r))
  /\ exists shown_done shown_pending,
       filter_tasks (mk_filters "" "Done" "All" "All") (load_tasks uid d) = Some shown_done
       /\ filter_tasks (mk_filters "" "Pending" "All" "All") (load_tasks uid d)
          = Some shown_pending
       /\ (length shown_done + length shown_pending)%nat = length (load_tasks uid d).
Proof.
  assert (Hd : forall r, row_matches (mk_filters "" "Done" "All" "All") r = t_done r)
    by (intros r; unfold row_matches; cbn; destruct (t_done r); reflexivity).
  assert (Hp : forall r, row_matches (mk_filters "" "Pending" "All" "All") r = negb (t_done r))
    by (intros r; unfold row_matches; cbn; destruct (t_done r); reflexivity).
  split; [exact Hd|]. split; [exact Hp|].
  unfold load_tasks. rewrite !filter_tasks_rows.
  eexists _, _. split; [reflexivity|]. split; [reflexivity|].
  rewrite !List.length_map.
  rewrite (List.filter_ext (fun ir => row_matches (mk_filters "" "Done" "All" "All") (snd ir))
                           (fun ir => t_done (snd ir))) by (intros; apply Hd).
  rewrite (List.filter_ext (fun ir => row_matches (mk_filters "" "Pending" "All" "All") (snd ir))
                           (fun ir => negb (t_done (snd ir)))) by (intros; apply Hp).
  apply filter_split_length.
Qed.



End Filter.

(** ** The fallback file *)

Section Fallback.
Context {rt : Runtime}.

Lemma or_keep_twice {A} (new : option A) (old : A) :
  or_keep new (or_keep new old) = or_keep new old.
Proof. destruct new; reflexivity. Qed.

Lemma update_json_task_twice now1 now2 tid u t :
  sets_done u = true ->
  update_json_task now2 tid u (update_json_task now1 tid u t) = update_json_task now1 tid u t.
Proof.
  intros Hd. unfold update_json_task.
  destruct (String.eqb (j_id t) tid) eqn:Eid; cbn [j_id]; rewrite Eid; [|reflexivity].
  cbn [j_title j_desc j_due j_priority j_category j_done j_created_at j_completed_at].
  rewrite !or_keep_twice.
  assert (Hdone : or_keep (p_done u) (j_done t) = true).
  { unfold sets_done in Hd. destruct (p_done u) as [[|]|]; try discriminate. reflexivity. }
  rewrite Hdone, Hd. cbn [negb andb]. reflexivity.
Qed.

(** X20.  In the fallback branch a completing update is idempotent: made
    a second time with the same keyword arguments, at whatever later
    time, it leaves the file exactly as the first call left it, the
    first completion timestamp included; and a task of the file that is
    already done keeps its timestamp when it is ticked again. *)
Theorem fallback_completion_idempotent (now1 now2 : datetime) (fault1 fault2 : option nat)
    (tid : string) (u : patch) (s : store) :
  sets_done u = true ->
  update_task None now2 fault2 tid u (snd (update_task None now1 fault1 tid u s))
  = (Returned tt, snd (update_task None now1 fault1 tid u s))
  /\ (forall t, In t (st_json s) -> j_done t = true ->
        j_completed_at (update_json_task now1 tid u t) = j_completed_at t).
Proof.
  intros Hd. split.
  - unfold update_task. cbn [snd st_db st_json]. f_equal. f_equal.
    rewrite List.map_map. apply List.map_ext. intros t.
    apply update_json_task_twice, Hd.
  - intros t _ Ht. apply update_json_task_keeps_stamp, Ht.
Qed.

End Fallback.

(** * The further properties on the sample data *)

(** A task with a new id is added. *)
Lemma add_task_all_or_nothing_witness :
  fst (add_task (rt := Sample.runtime) (Some 1) Sample.may1 "t-new" None "  Buy milk " ""
                PyNone None (Some "Shopping") Sample.store0)
  = Returned "t-new".
Proof.
  destruct (add_task_all_or_nothing (rt := Sample.runtime) 1 Sample.may1 "t-new" None
              "  Buy milk " "" PyNone None (Some "Shopping") Sample.store0)
    as (prio & _ & _ & _ & _ & Hok).
  apply Hok; reflexivity.
Defined.

(** Lowering the priority of an own task goes through. *)
Lemma update_task_edit_all_or_nothing_witness :
  fst (update_task (rt := Sample.runtime) (Some 1) Sample.may1 None "t-rent"
                   Demo.lower_priority Sample.store0)
  = Returned tt.
Proof.
  destruct (update_task_edit_all_or_nothing (rt := Sample.runtime) 1 Sample.may1 None "t-rent"
              Demo.lower_priority Sample.store0 eq_refl)
    as (_ & _ & _ & _ & Hok).
  apply Hok; [reflexivity | reflexivity | discriminate].
Defined.

(** Deleting an own task removes its row. *)
Lemma delete_task_all_or_nothing_witness :
  tasks (st_db (deleted_store 1 "t-rent" Sample.store0)) !! "t-rent" = None.
Proof.
  destruct (delete_task_all_or_nothing 1 None "t-rent" Sample.store0)
    as (_ & Hrow & _).
  exact (proj1 (Hrow Sample.rent eq_refl eq_refl)).
Defined.

(** A call made in a session leaves the fallback file alone. *)
Lemma run_branches_apart_witness :
  st_json (run (rt := Sample.runtime)
               [ mk_call (Some 1) Sample.may1 None (OpUpdate "t-rent" Sample.tick) ]
               Sample.store0)
  = st_json Sample.store0.
Proof.
  apply (proj1 (run_branches_apart (rt := Sample.runtime)
                  [ mk_call (Some 1) Sample.may1 None (OpUpdate "t-rent" Sample.tick) ]
                  Sample.store0)).
  repeat constructor. exists 1. reflexivity.
Defined.

(** The first account completes one task on 2024-05-01 and another the
    next day: 0 points become 27, and the streak goes from 1 to 2. *)
Lemma two_completions_witness :
  exists s1 s2 ur1 ur2,
    update_task (rt := Sample.runtime) (Some 1) Sample.may1 None "t-rent" Sample.tick
                Demo.store1 = (Returned tt, s1)
    /\ update_task (rt := Sample.runtime) (Some 1) Sample.may2 None "t-call" Sample.tick s1
       = (Returned tt, s2)
    /\ users (st_db s1) !! 1 = Some ur1
    /\ users (st_db s2) !! 1 = Some ur2
    /\ u_points ur2 = Some 27
    /\ u_streak ur2 = Some (or_zero (u_streak ur1) + 1).
Proof.
  destruct (two_completions (rt := Sample.runtime) 1 Sample.may1 Sample.may2 "t-rent" "t-call"
              Sample.tick Sample.tick Demo.store1 Sample.alice 0 Sample.rent Demo.call_mom
              (mk_datetime 739007 0))
    as (s1 & s2 & ur1 & ur2 & E1 & E2 & H1 & H2 & Hp & _ & Hnext & _);
    try reflexivity; try discriminate.
  exists s1, s2, ur1, ur2.
  split; [exact E1|]. split; [exact E2|]. split; [exact H1|]. split; [exact H2|].
  split; [exact Hp | exact (Hnext eq_refl)].
Defined.

(** A task due today, added without priority and ticked, gives 15 points. *)
Lemma add_then_complete_witness :
  exists s1 s2 r ur2,
    add_task (rt := Sample.runtime) (Some 1) Sample.may1 "t-new" None "Pay rent" ""
             (PyDate 739007) None (Some "Personal") Sample.store0 = (Returned "t-new", s1)
    /\ update_task (rt := Sample.runtime) (Some 1) Sample.may1_later None "t-new"
                   (checkbox_patch true) s1 = (Returned tt, s2)
    /\ tasks (st_db s2) !! "t-new" = Some r
    /\ t_priority r = Some "High"
    /\ users (st_db s2) !! 1 = Some ur2
    /\ u_points ur2 = Some 15.
Proof.
  destruct (add_then_complete (rt := Sample.runtime) 1 Sample.may1 Sample.may1_later "t-new"
              "Pay rent" "" 739007 None (Some "Personal") Sample.store0 Sample.alice 0)
    as (s1 & s2 & r & ur2 & E1 & E2 & _ & Hr & _ & _ & Hprio & Hu & Hp);
    try reflexivity; try (left; reflexivity); try (simpl; lia).
  exists s1, s2, r, ur2.
  split; [exact E1|]. split; [exact E2|]. split; [exact Hr|]. split; [exact Hprio|].
  split; [exact Hu | exact Hp].
Defined.

(** Unticking a task through the checkbox leaves the accounts alone. *)
Lemma checkbox_credits_transitions_witness :
  users (st_db (snd (on_checkbox (rt := Sample.runtime) (Some 1) Sample.may1 None "t-rent"
                                 Sample.rent false Sample.store0)))
  = users (st_db Sample.store0).
Proof.
  destruct (checkbox_credits_transitions (rt := Sample.runtime) 1 Sample.may1 None "t-rent"
              Sample.rent false Sample.store0 eq_refl) as (_ & Hsame & _).
  rewrite (Hsame eq_refl). reflexivity.
Defined.

(** The first account's task is among the tasks read for it. *)
Lemma load_tasks_own_rows_witness :
  In (dict_of_task "t-rent" Sample.rent) (load_tasks 1 (st_db Sample.store0)).
Proof.
  destruct (load_tasks_own_rows 1 (st_db Sample.store0)) as (rows & -> & Hin & _).
  apply (in_map (fun ir => dict_of_task (fst ir) (snd ir)) rows ("t-rent", Sample.rent)).
  apply Hin. split; reflexivity.
Defined.

(** A third account signs up in the sample database; when hashing the
    password raises, nothing is stored. *)
Lemma signup_form_creates_one_account_witness :
  (exists msg,
     fst (signup_form (rt := Sample.runtime) Sample.may1 (Returned Sample.known_hash) None
                      " Carol " " Carol@X.com " "secret1" "secret1" (st_db Sample.store0))
     = Returned msg)
  /\ signup_form (rt := Sample.runtime) Sample.may1 (Raised ValueError) None
                 " Carol " " Carol@X.com " "secret1" "secret1" (st_db Sample.store0)
     = (Raised ValueError, st_db Sample.store0).
Proof.
  split.
  - destruct (signup_form_creates_one_account (rt := Sample.runtime) Sample.may1
                (Returned Sample.known_hash) None " Carol " " Carol@X.com " "secret1" "secret1"
                (st_db Sample.store0)) as (_ & Hret & _).
    exact (Hret eq_refl (ex_intro _ Sample.known_hash eq_refl)).
  - destruct (signup_form_creates_one_account (rt := Sample.runtime) Sample.may1
                (Raised ValueError) None " Carol " " Carol@X.com " "secret1" "secret1"
                (st_db Sample.store0)) as (_ & _ & Hraise & _).
    apply (Hraise ValueError eq_refl); try discriminate; try reflexivity.
    intros i r Hi. cbn [Sample.store0 st_db users] in Hi.
    apply lookup_insert_Some in Hi as [[_ <-]|[_ Hi]]; [discriminate|].
    apply lookup_singleton_Some in Hi as [_ <-]. discriminate.
Defined.

(** The new account logs in at once, with the email typed in lower case. *)
Lemma signup_then_login_witness :
  login_local (rt := Sample.runtime)
    (snd (signup_form (rt := Sample.runtime) Sample.may1 (Returned Sample.known_hash) None
                      " Carol " " Carol@X.com " "secret1" "secret1" (st_db Sample.store0)))
    "carol@x.com" "secret1"
  = Returned (Some (dict_of_user 3 (new_account " Carol " " Carol@X.com " Sample.known_hash
                                               "2024-05-01T09:00:00")), None).
Proof.
  destruct (signup_then_login (rt := Sample.runtime) Sample.may1 Sample.known_hash None
              " Carol " " Carol@X.com " "secret1" "secret1" "carol@x.com"
              (st_db Sample.store0)) as (_ & Hl & _);
    [vm_compute; reflexivity | reflexivity | vm_compute; reflexivity |].
  exact Hl.
Defined.

(** "call mom in 3 days" is due three days ahead; a number of 4301 digits
    makes the parser raise ValueError. *)
Lemma voice_due_date_witness :
  PyStr.isascii "call mom in 3 days" = true
  /\ Voice.parse_voice_text_for_task 739008 "call mom in 3 days"
     = Returned ("call mom", Some 739011, None)
  /\ 739008 <= 739011 <= Voice.max_ordinal
  /\ PyStr.isascii Demo.long_wait = true
  /\ Voice.parse_voice_text_for_task 739008 Demo.long_wait = Raised ValueError.
Proof.
  assert (E : Voice.parse_voice_text_for_task 739008 "call mom in 3 days"
              = Returned ("call mom", Some 739011, None)) by (vm_compute; reflexivity).
  split; [reflexivity|]. split; [exact E|]. split.
  - destruct (proj1 (voice_due_date 739008 "call mom in 3 days" eq_refl) _ _ _ E)
      as (_ & _ & _ & Hrange & _).
    exact (Hrange 739011 eq_refl).
  - assert (Hascii : PyStr.isascii Demo.long_wait = true) by (vm_compute; reflexivity).
    split; [exact Hascii|].
    apply (proj2 (proj2 (voice_due_date 739008 Demo.long_wait Hascii))
                 (string_of_list_ascii (repeat "1"%char 4301))).
    + vm_compute. reflexivity.
    + vm_compute. reflexivity.
    + vm_compute. apply Nat.leb_le. vm_compute. reflexivity.
Defined.

(** A text with a time of day gets the suggestion of its date. *)
Lemma suggestion_by_calendar_date_witness :
  suggest_priority_by_due (rt := Sample.runtime) 739008 (PyStr "2024-05-04T18:30:00")
  = suggest_priority_by_due (rt := Sample.runtime) 739008 (PyDate 739010).
Proof.
  destruct (suggestion_by_calendar_date (rt := Sample.runtime) 739008) as (_ & Htext & _).
  apply (Htext "2024-05-04T18:30:00" (mk_datetime 739010 66600));
    [discriminate | vm_compute; reflexivity].
Defined.

(** Two records, total two. *)
Lemma category_histogram_total_witness :
  exists r,
    compute_analytics (pd := Sample.pandas)
      [ {[ "category" := VNone ]}; {[ "category" := VStr "Work" ]} ] = Returned r
    /\ histogram_total (a_categories r) = 2%nat.
Proof.
  eexists. split; [reflexivity|].
  apply (proj1 (category_histogram_total (pd := Sample.pandas)
                  [ {[ "category" := VNone ]}; {[ "category" := VStr "Work" ]} ]));
    reflexivity.
Defined.

(** The sample account is found under a variant of its email. *)
Lemma stored_email_finds_account_witness :
  get_user_by_email Sample.db0 "  A@X.COM" = Some (dict_of_user 1 Sample.alice).
Proof.
  destruct (stored_email_finds_account Sample.db0 1 Sample.alice "a@x.com" "  A@X.COM"
              eq_refl eq_refl) as (_ & _ & Hfind).
  apply Hfind; try reflexivity.
  intros i j ri rj Hi Hj _. cbn [Sample.db0 users] in Hi, Hj.
  apply lookup_singleton_Some in Hi as [<- _].
  apply lookup_singleton_Some in Hj as [<- _]. reflexivity.
Defined.

(** Searching "RENT" and "rent" shows the same rows. *)
Lemma filter_tasks_shows_witness :
  row_matches (mk_filters "rent" "All" "All" "All") Sample.rent
  = row_matches Demo.find_rent Sample.rent.
Proof.
  destruct (filter_tasks_shows Demo.find_rent) as (_ & _ & Hcase).
  apply (Hcase "rent" Sample.rent); [discriminate | discriminate | reflexivity].
Defined.


(** Ticking a task of the fallback file twice keeps the first timestamp. *)
Lemma fallback_completion_idempotent_witness :
  let file := [ mk_json_task "j-1" (Some "Water plants") (Some "") None (Some "Low")
                             (Some "Other") false "2024-05-01T08:00:00" None ] in
  let once := snd (update_task (rt := Sample.runtime) None Sample.may1 None "j-1" Sample.tick
                               (mk_store (st_db Sample.store0) file)) in
  update_task (rt := Sample.runtime) None Sample.may2 None "j-1" Sample.tick once
  = (Returned tt, once)
  /\ List.map j_completed_at (st_json once) = [ Some "2024-05-01T09:00:00" ].
Proof.
  split.
  - apply (proj1 (fallback_completion_idempotent (rt := Sample.runtime) Sample.may1 Sample.may2
                    None None "j-1" Sample.tick _ eq_refl)).
  - reflexivity.
Defined.
